(** * inoliblist: the crawl engine of the Arduino library lister

    A shallow embedding of [inoliblist.py]: the rate limiter
    ([check_rate_limiting]), the resilient fetcher ([get_json_from_url],
    [determine_urlopen_retry]), the library locator ([find_library_folder]),
    the two descriptor parsers ([parse_library_dot_properties],
    [parse_library_dot_json]) and the row builder ([populate_row]).

    Python values are a small inductive type, exceptions are an error type,
    and the script's globals (the quota cache, the clock, the network) are
    threaded through a state-and-error monad.  The catalog [table] is passed
    explicitly: only [populate_row] reads or appends to it.  Of the output
    of the script only the [logger.warning] messages are kept; [print] and
    [logger.info] have no counterpart here, except where computing the
    printed text can raise.  A text is the byte string of its UTF-8
    encoding, and the operations that depend on character boundaries or
    classes ([strip], [splitlines], slicing, iterating) work on its
    characters. *)

From Stdlib Require Import ZArith QArith Qabs Qround String Ascii DecimalString List Lia.
From stdpp Require Import base list vector strings.
Import ListNotations.
Open Scope string_scope.
Set Warnings "-register-all".

(** ** Python values and exceptions *)

(** The values [json.loads] produces. A dict is an association list with
    string keys, looked up by first match. *)
Inductive pyval : Type :=
| PNone
| PBool (b : bool)
| PInt (z : Z)
| PFloat (q : Q)
| PStr (s : string)
| PList (l : list pyval)
| PDict (d : list (string * pyval)).

(** The exception classes the script raises, catches or lets through. *)
Inductive exn : Type :=
| HTTPError (code : nat) (msg : string)
| JSONDecodeError
| TimeoutError
| KeyError
| TypeError
| ValueError
| IndexError
| AttributeError
| OverflowError.

(** The outcome of a call: a value, a raised exception, or [OutOfFuel] when
    a pagination loop of the model was given too few iterations. *)
Inductive result (A : Type) : Type :=
| Ok (a : A)
| Raise (e : exn)
| OutOfFuel.
Arguments Ok {A} a.
Arguments Raise {A} e.
Arguments OutOfFuel {A}.

Definition and_then {A B} (r : result A) (k : A -> result B) : result B :=
  match r with
  | Ok a => k a
  | Raise e => Raise e
  | OutOfFuel => OutOfFuel
  end.

Notation "x <-- r ;; k" := (and_then r (fun x => k))
  (at level 100, r at next level, right associativity).

(** [bool(v)]: Python truthiness, as in [if not json_data]. *)
Definition py_truthy (v : pyval) : bool :=
  match v with
  | PNone => false
  | PBool b => b
  | PInt z => negb (z =? 0)%Z
  | PFloat q => negb (Qnum q =? 0)%Z
  | PStr s => negb (String.eqb s "")
  | PList l => match l with [] => false | _ => true end
  | PDict d => match d with [] => false | _ => true end
  end.

(** [v == 0]: numbers and booleans compare by value, the rest is unequal. *)
Definition py_eq_zero (v : pyval) : bool :=
  match v with
  | PInt z => (z =? 0)%Z
  | PBool b => negb b
  | PFloat q => (Qnum q =? 0)%Z
  | _ => false
  end.

(** [v == "literal"]. *)
Definition py_eq_str (v : pyval) (s : string) : bool :=
  match v with
  | PStr t => String.eqb t s
  | _ => false
  end.

Fixpoint dict_get (k : string) (d : list (string * pyval)) : option pyval :=
  match d with
  | [] => None
  | (k', v) :: d' => if String.eqb k' k then Some v else dict_get k d'
  end.

(** [d[k] = v] on a dict: the value under an existing key is replaced in
    place, a new key goes to the end. *)
Fixpoint dict_set (k : string) (v : pyval) (d : list (string * pyval))
  : list (string * pyval) :=
  match d with
  | [] => [(k, v)]
  | (k', v') :: d' =>
      if String.eqb k' k then (k, v) :: d' else (k', v') :: dict_set k v d'
  end.

(** [v[k]] with a string key [k]: a dict gives the value or [KeyError];
    a list or a string want integer indices and every other value is not
    subscriptable, all of which is [TypeError]. *)
Definition py_getitem (v : pyval) (k : string) : result pyval :=
  match v with
  | PDict d =>
      match dict_get k d with
      | Some x => Ok x
      | None => Raise KeyError
      end
  | _ => Raise TypeError
  end.

(** ** Text

    A Python [str] is represented by the bytes of its UTF-8 encoding, as
    the script obtains every text by [decode("utf-8", "ignore")] or from
    [json.loads]. Comparing, concatenating, testing a prefix or a suffix,
    and splitting at or replacing ASCII characters act on the bytes as
    they act on the characters. What depends on where a character starts
    or on its class (iterating, slicing by a count, [strip],
    [splitlines]) goes through [characters]. *)

(** A byte 10xxxxxx, which continues a character. *)
Definition is_continuation (c : ascii) : bool :=
  let n := nat_of_ascii c in ((128 <=? n) && (n <? 192))%nat.

(** The characters of a text, each with its bytes: a byte that is not a
    continuation byte starts a character. *)
Fixpoint characters (s : string) : list string :=
  match s with
  | EmptyString => []
  | String c s' =>
      match s' with
      | String d _ =>
          if is_continuation d then
            match characters s' with
            | character :: rest => String c character :: rest
            | [] => [String c EmptyString]
            end
          else String c EmptyString :: characters s'
      | EmptyString => [String c EmptyString]
      end
  end.

(** The text made of the given characters. *)
Definition glue (pieces : list string) : string :=
  fold_right append EmptyString pieces.

(** The UTF-8 encoding of a code point. *)
Definition utf8 (n : N) : string :=
  (if n <? 128 then String (ascii_of_N n) EmptyString
   else if n <? 2048 then
     String (ascii_of_N (192 + n / 64))
       (String (ascii_of_N (128 + n mod 64)) EmptyString)
   else if n <? 65536 then
     String (ascii_of_N (224 + n / 4096))
       (String (ascii_of_N (128 + (n / 64) mod 64))
          (String (ascii_of_N (128 + n mod 64)) EmptyString))
   else
     String (ascii_of_N (240 + n / 262144))
       (String (ascii_of_N (128 + (n / 4096) mod 64))
          (String (ascii_of_N (128 + (n / 64) mod 64))
             (String (ascii_of_N (128 + n mod 64)) EmptyString))))%N.

(** Iterating a value: the items of a list, the characters of a string, the
    keys of a dict; nothing else is iterable. *)
Definition py_iter (v : pyval) : option (list pyval) :=
  match v with
  | PList l => Some l
  | PStr s => Some (map PStr (characters s))
  | PDict d => Some (map (fun kv => PStr (fst kv)) d)
  | _ => None
  end.

(** [list(v)]. *)
Definition py_list (v : pyval) : result (list pyval) :=
  match py_iter v with
  | Some l => Ok l
  | None => Raise TypeError
  end.

Definition py_hashable (v : pyval) : bool :=
  match v with
  | PList _ | PDict _ => false
  | _ => true
  end.

(** The loop of [dict(iterable)]: every element must itself iterate to
    exactly two items, a key and a value, and the key must be hashable.
    Entries under keys that are not strings are dropped here: the script
    only ever looks string keys up. *)
Fixpoint dict_of_pairs (items : list pyval) (acc : list (string * pyval))
  : result (list (string * pyval)) :=
  match items with
  | [] => Ok acc
  | item :: rest =>
      match py_iter item with
      | None => Raise TypeError
      | Some [k; v] =>
          if py_hashable k then
            dict_of_pairs rest
              (match k with PStr s => dict_set s v acc | _ => acc end)
          else Raise TypeError
      | Some _ => Raise ValueError
      end
  end.

(** [dict(v)]: a dict is copied, any other iterable is read as a sequence
    of key/value pairs, anything else raises [TypeError]. *)
Definition py_dict (v : pyval) : result (list (string * pyval)) :=
  match v with
  | PDict d => Ok d
  | _ =>
      match py_iter v with
      | Some items => dict_of_pairs items []
      | None => Raise TypeError
      end
  end.

(** ** String operations of the Python standard library *)

Definition dquote : string := String (ascii_of_nat 34) EmptyString.

Definition startswith (s p : string) : bool := String.prefix p s.

Definition endswith (s suffix : string) : bool :=
  String.prefix (String.rev suffix) (String.rev s).

(** [s.find(pattern) != -1]. *)
Definition contains (s pattern : string) : bool :=
  match String.index 0 pattern s with
  | Some _ => true
  | None => false
  end.

(** [s.split(c)] and [re.split("[...]", s)] for a class of single
    characters: the pieces between separators, empty pieces included. *)
Fixpoint split_by (sep : ascii -> bool) (s : string) : list string :=
  match s with
  | EmptyString => [EmptyString]
  | String c s' =>
      if sep c then EmptyString :: split_by sep s'
      else
        match split_by sep s' with
        | piece :: pieces => String c piece :: pieces
        | [] => [String c EmptyString]
        end
  end.

Definition split_on (c : ascii) (s : string) : list string :=
  split_by (Ascii.eqb c) s.

(** [s.split(c, 1)]: [Some (before, after)] around the first [c], [None]
    (a single piece) when [c] does not occur. *)
Fixpoint split_first (c : ascii) (s : string) : option (string * string) :=
  match s with
  | EmptyString => None
  | String a s' =>
      if Ascii.eqb a c then Some (EmptyString, s')
      else
        match split_first c s' with
        | Some (before, after) => Some (String a before, after)
        | None => None
        end
  end.

(** The code points [str.isspace] accepts: the characters of general
    category Zs or of bidirectional class WS, B or S. *)
Definition whitespace : list N :=
  [9; 10; 11; 12; 13; 28; 29; 30; 31; 32; 133; 160; 5760;
   8192; 8193; 8194; 8195; 8196; 8197; 8198; 8199; 8200; 8201; 8202;
   8232; 8233; 8239; 8287; 12288]%N.

Definition is_space (character : string) : bool :=
  existsb (fun n => String.eqb character (utf8 n)) whitespace.

Fixpoint skip_spaces (chars : list string) : list string :=
  match chars with
  | character :: rest => if is_space character then skip_spaces rest else chars
  | [] => []
  end.

(** [s.strip()]: white space is dropped at both ends. *)
Definition strip (s : string) : string :=
  glue (rev (skip_spaces (rev (skip_spaces (characters s))))).

(** [s.replace(old, new)] for a non-empty [old]: occurrences are replaced
    left to right without overlap; [skip] counts the characters of a
    matched occurrence still to be passed over. *)
Fixpoint replace_from (old new : string) (skip : nat) (s : string) : string :=
  match s with
  | EmptyString => EmptyString
  | String c s' =>
      match skip with
      | S k => replace_from old new k s'
      | O =>
          if String.prefix old s
          then new +:+ replace_from old new (String.length old - 1) s'
          else String c (replace_from old new 0 s')
      end
  end.

Definition replace (old new s : string) : string := replace_from old new 0 s.

(** The line boundaries of [str.splitlines]: line feed, vertical tab,
    form feed, carriage return, the file, group and record separators,
    next line, line separator and paragraph separator. *)
Definition line_boundaries : list N :=
  [10; 11; 12; 13; 28; 29; 30; 133; 8232; 8233]%N.

Definition is_linebreak (character : string) : bool :=
  existsb (fun n => String.eqb character (utf8 n)) line_boundaries.

(** [s.splitlines()]: a carriage return followed by a line feed is one
    boundary, and no empty line is reported after a final boundary. *)
Fixpoint lines_from (after_cr : bool) (chars : list string) : list string :=
  match chars with
  | [] => []
  | character :: rest =>
      if after_cr && String.eqb character (utf8 10) then lines_from false rest
      else if is_linebreak character
      then EmptyString :: lines_from (String.eqb character (utf8 13)) rest
      else
        match lines_from false rest with
        | line :: more => (character +:+ line) :: more
        | [] => [character]
        end
  end.

Definition splitlines (s : string) : list string :=
  lines_from false (characters s).

(** [sep.join(pieces)]. *)
Definition join (sep : string) (pieces : list string) : string :=
  String.concat sep pieces.

Definition str_of_nat (n : nat) : string :=
  NilZero.string_of_uint (Nat.to_uint n).

Definition str_of_Z (z : Z) : string :=
  NilZero.string_of_int (Z.to_int z).

(** ** Configuration parameters and column indexes *)

Definition minutes_between_timeout_notifications : Z := 5.
Definition urlopen_retry_on_http_error : list string := ["403"; "502"; "503"].
Definition urlopen_retry_delay : Z := 60.
Definition urlopen_maximum_retries : nat := 5.
Definition results_per_page : nat := 100.

(** A row has [Column.count] cells and every index used is one of the
    constants below, so rows are vectors and indexes are in range by type. *)
Fixpoint fin_of (m i : nat) : fin (S m) :=
  match i, m with
  | S i', S m' => FS (fin_of m' i')
  | _, _ => 0%fin
  end.

Module Column.
Definition count : nat := 36.
Definition index (i : nat) : fin count := fin_of 35 i.
Definition repository_url := index 0.
Definition repository_owner := index 1.
Definition repository_name := index 2.
Definition repository_default_branch := index 3.
Definition library_path := index 4.
Definition archived := index 5.
Definition is_fork := index 6.
Definition last_push_date := index 7.
Definition fork_count := index 8.
Definition star_count := index 9.
Definition contributor_count := index 10.
Definition repository_license := index 11.
Definition repository_language := index 12.
Definition repository_description := index 13.
Definition github_topics := index 14.
Definition in_library_manager_index := index 15.
Definition library_manager_name := index 16.
Definition library_manager_version := index 17.
Definition library_manager_author := index 18.
Definition library_manager_maintainer := index 19.
Definition library_manager_sentence := index 20.
Definition library_manager_paragraph := index 21.
Definition library_manager_category := index 22.
Definition library_manager_url := index 23.
Definition library_manager_architectures := index 24.
Definition platformio_name := index 25.
Definition platformio_description := index 26.
Definition platformio_keywords := index 27.
Definition platformio_authors := index 28.
Definition platformio_repository := index 29.
Definition platformio_version := index 30.
Definition platformio_license := index 31.
Definition platformio_download_url := index 32.
Definition platformio_homepage := index 33.
Definition platformio_frameworks := index 34.
Definition platformio_platforms := index 35.
End Column.

(** The row being filled by [populate_row] may hold any value (the JSON
    parser stores an author name as it finds it); a row of the catalog
    holds strings. *)
Definition row_list : Type := vec pyval Column.count.
Definition table_row : Type := vec string Column.count.

(** ** The session: network, clock and quota cache *)

(** What [urllib.request.urlopen] does with one request: it raises
    [urllib.error.HTTPError] with a status code and reason, or yields a
    response with its decoded text, what [json.loads] makes of that text
    ([None] when it raises [JSONDecodeError]), and the [Link] and
    [X-RateLimit-Remaining] headers. *)
Inductive response : Type :=
| HttpFailure (code : nat) (reason : string)
| HttpOk (text : string) (decoded : option pyval)
         (link : option string) (rate_remaining : option string).

Inductive api_type : Type := Search | Core.

Definition api_name (api : api_type) : string :=
  match api with
  | Search => "search"
  | Core => "core"
  end.

(** [net n url] is the outcome of the [n]-th request of the run when it
    opens [url]; [requests] logs the URLs opened, latest first;
    [remaining_search] and [remaining_core] are the two entries of
    [last_api_requests_remaining_value]; [warnings] collects the
    [logger.warning] messages, latest first. *)
Record session : Type := {
  net : nat -> string -> response;
  requests : list string;
  clock : Z;
  remaining_search : pyval;
  remaining_core : pyval;
  warnings : list string
}.

Definition N (A : Type) : Type := session -> result A * session.

Definition ret {A} (a : A) : N A := fun s => (Ok a, s).

Definition raise {A} (e : exn) : N A := fun s => (Raise e, s).

Definition out_of_fuel {A} : N A := fun s => (OutOfFuel, s).

Definition bind {A B} (m : N A) (k : A -> N B) : N B :=
  fun s =>
    match m s with
    | (Ok a, s') => k a s'
    | (Raise e, s') => (Raise e, s')
    | (OutOfFuel, s') => (OutOfFuel, s')
    end.

Notation "x <- m ;; k" := (bind m (fun x => k))
  (at level 100, m at next level, right associativity).
Notation "m ;; k" := (bind m (fun _ => k))
  (at level 100, right associativity).

Definition lift {A} (r : result A) : N A := fun s => (r, s).

(** [try: body / except ...: handler]: [handler e] is [None] for an
    exception no [except] clause names, which then propagates. What the
    body did to the session before raising stays done. *)
Definition try_except {A} (body : N A) (handler : exn -> option (N A)) : N A :=
  fun s =>
    match body s with
    | (Raise e, s') =>
        match handler e with
        | Some h => h s'
        | None => (Raise e, s')
        end
    | other => other
    end.

(** One request. The headers the script attaches (the preview media type,
    the token) do not enter the model: the network answers as it pleases. *)
Definition urlopen (url : string) : N response :=
  fun s =>
    (Ok (net s (length (requests s)) url),
     {| net := net s; requests := url :: requests s; clock := clock s;
        remaining_search := remaining_search s;
        remaining_core := remaining_core s; warnings := warnings s |}).

(** [time.sleep(seconds)]. *)
Definition sleep (seconds : Z) : N unit :=
  fun s =>
    (Ok tt,
     {| net := net s; requests := requests s; clock := (clock s + seconds)%Z;
        remaining_search := remaining_search s;
        remaining_core := remaining_core s; warnings := warnings s |}).

(** The polling loop [while time.time() < reset_time] of
    [check_rate_limiting]: the wall clock advances by itself and the loop
    ends at the first reading that is not below [reset_time], so the clock
    is moved up to [reset_time] when it is behind. Inside the loop, at the
    first reading more than [seconds_before_notice] after
    [notification_timestamp = 0], the message of the [print] is computed:
    [int((rate_limiting_reset_time - time.time()) / 60)] raises
    [OverflowError] when [overflows], that is when the reset time does not
    convert to a finite float; such a reset time lies beyond that reading,
    so the exception is raised there. *)
Definition wait_until_reading (seconds_before_notice reset_time : Z)
    (overflows : bool) : N unit :=
  fun s =>
    if (clock s <? reset_time)%Z then
      if overflows then
        (Raise OverflowError,
         {| net := net s; requests := requests s;
            clock := Z.max (clock s) (seconds_before_notice + 1);
            remaining_search := remaining_search s;
            remaining_core := remaining_core s; warnings := warnings s |})
      else
        (Ok tt,
         {| net := net s; requests := requests s;
            clock := reset_time;
            remaining_search := remaining_search s;
            remaining_core := remaining_core s; warnings := warnings s |})
    else (Ok tt, s).

Definition logger_warning (message : string) : N unit :=
  fun s =>
    (Ok tt,
     {| net := net s; requests := requests s; clock := clock s;
        remaining_search := remaining_search s;
        remaining_core := remaining_core s;
        warnings := message :: warnings s |}).

Definition get_remaining (api : api_type) : N pyval :=
  fun s =>
    (Ok match api with
        | Search => remaining_search s
        | Core => remaining_core s
        end, s).

Definition set_remaining (api : api_type) (v : pyval) : N unit :=
  fun s =>
    (Ok tt,
     {| net := net s; requests := requests s; clock := clock s;
        remaining_search :=
          match api with Search => v | Core => remaining_search s end;
        remaining_core :=
          match api with Core => v | Search => remaining_core s end;
        warnings := warnings s |}).

(** ** Library functions taken as an interface *)

(** [urllib.parse.urlparse], [urllib.parse.quote] with [safe="&=?/+"] and
    [urllib.parse.urlunparse]; [repr] for the values whose [str] is their
    [repr] (floats, lists, dicts); [int] on a header text, [None] when it
    raises [ValueError]. *)
Class PyLib : Type := {
  urlparse : string -> list string;
  quote : string -> string;
  urlunparse : list string -> string;
  py_repr : pyval -> string;
  py_int : string -> option Z
}.

(** The repository object of the GitHub API, with the fields the script
    reads. [license] is [None] for [null], [Some None] for an object whose
    [spdx_id] is [null]. *)
Record repository : Type := {
  html_url : string;
  owner_login : string;
  name : string;
  default_branch : string;
  archived : bool;
  fork : bool;
  pushed_at : option string;
  forks_count : Z;
  stargazers_count : Z;
  language : option string;
  description : option string;
  topics : list string;
  license : option (option string)
}.

(** The dictionary [get_json_from_url] returns. [page_count] is whatever
    the code puts there, a number or a piece of the [Link] header. *)
Record fetch_result : Type := {
  json_data : pyval;
  additional_pages : bool;
  page_count : pyval
}.

Definition next_marker : string := ">; rel=" +:+ dquote +:+ "next" +:+ dquote.
Definition last_marker : string := ">; rel=" +:+ dquote +:+ "last" +:+ dquote.

(** The character class of [re.split("[?&>]", link)]. *)
Definition is_query_separator (c : ascii) : bool :=
  Ascii.eqb c "?" || Ascii.eqb c "&" || Ascii.eqb c ">".

(** The body of [for parameter in link]: [parameter[:5] == "page="] is
    [startswith], and [parameter.split('=')[1]] then exists. *)
Definition page_parameter (page_count : pyval) (parameter : string) : pyval :=
  if startswith parameter "page=" then
    match split_on "=" parameter with
    | _ :: value :: _ => PStr value
    | _ => page_count
    end
  else page_count.

(** The body of [for link in ...split(',')]: [link[-13:]] equals the
    thirteen characters of [last_marker] exactly when [link] ends with it. *)
Definition link_relation (page_count : pyval) (link : string) : pyval :=
  if endswith link last_marker
  then fold_left page_parameter (split_by is_query_separator link) page_count
  else page_count.

(** [page_count] and [additional_pages] as [get_json_from_url] derives
    them from the decoded body and the [Link] header. *)
Definition pagination (body : pyval) (link_header : option string) : bool * pyval :=
  if negb (py_truthy body) then (false, PInt 0)
  else
    match link_header with
    | None => (false, PInt 1)
    | Some text =>
        (contains text next_marker,
         fold_left link_relation (split_on "," text) (PInt 1))
    end.

(** [str(exception)] of a [urllib.error.HTTPError]. *)
Definition http_error_str (code : nat) (msg : string) : string :=
  "HTTP Error " +:+ str_of_nat code +:+ ": " +:+ msg.

Definition str_of_bool (b : bool) : string := if b then "True" else "False".

Definition str_of_nullable (o : option string) : string :=
  match o with
  | Some s => s
  | None => "None"
  end.

Section Engine.
Context {lib : PyLib}.

(** [str(v)]. *)
Definition py_str (v : pyval) : string :=
  match v with
  | PNone => "None"
  | PBool b => str_of_bool b
  | PInt z => str_of_Z z
  | PStr s => s
  | _ => py_repr v
  end.

Definition normalize_url (url : string) : string :=
  urlunparse
    (map (fun url_part => quote (replace "//" "/" (replace "///" "/" url_part)))
         (urlparse url)).

(** The [for error_code in ...] loop returns at the first code whose
    prefix matches, after sleeping; its [else] branch returns [False]. *)
Definition determine_urlopen_retry (code : nat) (msg : string) : N bool :=
  if existsb
       (fun error_code =>
          startswith (http_error_str code msg) ("HTTP Error " +:+ error_code))
       urlopen_retry_on_http_error
  then sleep urlopen_retry_delay ;; ret true
  else ret false.

(** The [X-RateLimit-Remaining] header of an API response updates the
    cached counter of its pool. *)
Definition record_rate_limit (url : string) (header : option string) : N unit :=
  if startswith url "https://api.github.com" then
    match header with
    | Some text =>
        match py_int text with
        | Some n =>
            if startswith url "https://api.github.com/search"
            then set_remaining Search (PInt n)
            else set_remaining Core (PInt n)
        | None => raise ValueError
        end
    | None => ret tt
    end
  else ret tt.

(** The loop [while retry_count <= urlopen_maximum_retries] with
    [retry_count] starting at 0 and incremented at the top of the body:
    [attempts] is the number of iterations still allowed, and falling
    out of the loop raises [TimeoutError]. *)
Fixpoint get_json_attempts (attempts : nat) (url : string) : N fetch_result :=
  match attempts with
  | O => raise TimeoutError
  | S attempts' =>
      url_data <- urlopen url ;;
      match url_data with
      | HttpFailure code msg =>
          retry <- determine_urlopen_retry code msg ;;
          if retry then get_json_attempts attempts' url
          else raise (HTTPError code msg)
      | HttpOk _ decoded link rate_remaining =>
          match decoded with
          | None => raise JSONDecodeError
          | Some body =>
              let pages := pagination body link in
              record_rate_limit url rate_remaining ;;
              ret {| json_data := body;
                     additional_pages := fst pages;
                     page_count := snd pages |}
          end
      end
  end.

Definition get_json_from_url (url : string) : N fetch_result :=
  get_json_attempts (S urlopen_maximum_retries) (normalize_url url).

Definition rate_limit_url : string := "https://api.github.com/rate_limit".

(** The least magnitude that [float] does not hold: an [int] from there
    on raises [OverflowError] when converted, and a JSON number from
    there on is read as infinity, which [int] refuses likewise. *)
Definition float_limit : Z := (2 ^ 1024 - 2 ^ 970)%Z.

(** [while time.time() < rate_limiting_reset_time]: the comparison
    raises [TypeError] unless the reset time is a number. *)
Definition wait_until (reset_time : pyval) : N unit :=
  let notice := (minutes_between_timeout_notifications * 60)%Z in
  match reset_time with
  | PInt z => wait_until_reading notice z (float_limit <=? Z.abs z)%Z
  | PBool b => wait_until_reading notice (if b then 1 else 0)%Z false
  | PFloat q =>
      wait_until_reading notice (Qceiling q)
        (Qle_bool (inject_Z float_limit) (Qabs q))
  | _ => raise TypeError
  end.

Definition check_rate_limiting (api : api_type) : N unit :=
  cached <- get_remaining api ;;
  if py_eq_zero cached then
    fetched <- get_json_from_url rate_limit_url ;;
    status <- lift (py_dict (json_data fetched)) ;;
    resources <- lift (py_getitem (PDict status) "resources") ;;
    pool <- lift (py_getitem resources (api_name api)) ;;
    remaining <- lift (py_getitem pool "remaining") ;;
    set_remaining api remaining ;;
    rate_limiting_reset_time <- lift (py_getitem pool "reset") ;;
    _ <- lift (py_getitem pool "limit") ;;
    refreshed <- get_remaining api ;;
    if py_eq_zero refreshed
    then wait_until rate_limiting_reset_time
         (* the cached value is left at 0 *)
    else ret tt
  else ret tt.

Definition get_github_api_response
    (request request_parameters : string) (page_number : nat) : N fetch_result :=
  let api := if startswith request "search" then Search else Core in
  check_rate_limiting api ;;
  get_json_from_url
    ("https://api.github.com/" +:+ request +:+ "?" +:+ request_parameters +:+
     "&page=" +:+ str_of_nat page_number +:+
     "&per_page=" +:+ str_of_nat results_per_page).

(** ** Descriptor parsers *)

Definition raw_file_url (repository_object : repository)
    (metadata_folder file_name : string) : string :=
  "https://raw.githubusercontent.com/" +:+
  owner_login repository_object +:+ "/" +:+
  name repository_object +:+ "/" +:+
  default_branch repository_object +:+ "/" +:+
  metadata_folder +:+ "/" +:+ file_name.

(** One line of library.properties: split at the first [=], the field
    name stripped, the value stored as it stands. *)
Definition properties_line (row : row_list) (line : string) : row_list :=
  match split_first "=" line with
  | Some (before, field_value) =>
      let field_name := strip before in
      if String.eqb field_name "name" then
        vinsert Column.library_manager_name (PStr field_value) row
      else if String.eqb field_name "version" then
        vinsert Column.library_manager_version (PStr field_value) row
      else if String.eqb field_name "author" then
        vinsert Column.library_manager_author (PStr field_value) row
      else if String.eqb field_name "maintainer" then
        vinsert Column.library_manager_maintainer (PStr field_value) row
      else if String.eqb field_name "sentence" then
        vinsert Column.library_manager_sentence (PStr field_value) row
      else if String.eqb field_name "paragraph" then
        vinsert Column.library_manager_paragraph (PStr field_value) row
      else if String.eqb field_name "category" then
        vinsert Column.library_manager_category (PStr field_value) row
      else if String.eqb field_name "url" then
        vinsert Column.library_manager_url (PStr field_value) row
      else if String.eqb field_name "architectures" then
        vinsert Column.library_manager_architectures (PStr field_value) row
      else row
  | None => row
  end.

(** The retry loop of [parse_library_dot_properties], [attempts]
    iterations left. The function returns [True] or [False] from inside
    the loop; when the loop runs out it ends without a [return], which
    is Python's [None]: the first component is [Some b] for [return b]
    and [None] for that. *)
Fixpoint properties_attempts (attempts : nat) (url : string) (row : row_list)
  : N (option bool * row_list) :=
  match attempts with
  | O => ret (None, row)
  | S attempts' =>
      url_data <- urlopen url ;;
      match url_data with
      | HttpOk text _ _ _ =>
          ret (Some true, fold_left properties_line (splitlines text) row)
      | HttpFailure code msg =>
          retry <- determine_urlopen_retry code msg ;;
          if retry then properties_attempts attempts' url row
          else ret (Some false, row)
      end
  end.

Definition parse_library_dot_properties (metadata_folder : string)
    (repository_object : repository) (row : row_list)
  : N (option bool * row_list) :=
  properties_attempts (S urlopen_maximum_retries)
    (normalize_url (raw_file_url repository_object metadata_folder "library.properties"))
    row.

(** [if parse_library_dot_properties(...)]: [None] and [False] are falsy. *)
Definition returned_true (r : option bool) : bool :=
  match r with
  | Some b => b
  | None => false
  end.

(** [try: row_list[column] = str(json_data[key])], [KeyError] passed
    over, [TypeError] logged. *)
Definition store_str (column : fin Column.count) (key : string)
    (json : list (string * pyval)) (repository_object : repository)
    (row : row_list) : N row_list :=
  try_except
    (value <- lift (py_getitem (PDict json) key) ;;
     ret (vinsert column (PStr (py_str value)) row))
    (fun e =>
       match e with
       | KeyError => Some (ret row)
       | TypeError =>
           Some (logger_warning
                   ("Can't handle type of library.json " +:+ key +:+
                    " field for " +:+ html_url repository_object) ;;
                 ret row)
       | _ => None
       end).

(** [str(json_data["repository"]["url"])]. *)
Definition store_repository (json : list (string * pyval))
    (repository_object : repository) (row : row_list) : N row_list :=
  try_except
    (repository_field <- lift (py_getitem (PDict json) "repository") ;;
     url <- lift (py_getitem repository_field "url") ;;
     ret (vinsert Column.platformio_repository (PStr (py_str url)) row))
    (fun e =>
       match e with
       | KeyError => Some (ret row)
       | TypeError =>
           Some (logger_warning
                   ("Can't handle type of library.json repository field for " +:+
                    html_url repository_object) ;;
                 ret row)
       | _ => None
       end).

(** The generator [author["name"] for author in ...], run to its end. *)
Fixpoint author_names (authors : list pyval) : result (list pyval) :=
  match authors with
  | [] => Ok []
  | author :: rest =>
      match py_getitem author "name" with
      | Ok author_name =>
          match author_names rest with
          | Ok names => Ok (author_name :: names)
          | Raise e => Raise e
          | OutOfFuel => OutOfFuel
          end
      | Raise e => Raise e
      | OutOfFuel => OutOfFuel
      end
  end.

(** The items [str.join] accepts: strings only. *)
Fixpoint str_items (items : list pyval) : result (list string) :=
  match items with
  | [] => Ok []
  | PStr s :: rest =>
      match str_items rest with
      | Ok strings => Ok (s :: strings)
      | other => other
      end
  | _ :: _ => Raise TypeError
  end.

(** [sep.join(items)]: [TypeError] on an item that is not a string. *)
Definition py_join (sep : string) (items : list pyval) : result string :=
  match str_items items with
  | Ok strings => Ok (join sep strings)
  | Raise e => Raise e
  | OutOfFuel => OutOfFuel
  end.

(** The [authors] block: only [KeyError] is caught. *)
Definition store_authors (json : list (string * pyval))
    (repository_object : repository) (row : row_list) : N row_list :=
  try_except
    (authors <- lift (py_getitem (PDict json) "authors") ;;
     match authors with
     | PList items =>
         names <- lift (author_names items) ;;
         joined <- lift (py_join ", " names) ;;
         ret (vinsert Column.platformio_authors (PStr joined) row)
     | PDict _ =>
         author_name <- lift (py_getitem authors "name") ;;
         ret (vinsert Column.platformio_authors author_name row)
     | PStr _ => ret (vinsert Column.platformio_authors authors row)
     | _ =>
         logger_warning
           ("Can't handle type of library.json authors field for " +:+
            html_url repository_object) ;;
         ret row
     end)
    (fun e => match e with KeyError => Some (ret row) | _ => None end).

(** The [frameworks] and [platforms] blocks: a string or a list to be
    joined; only [KeyError] is caught. *)
Definition store_joined (column : fin Column.count) (key : string)
    (json : list (string * pyval)) (repository_object : repository)
    (row : row_list) : N row_list :=
  try_except
    (value <- lift (py_getitem (PDict json) key) ;;
     match value with
     | PList items =>
         joined <- lift (py_join ", " items) ;;
         ret (vinsert column (PStr joined) row)
     | PStr _ => ret (vinsert column value row)
     | _ =>
         logger_warning
           ("Couldn't parse library.json " +:+ key +:+ " field for " +:+
            html_url repository_object) ;;
         ret row
     end)
    (fun e => match e with KeyError => Some (ret row) | _ => None end).

(** The first [try] of [parse_library_dot_json] returns from the
    function in both handlers: [inl b] stands for [return b], [inr] for
    going on with the fetched dictionary. *)
Definition fetch_library_dot_json (url : string) : N (bool + fetch_result) :=
  try_except
    (fetched <- get_json_from_url url ;; ret (inr fetched))
    (fun e =>
       match e with
       | JSONDecodeError =>
           Some (logger_warning ("Unable to decode JSON of: " +:+ url) ;;
                 ret (inl true))
       | HTTPError _ _ | TimeoutError => Some (ret (inl false))
       | _ => None
       end).

Definition parse_library_dot_json (metadata_folder : string)
    (repository_object : repository) (row : row_list) : N (bool * row_list) :=
  let url := raw_file_url repository_object metadata_folder "library.json" in
  outcome <- fetch_library_dot_json url ;;
  match outcome with
  | inl found => ret (found, row)
  | inr fetched =>
      json <- lift (py_dict (json_data fetched)) ;;
      row <- store_str Column.platformio_name "name" json repository_object row ;;
      row <- store_str Column.platformio_description "description" json repository_object row ;;
      row <- store_str Column.platformio_keywords "keywords" json repository_object row ;;
      row <- store_authors json repository_object row ;;
      row <- store_repository json repository_object row ;;
      row <- store_str Column.platformio_version "version" json repository_object row ;;
      row <- store_str Column.platformio_license "license" json repository_object row ;;
      row <- store_str Column.platformio_download_url "downloadUrl" json repository_object row ;;
      row <- store_str Column.platformio_homepage "homepage" json repository_object row ;;
      row <- store_joined Column.platformio_frameworks "frameworks" json repository_object row ;;
      row <- store_joined Column.platformio_platforms "platforms" json repository_object row ;;
      ret (true, row)
  end.

(** ** Library locator *)

Definition header_extensions : list string := [".h"; ".hh"; ".hpp"].
Definition sketch_extensions : list string := [".ino"; ".pde"].
Definition examples_names : list string :=
  ["examples"; "example"; "Examples"; "Example"; "EXAMPLES"; "EXAMPLE"].

(** [item["type"] == "file" and len(item["name"].split('.')) > 1 and
    (item["name"].endswith(e1) or ...)], evaluated left to right with
    Python's short circuit; [split] on a name that is not a string is
    [AttributeError]. *)
Definition file_with_extension (item : pyval) (extensions : list string)
  : result bool :=
  item_type <-- py_getitem item "type" ;;
  if py_eq_str item_type "file" then
    item_name <-- py_getitem item "name" ;;
    match item_name with
    | PStr s =>
        Ok ((1 <? length (split_on "." s))%nat && existsb (endswith s) extensions)
    | _ => Raise AttributeError
    end
  else Ok false.

(** [item["type"] == "dir" and (item["name"] == "examples" or ...)]. *)
Definition examples_folder (item : pyval) : result bool :=
  item_type <-- py_getitem item "type" ;;
  if py_eq_str item_type "dir" then
    item_name <-- py_getitem item "name" ;;
    Ok (existsb (py_eq_str item_name) examples_names)
  else Ok false.

(** [item["type"] == "file" and item["name"] == file_name]. *)
Definition file_named (item : pyval) (file_name : string) : result bool :=
  item_type <-- py_getitem item "type" ;;
  if py_eq_str item_type "file" then
    item_name <-- py_getitem item "name" ;;
    Ok (py_eq_str item_name file_name)
  else Ok false.

Record root_flags : Type := {
  header_file_in_root : bool;
  sketch_file_in_root : bool;
  examples_folder_in_root : bool
}.

Definition no_flags : root_flags :=
  {| header_file_in_root := false;
     sketch_file_in_root := false;
     examples_folder_in_root := false |}.

(** The body of [for root_directory_item in root_directory_listing]:
    the sketch and examples checks are made in verify mode only, the
    examples check being the [elif] of the sketch check. *)
Definition classify_root_item (verify : bool) (flags : root_flags)
    (item : pyval) : result root_flags :=
  is_header <-- file_with_extension item header_extensions ;;
  let header := header_file_in_root flags || is_header in
  if verify then
    is_sketch <-- file_with_extension item sketch_extensions ;;
    if is_sketch then
      Ok {| header_file_in_root := header;
            sketch_file_in_root := true;
            examples_folder_in_root := examples_folder_in_root flags |}
    else
      is_examples <-- examples_folder item ;;
      Ok {| header_file_in_root := header;
            sketch_file_in_root := sketch_file_in_root flags;
            examples_folder_in_root :=
              examples_folder_in_root flags || is_examples |}
  else
    Ok {| header_file_in_root := header;
          sketch_file_in_root := sketch_file_in_root flags;
          examples_folder_in_root := examples_folder_in_root flags |}.

Fixpoint classify_root (verify : bool) (flags : root_flags)
    (listing : list pyval) : result root_flags :=
  match listing with
  | [] => Ok flags
  | item :: rest =>
      flags' <-- classify_root_item verify flags item ;;
      classify_root verify flags' rest
  end.

(** The verify-mode test at the end of a page: [None] when there is no
    header file, or a header file with a sketch file and no examples
    folder; the root folder otherwise. *)
Definition verify_decision (flags : root_flags) : option string :=
  if negb (header_file_in_root flags) ||
     (header_file_in_root flags && sketch_file_in_root flags &&
      negb (examples_folder_in_root flags))
  then None
  else Some "/".

(** [name[0] != '.']. *)
Definition first_is_not_dot (item_name : pyval) : result bool :=
  match item_name with
  | PStr EmptyString => Raise IndexError
  | PStr (String c _) => Ok (negb (Ascii.eqb c "."))
  | PList [] => Raise IndexError
  | PList (first :: _) => Ok (negb (py_eq_str first "."))
  | PDict _ => Raise KeyError
  | _ => Raise TypeError
  end.

(** The right operand of [".../contents/" + name]. *)
Definition str_operand (v : pyval) : result string :=
  match v with
  | PStr s => Ok s
  | _ => Raise TypeError
  end.

(** The body of [for subdirectory_item in subdirectory_listing]; the
    state is [library_folder] and the row. *)
Definition scan_subdirectory_item (repository_object : repository)
    (folder : string) (state : option string * row_list) (item : pyval)
  : N (option string * row_list) :=
  is_header <- lift (file_with_extension item header_extensions) ;;
  if is_header then ret (Some folder, snd state)
  else
    is_properties <- lift (file_named item "library.properties") ;;
    if is_properties then
      parsed <- parse_library_dot_properties folder repository_object (snd state) ;;
      ret (Some folder, snd parsed)
    else
      is_json <- lift (file_named item "library.json") ;;
      if is_json then
        parsed <- parse_library_dot_json folder repository_object (snd state) ;;
        ret (Some folder, snd parsed)
      else ret state.

Fixpoint scan_subdirectory (repository_object : repository) (folder : string)
    (state : option string * row_list) (listing : list pyval)
  : N (option string * row_list) :=
  match listing with
  | [] => ret state
  | item :: rest =>
      state' <- scan_subdirectory_item repository_object folder state item ;;
      scan_subdirectory repository_object folder state' rest
  end.

Definition contents_request (repository_object : repository) : string :=
  "repos/" +:+ owner_login repository_object +:+ "/" +:+
  name repository_object +:+ "/contents".

(** The variables [page_number] and [additional_pages] are shared by the
    loop over the root pages and the loops over the pages of each
    subfolder; a scan hands them back as it leaves them. *)
Record scan_state : Type := {
  found_folder : option string;
  page_number : nat;
  more_pages : bool;
  scanned_row : row_list
}.

(** The inner [while additional_pages] over the pages of one subfolder.
    A failed request leaves the loop by [break], with [additional_pages]
    still true. *)
Fixpoint subfolder_pages (fuel : nat) (repository_object : repository)
    (folder : string) (page : nat) (row : row_list) : N scan_state :=
  match fuel with
  | O => out_of_fuel
  | S fuel' =>
      fetched <-
        try_except
          (r <- get_github_api_response
                  (contents_request repository_object +:+ "/" +:+ folder) "" page ;;
           ret (Some r))
          (fun e =>
             match e with
             | JSONDecodeError | HTTPError _ _ | TimeoutError =>
                 Some (logger_warning
                         ("Something went wrong during API request for contents of " +:+
                          folder +:+ " folder. Moving on to the next folder...") ;;
                       ret None)
             | _ => None
             end) ;;
      match fetched with
      | None =>
          ret {| found_folder := None; page_number := page;
                 more_pages := true; scanned_row := row |}
      | Some r =>
          subdirectory_listing <- lift (py_list (json_data r)) ;;
          state <- scan_subdirectory repository_object folder (None, row)
                     subdirectory_listing ;;
          match fst state with
          | Some library_folder =>
              ret {| found_folder := Some library_folder; page_number := S page;
                     more_pages := additional_pages r; scanned_row := snd state |}
          | None =>
              if additional_pages r
              then subfolder_pages fuel' repository_object folder (S page) (snd state)
              else ret {| found_folder := None; page_number := S page;
                          more_pages := false; scanned_row := snd state |}
          end
      end
  end.

(** The second [for root_directory_item in root_directory_listing], run
    when verification is off and the root has no header file. *)
Fixpoint scan_subfolders (fuel : nat) (repository_object : repository)
    (listing : list pyval) (page : nat) (more : bool) (row : row_list)
  : N scan_state :=
  match listing with
  | [] =>
      ret {| found_folder := None; page_number := page;
             more_pages := more; scanned_row := row |}
  | item :: rest =>
      item_type <- lift (py_getitem item "type") ;;
      if py_eq_str item_type "dir" then
        item_name <- lift (py_getitem item "name") ;;
        visible <- lift (first_is_not_dot item_name) ;;
        if visible then
          folder <- lift (str_operand item_name) ;;
          scanned <- subfolder_pages fuel repository_object folder 1 row ;;
          match found_folder scanned with
          | Some _ => ret scanned
          | None =>
              scan_subfolders fuel repository_object rest
                (page_number scanned) (more_pages scanned) (scanned_row scanned)
          end
        else scan_subfolders fuel repository_object rest page more row
      else scan_subfolders fuel repository_object rest page more row
  end.

(** The outer [while additional_pages] over the pages of the root
    listing. *)
Fixpoint root_pages (fuel : nat) (repository_object : repository)
    (verify : bool) (page : nat) (row : row_list)
  : N (option string * row_list) :=
  match fuel with
  | O => out_of_fuel
  | S fuel' =>
      fetched <-
        try_except
          (r <- get_github_api_response (contents_request repository_object) "" page ;;
           ret (Some r))
          (fun e =>
             match e with
             | HTTPError _ _ => Some (ret None)
             | JSONDecodeError | TimeoutError =>
                 Some (logger_warning
                         "Could not load contents API for the root folder of repo." ;;
                       ret None)
             | _ => None
             end) ;;
      match fetched with
      | None => ret (None, row)
      | Some r =>
          root_directory_listing <- lift (py_list (json_data r)) ;;
          flags <- lift (classify_root verify no_flags root_directory_listing) ;;
          if verify then ret (verify_decision flags, row)
          else if header_file_in_root flags then ret (Some "/", row)
          else
            scanned <- scan_subfolders fuel' repository_object
                         root_directory_listing (S page) (additional_pages r) row ;;
            match found_folder scanned with
            | Some library_folder => ret (Some library_folder, scanned_row scanned)
            | None =>
                if more_pages scanned
                then root_pages fuel' repository_object verify
                       (page_number scanned) (scanned_row scanned)
                else ret (None, scanned_row scanned)
            end
      end
  end.

Definition find_library_folder (fuel : nat) (repository_object : repository)
    (row : row_list) (verify : bool) : N (option string * row_list) :=
  from_properties <- parse_library_dot_properties "/" repository_object row ;;
  let library_folder :=
    if returned_true (fst from_properties) then Some "/" else None in
  from_json <- parse_library_dot_json "/" repository_object (snd from_properties) ;;
  let library_folder :=
    if fst from_json then Some "/" else library_folder in
  match library_folder with
  | Some folder => ret (Some folder, snd from_json)
  | None => root_pages fuel repository_object verify 1 (snd from_json)
  end.

(** ** Catalog builder *)

Definition get_repository_license (repository_object : repository) : string :=
  match license repository_object with
  | None => "none"
  | Some None => "unrecognized"
  | Some (Some spdx_id) => spdx_id
  end.

(** [check_rate_limiting] is called outside the [try]. *)
Definition get_contributor_count (repository_object : repository) : N string :=
  check_rate_limiting Core ;;
  try_except
    (fetched <- get_json_from_url
                  ("https://api.github.com/repos/" +:+
                   owner_login repository_object +:+ "/" +:+
                   name repository_object +:+ "/contributors?per_page=1") ;;
     ret (py_str (page_count fetched)))
    (fun e =>
       match e with
       | JSONDecodeError | TimeoutError =>
           Some (logger_warning "Unable to get contributor count" ;; ret "")
       | _ => None
       end).

Definition tab : string := String (ascii_of_nat 9) EmptyString.

(** [cell.replace('\t', "    ").strip()]. *)
Definition clean_cell (cell : string) : string :=
  strip (replace tab "    " cell).

(** The loop [for index, cell in enumerate(row_list)]: [replace] on a
    cell that is not a string is [AttributeError]. *)
Fixpoint clean_cells {n : nat} (cells : vec pyval n) : result (vec string n) :=
  match cells with
  | vnil => Ok vnil
  | vcons cell rest =>
      match cell with
      | PStr text =>
          cleaned <-- clean_cells rest ;;
          Ok (vcons (clean_cell text) cleaned)
      | _ => Raise AttributeError
      end
  end.

(** [populate_row] from the initialisation of [row_list] to the cleaned
    row: [None] is the early [return] of a repository that fails
    verification. *)
Definition build_row (fuel : nat) (repository_object : repository)
    (in_library_manager verify : bool) : N (option table_row) :=
  located <- find_library_folder fuel repository_object
               (vreplicate Column.count (PStr "")) verify ;;
  match fst located, verify with
  | None, true => ret None
  | found, _ =>
      let library_folder := match found with Some folder => folder | None => "" end in
      let row := snd located in
      let row := vinsert Column.library_path (PStr library_folder) row in
      let row := vinsert Column.repository_url (PStr (html_url repository_object)) row in
      let row := vinsert Column.repository_owner (PStr (owner_login repository_object)) row in
      let row := vinsert Column.repository_name (PStr (name repository_object)) row in
      let row := vinsert Column.repository_default_branch
                   (PStr (default_branch repository_object)) row in
      let row := vinsert Column.archived
                   (PStr (str_of_bool (archived repository_object))) row in
      let row := vinsert Column.is_fork (PStr (str_of_bool (fork repository_object))) row in
      let row := vinsert Column.last_push_date
                   (PStr (str_of_nullable (pushed_at repository_object))) row in
      let row := vinsert Column.fork_count
                   (PStr (str_of_Z (forks_count repository_object))) row in
      let row := vinsert Column.star_count
                   (PStr (str_of_Z (stargazers_count repository_object))) row in
      contributors <- get_contributor_count repository_object ;;
      let row := vinsert Column.contributor_count (PStr contributors) row in
      let row := vinsert Column.repository_license
                   (PStr (get_repository_license repository_object)) row in
      let row := vinsert Column.repository_language
                   (PStr (str_of_nullable (language repository_object))) row in
      let row :=
        match description repository_object with
        | Some text => vinsert Column.repository_description (PStr text) row
        | None => row
        end in
      let row := vinsert Column.github_topics
                   (PStr (join ", " (topics repository_object))) row in
      let row := vinsert Column.in_library_manager_index
                   (PStr (str_of_bool in_library_manager)) row in
      cleaned <- lift (clean_cells row) ;;
      ret (Some cleaned)
  end.

(** The loop [for readRow in table] at the top of [populate_row]. *)
Definition already_listed (url : string) (table : list table_row) : bool :=
  existsb (fun readRow => String.eqb (readRow !!! Column.repository_url) url) table.

(** [populate_row] on the catalog [table] and the session: the catalog
    comes back as it is unless a row is appended at its end. *)
Definition populate_row (fuel : nat) (repository_object : repository)
    (in_library_manager verify : bool) (table : list table_row) (s : session)
  : result unit * list table_row * session :=
  if already_listed (html_url repository_object) table then (Ok tt, table, s)
  else
    match build_row fuel repository_object in_library_manager verify s with
    | (Ok (Some row), s') => (Ok tt, (table ++ [row])%list, s')
    | (Ok None, s') => (Ok tt, table, s')
    | (Raise e, s') => (Raise e, table, s')
    | (OutOfFuel, s') => (OutOfFuel, table, s')
    end.


End Engine.

Definition escape : string := String (ascii_of_nat 27) EmptyString.

Definition heading (text : string) : string :=
  text +:+ " " +:+ escape +:+ " " +:+ escape.

(** [initialize_table]: the catalog holds the heading row only. *)
Definition initialize_table : list table_row :=
  let row := vreplicate Column.count "" in
  let row := vinsert Column.repository_url (heading "Repository URL") row in
  let row := vinsert Column.repository_owner (heading "Owner") row in
  let row := vinsert Column.repository_name (heading "Repo Name") row in
  let row := vinsert Column.repository_default_branch (heading "Default Branch") row in
  let row := vinsert Column.library_path (heading "Library Path") row in
  let row := vinsert Column.archived (heading "Archived") row in
  let row := vinsert Column.is_fork (heading "Fork") row in
  let row := vinsert Column.last_push_date (heading "Last Push") row in
  let row := vinsert Column.fork_count (heading "#Forks") row in
  let row := vinsert Column.star_count (heading "#Stars") row in
  let row := vinsert Column.contributor_count (heading "#Contributors") row in
  let row := vinsert Column.repository_license (heading "License") row in
  let row := vinsert Column.repository_language (heading "Language") row in
  let row := vinsert Column.repository_description (heading "Repo Description") row in
  let row := vinsert Column.github_topics (heading "GitHub Topics") row in
  let row := vinsert Column.in_library_manager_index (heading "In Library Manager") row in
  let row := vinsert Column.library_manager_name (heading "LM name") row in
  let row := vinsert Column.library_manager_version (heading "LM version") row in
  let row := vinsert Column.library_manager_author (heading "LM author") row in
  let row := vinsert Column.library_manager_maintainer (heading "LM maintainer") row in
  let row := vinsert Column.library_manager_sentence (heading "LM sentence") row in
  let row := vinsert Column.library_manager_paragraph (heading "LM paragraph") row in
  let row := vinsert Column.library_manager_category (heading "LM category") row in
  let row := vinsert Column.library_manager_url (heading "LM url") row in
  let row := vinsert Column.library_manager_architectures (heading "LM architectures") row in
  let row := vinsert Column.platformio_name (heading "PIO name") row in
  let row := vinsert Column.platformio_description (heading "PIO description") row in
  let row := vinsert Column.platformio_keywords (heading "PIO keywords") row in
  let row := vinsert Column.platformio_authors (heading "PIO authors") row in
  let row := vinsert Column.platformio_repository (heading "PIO repository") row in
  let row := vinsert Column.platformio_version (heading "PIO version") row in
  let row := vinsert Column.platformio_license (heading "PIO license") row in
  let row := vinsert Column.platformio_download_url (heading "PIO downloadUrl") row in
  let row := vinsert Column.platformio_homepage (heading "PIO homepage") row in
  let row := vinsert Column.platformio_frameworks (heading "PIO frameworks") row in
  let row := vinsert Column.platformio_platforms (heading "PIO platforms") row in
  [row].

(** ** Statement vocabulary and worked data *)

(** A page count that is the default 1 or a piece of text. *)
Definition one_or_text (page_count : pyval) : Prop :=
  page_count = PInt 1 \/ exists text, page_count = PStr text.

(** The three statuses the fetcher retries. *)
Definition retryable (code : nat) : bool :=
  ((code =? 403) || (code =? 502) || (code =? 503))%nat.

(** The session after the URLs [opened] (latest first) were requested
    and [seconds] were slept, nothing else having changed. *)
Definition advance (s : session) (opened : list string) (seconds : Z) : session :=
  {| net := net s; requests := (opened ++ requests s)%list;
     clock := (clock s + seconds)%Z;
     remaining_search := remaining_search s;
     remaining_core := remaining_core s; warnings := warnings s |}.

(** The outcome of the [k]-th request from now on, should it open [url]. *)
Definition upcoming (s : session) (k : nat) (url : string) : response :=
  net s (length (requests s) + k) url.

(** The entry of [last_api_requests_remaining_value] for a pool. *)
Definition cached_remaining (api : api_type) (s : session) : pyval :=
  match api with
  | Search => remaining_search s
  | Core => remaining_core s
  end.

Definition py_is_number (v : pyval) : bool :=
  match v with
  | PInt _ | PBool _ | PFloat _ => true
  | _ => false
  end.

(** A number that converts to a finite float. *)
Definition finite_number (v : pyval) : bool :=
  match v with
  | PInt z => (Z.abs z <? float_limit)%Z
  | PBool _ => true
  | PFloat q => negb (Qle_bool (inject_Z float_limit) (Qabs q))
  | _ => false
  end.

(** A directory entry seen as its name and type: [item] is an object whose
    [name] and [type] are these two strings. *)
Definition describes (item : pyval) (entry : string * string) : Prop :=
  py_getitem item "type" = Ok (PStr (snd entry)) /\
  py_getitem item "name" = Ok (PStr (fst entry)).

Definition has_extension (file_name : string) (extensions : list string) : bool :=
  (1 <? length (split_on "." file_name))%nat && existsb (endswith file_name) extensions.

(** The three observations of the verify-mode rule on a root listing:
    a file with a header extension, a file with a sketch extension, a
    directory named like an examples folder. *)
Definition is_header_entry (entry : string * string) : bool :=
  String.eqb (snd entry) "file" && has_extension (fst entry) header_extensions.

Definition is_sketch_entry (entry : string * string) : bool :=
  String.eqb (snd entry) "file" && has_extension (fst entry) sketch_extensions.

Definition is_examples_entry (entry : string * string) : bool :=
  String.eqb (snd entry) "dir" && existsb (String.eqb (fst entry)) examples_names.

(** An author object whose [name] is the string [author]. *)
Definition named (item : pyval) (author : string) : Prop :=
  py_getitem item "name" = Ok (PStr author).

(** A [frameworks] or [platforms] field that [", ".join] accepts when it
    is a list: all its items are strings. *)
Definition joinable (field : option pyval) : Prop :=
  forall items, field = Some (PList items) ->
                exists strings, str_items items = Ok strings.

(** A JSON value that is neither a list, nor an object, nor a string. *)
Definition py_is_scalar (v : pyval) : bool :=
  match v with
  | PNone | PBool _ | PInt _ | PFloat _ => true
  | _ => false
  end.

(** A step of the JSON parser that returns normally, touches no column
    but its own and keeps the warnings logged so far. *)
Definition fills (column : fin Column.count) (step : row_list -> N row_list) : Prop :=
  forall (row : row_list) (s : session),
  exists row' s',
    step row s = (Ok row', s')
    /\ (forall c, c <> column -> row' !!! c = row !!! c)
    /\ (forall w, In w (warnings s) -> In w (warnings s')).

Definition authors_warning (repository_object : repository) : string :=
  "Can't handle type of library.json authors field for " +:+
  html_url repository_object.

(** A row in progress all of whose cells are strings. *)
Definition all_text {n : nat} (cells : vec pyval n) : Prop :=
  forall i, exists text, cells !!! i = PStr text.

(** The session once [message] was logged as a warning. *)
Definition warned (message : string) (s : session) : session :=
  snd (logger_warning message s).

Definition fresh_row : row_list := vreplicate Column.count (PStr "").

Definition root_listing_warning : string :=
  "Could not load contents API for the root folder of repo.".



Module Examples.

(** An instance of the library interface: URLs are split at the scheme,
    nothing needs quoting, [int] reads decimal digits. *)
Definition plain_urlparse (url : string) : list string :=
  match String.index 0 "://" url with
  | Some i =>
      [substring 0 i url; substring (i + 3) (String.length url - (i + 3)) url]
  | None => [EmptyString; url]
  end.

Definition plain_urlunparse (parts : list string) : string :=
  match parts with
  | [scheme; rest] =>
      if String.eqb scheme "" then rest else scheme +:+ "://" +:+ rest
  | _ => join "" parts
  end.

Definition plain_int (text : string) : option Z :=
  match NilZero.int_of_string text with
  | Some d => Some (Z.of_int d)
  | None => None
  end.

Definition plain_lib : PyLib :=
  {| urlparse := plain_urlparse;
     quote := fun s => s;
     urlunparse := plain_urlunparse;
     py_repr := fun _ => "<repr>";
     py_int := plain_int |}.

(** A fresh session on the network [answers]. *)
Definition fresh (answers : nat -> string -> response) : session :=
  {| net := answers; requests := []; clock := 0;
     remaining_search := PInt 0; remaining_core := PInt 0; warnings := [] |}.

Definition always (r : response) : nat -> string -> response := fun _ _ => r.

Definition sample_repository : repository :=
  {| html_url := "https://github.com/owner/lib";
     owner_login := "owner";
     name := "lib";
     default_branch := "master";
     archived := false;
     fork := false;
     pushed_at := Some "2018-06-01T00:00:00Z";
     forks_count := 1;
     stargazers_count := 2;
     language := Some "C++";
     description := None;
     topics := ["arduino"; "arduino-library"];
     license := Some (Some "MIT") |}.

(** A Link header with a next and a last relation, as the API sends it. *)
Definition link_header : string :=
  "<https://api.github.com/repositories/1/contributors?per_page=1&page=2>; rel=" +:+
  dquote +:+ "next" +:+ dquote +:+
  ", <https://api.github.com/repositories/1/contributors?per_page=1&page=34>; rel=" +:+
  dquote +:+ "last" +:+ dquote.

Definition contributors_page : pyval := PList [PDict [("login", PStr "someone")]].

Definition entry (entry_name entry_type : string) : pyval :=
  PDict [("name", PStr entry_name); ("type", PStr entry_type)].

Definition pool_status (remaining : Z) : pyval :=
  PDict [("limit", PInt 60); ("remaining", PInt remaining); ("reset", PInt 1000)].

Definition rate_limit_status (remaining : Z) : pyval :=
  PDict [("resources",
          PDict [("core", pool_status remaining);
                 ("search", pool_status remaining)])].

Definition ok (body : pyval) : response := HttpOk "" (Some body) None None.

(** A repository without descriptor files at its root: the contents
    endpoint answers [listing], the status endpoint reports [remaining]
    requests left, the contributors endpoint a page with a Link header. *)
Definition repository_network (remaining : Z) (listing : response)
  : nat -> string -> response :=
  fun _ url =>
    if endswith url "/library.properties" || endswith url "/library.json"
    then HttpFailure 404 "Not Found"
    else if endswith url "/rate_limit" then ok (rate_limit_status remaining)
    else if contains url "/contributors"
    then HttpOk "" (Some contributors_page) (Some link_header) None
    else listing.

Definition library_listing : list pyval :=
  [entry "Lib.h" "file"; entry "demo.ino" "file"; entry "examples" "dir"].

Definition library_entries : list (string * string) :=
  [("Lib.h", "file"); ("demo.ino", "file"); ("examples", "dir")].

(** A library.json whose authors are plain strings, and one whose
    authors are objects. *)
Definition json_with_author_strings : pyval :=
  PDict [("name", PStr "Lib"); ("authors", PList [PStr "A"; PStr "B"])].

Definition json_with_author_objects : pyval :=
  PDict [("name", PStr "Lib");
         ("authors", PList [PDict [("name", PStr "A")];
                            PDict [("name", PStr "B")]])].

(** The sessions along a run of the locator on [sample_repository]:
    after the attempt on library.properties, after the attempt on
    library.json, after the request for the first page of the root
    listing. *)
Definition after_properties (s : session) : session :=
  snd (parse_library_dot_properties (lib := plain_lib) "/" sample_repository
         fresh_row s).

Definition after_json (s : session) : session :=
  snd (parse_library_dot_json (lib := plain_lib) "/" sample_repository
         fresh_row (after_properties s)).

Definition after_listing (s : session) : session :=
  snd (get_github_api_response (lib := plain_lib)
         (contents_request sample_repository) "" 1 (after_json s)).

Definition library_session : session :=
  fresh (repository_network 50 (ok (PList library_listing))).

(** The listing comes with a Link header announcing further pages. *)
Definition paged_session : session :=
  fresh (repository_network 50
           (HttpOk "" (Some (PList library_listing)) (Some link_header) None)).

Definition unreadable_session : session :=
  fresh (repository_network 50 (HttpOk "<html>" None None None)).

Definition exhausted_session : session :=
  fresh (repository_network 0 (ok (PList []))).

(** The page a request returned, a blank one when it raised. *)
Definition first_page_of (outcome : result fetch_result * session) : fetch_result :=
  match fst outcome with
  | Ok fetched => fetched
  | _ => {| json_data := PNone; additional_pages := false; page_count := PInt 0 |}
  end.

Definition first_page (body : pyval) : fetch_result :=
  {| json_data := body; additional_pages := false; page_count := PInt 1 |}.


(** A network whose first [failures] requests meet 503 and whose later
    requests are answered with [answer]. *)
Definition flaky (failures : nat) (answer : response) : nat -> string -> response :=
  fun n _ =>
    if (n <? failures)%nat then HttpFailure 503 "Service Unavailable" else answer.

Definition newline : string := String (ascii_of_nat 10) EmptyString.

Definition nbsp : string := utf8 160.

Definition line_separator : string := utf8 8232.

(** A library.properties naming the library twice; its first two lines
    are parted by U+2028 and the key of the second stands between
    no-break spaces. *)
Definition properties_text : string :=
  "name=Lib" +:+ line_separator +:+ nbsp +:+ "version" +:+ nbsp +:+ "=1.0" +:+
  newline +:+ "name=Lib2".

(** A repository with library.properties at its root. *)
Definition manifest_network : nat -> string -> response :=
  fun n url =>
    if endswith url "/library.properties"
    then HttpOk properties_text None None None
    else repository_network 50 (ok (PList library_listing)) n url.

Definition manifest_session : session := fresh manifest_network.

(** The row once that file was read. *)
Definition manifest_row : row_list :=
  vinsert Column.library_manager_version (PStr "1.0")
    (vinsert Column.library_manager_name (PStr "Lib2") fresh_row).

(** A repository whose root holds no header file but a folder src, the
    contents endpoint answering [inner] for that folder. *)
Definition nested_listing : list pyval :=
  [entry "README.md" "file"; entry "src" "dir"].

Definition nested_network (inner : response) : nat -> string -> response :=
  fun n url =>
    if contains url "/contents/src" then inner
    else repository_network 50 (ok (PList nested_listing)) n url.

Definition nested_session : session :=
  fresh (nested_network (ok (PList [entry "Lib.h" "file"]))).

Definition broken_folder_session : session :=
  fresh (nested_network (HttpFailure 404 "Not Found")).

Definition bare_session : session :=
  fresh (repository_network 50 (ok (PList [entry "README.md" "file"]))).

Definition missing_session : session :=
  fresh (repository_network 50 (HttpFailure 404 "Not Found")).

(** The root listing does not decode and the contributors endpoint
    answers 404. *)
Definition uncounted_network : nat -> string -> response :=
  fun n url =>
    if contains url "/contributors" then HttpFailure 404 "Not Found"
    else repository_network 50 (HttpOk "<html>" None None None) n url.

Definition uncounted_session : session := fresh uncounted_network.

(** A root listing of two pages, the header file on the second. *)
Definition first_page_entries : list (string * string) := [("README.md", "file")].

Definition second_page_entries : list (string * string) := [("Lib.h", "file")].

Definition two_page_network : nat -> string -> response :=
  fun n url =>
    if contains url "&page=2&" then ok (PList [entry "Lib.h" "file"])
    else repository_network 50
           (HttpOk "" (Some (PList [entry "README.md" "file"]))
                   (Some link_header) None) n url.

Definition two_page_session : session := fresh two_page_network.



(** A session whose core quota is known. *)
Definition counted (answers : nat -> string -> response) : session :=
  {| net := answers; requests := []; clock := 0;
     remaining_search := PInt 0; remaining_core := PInt 50; warnings := [] |}.

(** The row [populate_row] builds for [sample_repository] over
    [library_session], verification off. *)
Definition sample_row : table_row :=
  List.last
    (snd (fst (populate_row (lib := plain_lib) 1 sample_repository false false
                 [] library_session)))
    (vreplicate Column.count EmptyString).

(** A repository whose description ends in a no-break space, and its
    row over [library_session]. *)
Definition described_repository : repository :=
  {| html_url := "https://github.com/owner/described";
     owner_login := "owner";
     name := "described";
     default_branch := "master";
     archived := false;
     fork := false;
     pushed_at := None;
     forks_count := 0;
     stargazers_count := 0;
     language := None;
     description := Some ("Lib" +:+ nbsp);
     topics := [];
     license := None |}.

Definition described_row : table_row :=
  List.last
    (snd (fst (populate_row (lib := plain_lib) 1 described_repository false false
                 [] library_session)))
    (vreplicate Column.count EmptyString).

Definition json_row : row_list :=
  vinsert Column.platformio_authors (PStr "A, B")
    (vinsert Column.platformio_name (PStr "Lib") fresh_row).

(** Four characters in five bytes: lib and an e with acute accent. *)
Definition accented : string := "lib" +:+ utf8 233.

Definition index_entry (url : string) : pyval := PDict [("repository", PStr url)].

(** An index listing one GitHub repository under two tags, then a
    repository on another host, then the first repository again. *)
Definition library_index : pyval :=
  PDict [("libraries",
          PList [index_entry "https://github.com/owner/lib.git";
                 index_entry "https://github.com/owner/lib.git";
                 index_entry "https://gitlab.com/other/thing.git";
                 index_entry "https://github.com/owner/lib.git"])].

Definition index_urls : list string :=
  ["https://github.com/owner/lib.git"; "https://github.com/owner/lib.git";
   "https://gitlab.com/other/thing.git"; "https://github.com/owner/lib.git"].

End Examples.

(** ** Further vocabulary *)

(** The pool an API URL is counted against. *)
Definition pool_of_url (url : string) : api_type :=
  if startswith url "https://api.github.com/search" then Search else Core.

(** What [get_json_from_url] returns for a decoded body and a Link header. *)
Definition fetched_page (body : pyval) (link : option string) : fetch_result :=
  {| json_data := body;
     additional_pages := fst (pagination body link);
     page_count := snd (pagination body link) |}.

(** A directory entry that the subfolder scan visits: a directory whose
    name does not begin with a dot. *)
Definition is_visible_folder (entry : string * string) : bool :=
  String.eqb (snd entry) "dir" && negb (startswith (fst entry) ".").

(** A file entry named like one of the two descriptor files. *)
Definition is_descriptor_entry (entry : string * string) : bool :=
  String.eqb (snd entry) "file" &&
  (String.eqb (fst entry) "library.properties" || String.eqb (fst entry) "library.json").

Definition has_name (entry : string * string) : bool :=
  negb (String.eqb (fst entry) "").

Definition subfolder_warning (folder : string) : string :=
  "Something went wrong during API request for contents of " +:+
  folder +:+ " folder. Moving on to the next folder...".

(** The exceptions the request for a subfolder listing is guarded against. *)
Definition is_transport_error (e : exn) : bool :=
  match e with
  | JSONDecodeError | HTTPError _ _ | TimeoutError => true
  | _ => false
  end.

(** The nine fields of library.properties and their columns. *)
Definition properties_fields : list (string * fin Column.count) :=
  [("name", Column.library_manager_name);
   ("version", Column.library_manager_version);
   ("author", Column.library_manager_author);
   ("maintainer", Column.library_manager_maintainer);
   ("sentence", Column.library_manager_sentence);
   ("paragraph", Column.library_manager_paragraph);
   ("category", Column.library_manager_category);
   ("url", Column.library_manager_url);
   ("architectures", Column.library_manager_architectures)].

(** The columns the JSON parser writes. *)
Definition platformio_columns : list (fin Column.count) :=
  [Column.platformio_name; Column.platformio_description;
   Column.platformio_keywords; Column.platformio_authors;
   Column.platformio_repository; Column.platformio_version;
   Column.platformio_license; Column.platformio_download_url;
   Column.platformio_homepage; Column.platformio_frameworks;
   Column.platformio_platforms].

(** The seven fields of library.json stored through [str]. *)
Definition platformio_fields : list (string * fin Column.count) :=
  [("name", Column.platformio_name);
   ("description", Column.platformio_description);
   ("keywords", Column.platformio_keywords);
   ("version", Column.platformio_version);
   ("license", Column.platformio_license);
   ("downloadUrl", Column.platformio_download_url);
   ("homepage", Column.platformio_homepage)].

(** A line read as a field: the text before the first [=], stripped, and
    the text after it; [None] for a line without [=]. *)
Definition line_field (line : string) : option (string * string) :=
  match split_first "=" line with
  | Some (before, field_value) => Some (strip before, field_value)
  | None => None
  end.

(** The value the last of the [lines] naming [key] gives it, [found] when
    none does. *)
Definition last_value (key : string) (found : option string) (lines : list string)
  : option string :=
  fold_left
    (fun found line =>
       match line_field line with
       | Some (field_name, field_value) =>
           if String.eqb field_name key then Some field_value else found
       | None => found
       end)
    lines found.

(** A column neither descriptor parser writes: one of the sixteen
    repository columns. *)
Definition repository_column (column : fin Column.count) : Prop :=
  (forall key, ~ In (key, column) properties_fields) /\
  ~ In column platformio_columns.




(** A text whose first byte starts a character. *)
Definition starts_character (text : string) : bool :=
  match text with
  | String c _ => negb (is_continuation c)
  | EmptyString => false
  end.




Definition contributor_warning : string := "Unable to get contributor count".

Section Requests.
Context {lib : PyLib}.

(** The URL [get_contributor_count] opens. *)
Definition contributors_url (repository_object : repository) : string :=
  normalize_url
    ("https://api.github.com/repos/" +:+ owner_login repository_object +:+ "/" +:+
     name repository_object +:+ "/contributors?per_page=1").

End Requests.

(** ** The Library Manager index *)

(** [parts[i]]. *)
Definition py_index (parts : list string) (i : nat) : result string :=
  match nth_error parts i with
  | Some part => Ok part
  | None => Raise IndexError
  end.

(** [text[:-4]]. *)
Definition without_last_four (text : string) : string :=
  glue (firstn (length (characters text) - 4) (characters text)).

(** [repository_url.split('/')[3] + '/' + repository_url.split('/')[4][:-4]]
    behind ["repos/"]. *)
Definition repository_request (repository_url : string) : result string :=
  owner <-- py_index (split_on "/" repository_url) 3 ;;
  repo_name <-- py_index (split_on "/" repository_url) 4 ;;
  Ok ("repos/" +:+ owner +:+ "/" +:+ without_last_four repo_name).

(** The global [table] together with the session. *)
Definition world : Type := list table_row * session.

Section Index.
Context {lib : PyLib}.

(** [populate_row] on a repository object as the API returned it, with
    its [in_library_manager] and [verify] arguments. *)
Variable populate : pyval -> bool -> bool -> world -> result unit * world.

(** [populate_row(repository_object=get_github_api_response(request=...)
    ["json_data"], in_library_manager=True, verify=False)]. *)
Definition populate_from_index (request : string) (w : world)
  : result unit * world :=
  match get_github_api_response request "" 1 (snd w) with
  | (Ok fetched, s) => populate (json_data fetched) true false (fst w, s)
  | (Raise e, s) => (Raise e, (fst w, s))
  | (OutOfFuel, s) => (OutOfFuel, (fst w, s))
  end.

(** The loop [for library_data in json_data["libraries"]]. When an
    iteration starts, [last_repository_url] is a string: the initial
    empty string, or a URL that [split] was called on. A repository
    value that is not a string differs from it and has no [split]. *)
Fixpoint index_entries (entries : list pyval) (last_repository_url : string)
    (w : world) : result unit * world :=
  match entries with
  | [] => (Ok tt, w)
  | library_data :: rest =>
      match py_getitem library_data "repository" with
      | Ok (PStr repository_url) =>
          if String.eqb repository_url last_repository_url
          then index_entries rest last_repository_url w
          else
            match py_index (split_on "/" repository_url) 2 with
            | Ok host =>
                if String.eqb host "github.com" then
                  match repository_request repository_url with
                  | Ok request =>
                      match populate_from_index request w with
                      | (Ok _, w') => index_entries rest repository_url w'
                      | stopped => stopped
                      end
                  | Raise e => (Raise e, w)
                  | OutOfFuel => (OutOfFuel, w)
                  end
                else index_entries rest repository_url w
            | Raise e => (Raise e, w)
            | OutOfFuel => (OutOfFuel, w)
            end
      | Ok _ => (Raise AttributeError, w)
      | Raise e => (Raise e, w)
      | OutOfFuel => (OutOfFuel, w)
      end
  end.

Definition process_library_manager_index (json_data : pyval) (w : world)
  : result unit * world :=
  match py_getitem json_data "libraries" with
  | Ok libraries =>
      match py_list libraries with
      | Ok entries => index_entries entries "" w
      | Raise e => (Raise e, w)
      | OutOfFuel => (OutOfFuel, w)
      end
  | Raise e => (Raise e, w)
  | OutOfFuel => (OutOfFuel, w)
  end.

(** The URLs of a listing that differ from the entry before them, the
    first one from [last]. *)
Fixpoint collapse (last : string) (urls : list string) : list string :=
  match urls with
  | [] => []
  | url :: rest =>
      if String.eqb url last then collapse last rest else url :: collapse url rest
  end.

Definition hosted_on_github (url : string) : bool :=
  match nth_error (split_on "/" url) 2 with
  | Some host => String.eqb host "github.com"
  | None => false
  end.

(** A URL the loop body can take apart: at least three pieces, and five
    when the third is github.com. *)
Definition splittable (url : string) : bool :=
  (3 <=? length (split_on "/" url))%nat &&
  (negb (hosted_on_github url) || (5 <=? length (split_on "/" url))%nat).

(** One request and one call of [populate_row] per URL, in order, until
    one of them raises. *)
Fixpoint populate_all (urls : list string) (w : world) : result unit * world :=
  match urls with
  | [] => (Ok tt, w)
  | url :: rest =>
      match repository_request url with
      | Ok request =>
          match populate_from_index request w with
          | (Ok _, w') => populate_all rest w'
          | stopped => stopped
          end
      | Raise e => (Raise e, w)
      | OutOfFuel => (OutOfFuel, w)
      end
  end.

(** An entry of the index whose repository is the string [url]. *)
Definition lists (library_data : pyval) (url : string) : Prop :=
  py_getitem library_data "repository" = Ok (PStr url).

End Index.

Definition slash_free (text : string) : bool :=
  forallb (fun c => negb (Ascii.eqb "/" c)) (list_ascii_of_string text).

(** A stand-in for [populate_row] that only logs the call. *)
Definition logging_populate (repository_object : pyval)
    (in_library_manager verify : bool) (w : world) : result unit * world :=
  (Ok tt, (fst w, warned "populate_row" (snd w))).

(** * Properties *)

(** ** Strings *)

Lemma prefix_empty (s : string) : String.prefix "" s = true.
Proof. destruct s; reflexivity. Qed.

Lemma append_cons (c : ascii) (a b : string) :
  String c a +:+ b = String c (a +:+ b).
Proof. reflexivity. Qed.

Lemma append_associative (a b c : string) : (a +:+ b) +:+ c = a +:+ (b +:+ c).
Proof.
  induction a as [|x a IH]; [reflexivity|].
  rewrite !append_cons. now rewrite IH.
Qed.

Lemma length_of_append (a b : string) :
  String.length (a +:+ b) = String.length a + String.length b.
Proof.
  induction a as [|x a IH]; [reflexivity|].
  rewrite append_cons. simpl. now rewrite IH.
Qed.

Lemma prefix_app_short (p a b : string) :
  String.length p <= String.length a ->
  String.prefix p (a +:+ b) = String.prefix p a.
Proof.
  revert a. induction p as [|c p IH]; intros a Hlen.
  - now rewrite !prefix_empty.
  - destruct a as [|d a]; simpl in Hlen; [lia|].
    change (String d a +:+ b) with (String d (a +:+ b)).
    simpl. destruct (ascii_dec c d); [apply IH; lia | reflexivity].
Qed.

(** ** Sessions *)

Lemma advance_advance (s : session) (l1 l2 : list string) (d1 d2 : Z) :
  advance (advance s l1 d1) l2 d2 = advance s (l2 ++ l1) (d1 + d2).
Proof.
  unfold advance; simpl. f_equal; [apply app_assoc | lia].
Qed.

Lemma upcoming_advance (s : session) (l : list string) (d : Z) (k : nat) (u : string) :
  upcoming (advance s l d) k u = upcoming s (length l + k) u.
Proof.
  unfold upcoming, advance; simpl. rewrite length_app. f_equal. lia.
Qed.

Lemma urlopen_advance (u : string) (s : session) :
  urlopen u s = (Ok (upcoming s 0 u), advance s [u] 0).
Proof.
  unfold urlopen, upcoming, advance. rewrite Nat.add_0_r, Z.add_0_r. reflexivity.
Qed.

Lemma sleep_advance (d : Z) (s : session) :
  sleep d s = (Ok tt, advance s [] d).
Proof. reflexivity. Qed.

Lemma advance_nothing (s : session) : advance s [] 0 = s.
Proof. destruct s; unfold advance; simpl. f_equal. lia. Qed.

Lemma existsb_agree {A} (f g : A -> bool) (l : list A) :
  (forall x, In x l -> f x = g x) -> existsb f l = existsb g l.
Proof.
  induction l as [|x l IH]; intros Hfg; [reflexivity|].
  simpl. rewrite (Hfg x) by (left; reflexivity).
  rewrite IH; [reflexivity|]. intros y Hy. apply Hfg. now right.
Qed.

(** ** Page counts read from the Link header *)

Lemma fold_left_invariant {A B} (P : A -> Prop) (f : A -> B -> A) (l : list B) :
  (forall a b, P a -> P (f a b)) -> forall a, P a -> P (fold_left f l a).
Proof.
  intros Hstep. induction l as [|b l IH]; intros a Ha; [exact Ha|].
  cbn. apply IH. now apply Hstep.
Qed.

Lemma page_parameter_one_or_text (page_count : pyval) (parameter : string) :
  one_or_text page_count -> one_or_text (page_parameter page_count parameter).
Proof.
  intros H. unfold page_parameter.
  destruct (startswith parameter "page="); [|exact H].
  destruct (split_on "=" parameter) as [|first [|value rest]]; try exact H.
  right. now exists value.
Qed.

Lemma link_relation_one_or_text (page_count : pyval) (link : string) :
  one_or_text page_count -> one_or_text (link_relation page_count link).
Proof.
  intros H. unfold link_relation.
  destruct (endswith link last_marker); [|exact H].
  apply fold_left_invariant; [apply page_parameter_one_or_text | exact H].
Qed.

Lemma link_header_one_or_text (text : string) :
  one_or_text (fold_left link_relation (split_on "," text) (PInt 1)).
Proof.
  apply fold_left_invariant; [apply link_relation_one_or_text | now left].
Qed.

(** ** The retry decision *)

Lemma retryable_cases (code : nat) :
  retryable code = true -> code = 403 \/ code = 502 \/ code = 503.
Proof.
  unfold retryable. rewrite !orb_true_iff, !Nat.eqb_eq. tauto.
Qed.

Lemma three_digit_codes_checked :
  forallb
    (fun code =>
       Bool.eqb
         (existsb
            (fun error_code =>
               String.prefix ("HTTP Error " +:+ error_code)
                             ("HTTP Error " +:+ str_of_nat code))
            urlopen_retry_on_http_error)
         (retryable code)
       && (String.length (str_of_nat code) =? 3)%nat)
    (seq 100 900) = true.
Proof. vm_compute. reflexivity. Qed.

Section Properties.
Context {lib : PyLib}.

(** For a three-digit status the prefix test on [str(exception)] picks
    exactly the three listed codes, whatever the reason text. *)
Lemma retry_test_three_digit (code : nat) (msg : string) :
  100 <= code <= 999 ->
  existsb
    (fun error_code =>
       startswith (http_error_str code msg) ("HTTP Error " +:+ error_code))
    urlopen_retry_on_http_error = retryable code.
Proof.
  intros Hcode.
  pose proof three_digit_codes_checked as Hall.
  rewrite forallb_forall in Hall.
  specialize (Hall code). rewrite in_seq in Hall.
  assert (Hin : 100 <= code < 100 + 900) by lia.
  apply Hall in Hin. apply andb_true_iff in Hin as [Heq Hlen].
  apply Bool.eqb_prop in Heq. apply Nat.eqb_eq in Hlen.
  rewrite <- Heq. unfold startswith, http_error_str.
  assert (Hshort : forall error_code,
             In error_code urlopen_retry_on_http_error ->
             String.prefix ("HTTP Error " +:+ error_code)
               ("HTTP Error " +:+ str_of_nat code +:+ ": " +:+ msg) =
             String.prefix ("HTTP Error " +:+ error_code)
               ("HTTP Error " +:+ str_of_nat code)).
  { intros error_code Hec.
    replace ("HTTP Error " +:+ str_of_nat code +:+ ": " +:+ msg)
      with (("HTTP Error " +:+ str_of_nat code) +:+ (": " +:+ msg)).
    - apply prefix_app_short.
      rewrite !length_of_append, Hlen.
      simpl in Hec. destruct Hec as [<- | [<- | [<- | []]]]; simpl; lia.
    - now rewrite append_associative. }
  apply existsb_agree. exact Hshort.
Qed.

Lemma determine_urlopen_retry_true (code : nat) (msg : string) (s : session) :
  retryable code = true ->
  determine_urlopen_retry code msg s = (Ok true, advance s [] urlopen_retry_delay).
Proof.
  intros Hr. unfold determine_urlopen_retry.
  assert (Hm : existsb
            (fun error_code =>
               startswith (http_error_str code msg) ("HTTP Error " +:+ error_code))
            urlopen_retry_on_http_error = true).
  { apply retryable_cases in Hr as [-> | [-> | ->]];
      unfold urlopen_retry_on_http_error, startswith, http_error_str;
      vm_compute; reflexivity. }
  rewrite Hm. reflexivity.
Qed.

Lemma determine_urlopen_retry_false (code : nat) (msg : string) (s : session) :
  100 <= code <= 999 -> retryable code = false ->
  determine_urlopen_retry code msg s = (Ok false, s).
Proof.
  intros Hcode Hr. unfold determine_urlopen_retry.
  rewrite retry_test_three_digit, Hr by assumption. reflexivity.
Qed.

(** ** The resilient fetcher *)

Lemma get_json_attempts_exhausted (u : string) (n : nat) : forall s : session,
  (forall k, k < n ->
     exists code msg, upcoming s k u = HttpFailure code msg /\ retryable code = true) ->
  get_json_attempts n u s =
    (Raise TimeoutError, advance s (repeat u n) (urlopen_retry_delay * Z.of_nat n)).
Proof.
  induction n as [|n IH]; intros s Hnet.
  - simpl. unfold raise. now rewrite advance_nothing.
  - destruct (Hnet 0) as (code & msg & Hfirst & Hretry); [lia|].
    cbn [get_json_attempts]. unfold bind at 1.
    rewrite urlopen_advance, Hfirst. unfold bind at 1.
    rewrite determine_urlopen_retry_true by assumption.
    rewrite IH.
    + rewrite !advance_advance. f_equal. f_equal.
      * rewrite <- ?app_assoc. simpl. symmetry. apply repeat_cons.
      * unfold urlopen_retry_delay. lia.
    + intros k Hk. rewrite !upcoming_advance. simpl. apply Hnet. lia.
Qed.

Lemma get_json_from_url_timeout (url : string) (s : session) :
  (forall k, k < S urlopen_maximum_retries ->
     exists code msg,
       upcoming s k (normalize_url url) = HttpFailure code msg /\
       retryable code = true) ->
  get_json_from_url url s =
    (Raise TimeoutError,
     advance s (repeat (normalize_url url) (S urlopen_maximum_retries))
             (6 * urlopen_retry_delay)).
Proof.
  intros Hnet. unfold get_json_from_url.
  rewrite get_json_attempts_exhausted by exact Hnet. reflexivity.
Qed.

Lemma get_json_from_url_http_error (url : string) (s : session)
    (code : nat) (msg : string) :
  100 <= code <= 999 -> retryable code = false ->
  upcoming s 0 (normalize_url url) = HttpFailure code msg ->
  get_json_from_url url s =
    (Raise (HTTPError code msg), advance s [normalize_url url] 0).
Proof.
  intros Hcode Hretry Hfirst. unfold get_json_from_url.
  cbn [get_json_attempts]. unfold bind at 1.
  rewrite urlopen_advance, Hfirst. unfold bind.
  rewrite determine_urlopen_retry_false by assumption. reflexivity.
Qed.

Lemma get_json_from_url_undecodable (url : string) (s : session)
    (text : string) (link rate : option string) :
  upcoming s 0 (normalize_url url) = HttpOk text None link rate ->
  get_json_from_url url s =
    (Raise JSONDecodeError, advance s [normalize_url url] 0).
Proof.
  intros Hfirst. unfold get_json_from_url.
  cbn [get_json_attempts]. unfold bind.
  rewrite urlopen_advance, Hfirst. reflexivity.
Qed.

(** C4. A fetch whose every attempt meets one of the three retryable
    statuses opens the URL exactly urlopen_maximum_retries + 1 = 6
    times, sleeping the retry delay after each, and then raises
    TimeoutError; any other (three-digit) HTTP status raises that
    HTTPError after the one attempt, without sleeping; a body that does
    not decode raises JSONDecodeError after the one attempt. *)
Theorem get_json_from_url_retry_bound (url : string) (s : session) :
  let u := normalize_url url in
  ((forall k, k < S urlopen_maximum_retries ->
      exists code msg,
        upcoming s k u = HttpFailure code msg /\ retryable code = true) ->
   get_json_from_url url s =
     (Raise TimeoutError,
      advance s (repeat u (S urlopen_maximum_retries)) (6 * urlopen_retry_delay)))
  /\ (forall code msg,
        100 <= code <= 999 -> retryable code = false ->
        upcoming s 0 u = HttpFailure code msg ->
        get_json_from_url url s = (Raise (HTTPError code msg), advance s [u] 0))
  /\ (forall text link rate,
        upcoming s 0 u = HttpOk text None link rate ->
        get_json_from_url url s = (Raise JSONDecodeError, advance s [u] 0)).
Proof.
  intros u. repeat split.
  - apply get_json_from_url_timeout.
  - apply get_json_from_url_http_error.
  - apply get_json_from_url_undecodable.
Qed.

(** ** The manifest-style parser under retry exhaustion *)

Lemma properties_attempts_exhausted (u : string) (row : row_list) (n : nat) :
  forall s : session,
  (forall k, k < n ->
     exists code msg, upcoming s k u = HttpFailure code msg /\ retryable code = true) ->
  properties_attempts n u row s =
    (Ok (None, row), advance s (repeat u n) (urlopen_retry_delay * Z.of_nat n)).
Proof.
  induction n as [|n IH]; intros s Hnet.
  - simpl. unfold ret. now rewrite advance_nothing.
  - destruct (Hnet 0) as (code & msg & Hfirst & Hretry); [lia|].
    cbn [properties_attempts]. unfold bind at 1.
    rewrite urlopen_advance, Hfirst. unfold bind at 1.
    rewrite determine_urlopen_retry_true by assumption.
    rewrite IH.
    + rewrite !advance_advance. f_equal. f_equal.
      * rewrite <- ?app_assoc. simpl. symmetry. apply repeat_cons.
      * unfold urlopen_retry_delay. lia.
    + intros k Hk. rewrite !upcoming_advance. simpl. apply Hnet. lia.
Qed.

(** C10. When each of the urlopen_maximum_retries + 1 = 6 attempts to
    fetch library.properties meets a retryable status, the parser
    returns normally with Python's None (no exception is raised), the
    row untouched, after exactly six requests; its caller's truth test
    reads None as not found. *)
Theorem parse_library_dot_properties_exhausted
    (metadata_folder : string) (repository_object : repository)
    (row : row_list) (s : session) :
  let u := normalize_url
             (raw_file_url repository_object metadata_folder "library.properties") in
  (forall k, k < S urlopen_maximum_retries ->
     exists code msg,
       upcoming s k u = HttpFailure code msg /\ retryable code = true) ->
  parse_library_dot_properties metadata_folder repository_object row s =
    (Ok (None, row),
     advance s (repeat u (S urlopen_maximum_retries)) (6 * urlopen_retry_delay))
  /\ returned_true None = false.
Proof.
  intros u Hnet. split; [|reflexivity].
  unfold parse_library_dot_properties. fold u.
  rewrite properties_attempts_exhausted by exact Hnet. reflexivity.
Qed.

(** ** The rate limiter *)

Lemma determine_urlopen_retry_requests (code : nat) (msg : string)
    (s s' : session) (r : result bool) :
  determine_urlopen_retry code msg s = (r, s') -> requests s' = requests s.
Proof.
  unfold determine_urlopen_retry.
  destruct (existsb _ _); unfold bind, sleep, ret; intros [= <- <-]; reflexivity.
Qed.

Lemma record_rate_limit_requests (u : string) (header : option string)
    (s s' : session) (r : result unit) :
  record_rate_limit u header s = (r, s') -> requests s' = requests s.
Proof.
  unfold record_rate_limit, set_remaining, raise, ret.
  destruct (startswith u "https://api.github.com"); [|intros [= <- <-]; reflexivity].
  destruct header as [text|]; [|intros [= <- <-]; reflexivity].
  destruct (py_int text); [|intros [= <- <-]; reflexivity].
  destruct (startswith u "https://api.github.com/search");
    intros [= <- <-]; reflexivity.
Qed.

Lemma get_json_attempts_requests (u : string) (n : nat) :
  forall (s s' : session) (r : result fetch_result),
  get_json_attempts n u s = (r, s') ->
  exists later, requests s' = (later ++ requests s)%list.
Proof.
  induction n as [|n IH]; intros s s' r.
  - simpl. unfold raise. intros [= <- <-]. now exists [].
  - cbn [get_json_attempts]. unfold bind at 1. rewrite urlopen_advance.
    destruct (upcoming s 0 u) as [code msg | text decoded link rate].
    + unfold bind at 1.
      destruct (determine_urlopen_retry code msg (advance s [u] 0))
        as [[[] | e |] s1] eqn:Hretry;
        apply determine_urlopen_retry_requests in Hretry.
      * intros H. apply IH in H as [later H]. exists (later ++ [u])%list.
        rewrite H, Hretry. simpl. now rewrite <- app_assoc.
      * unfold raise. intros [= <- <-]. exists [u]. now rewrite Hretry.
      * intros [= <- <-]. exists [u]. now rewrite Hretry.
      * intros [= <- <-]. exists [u]. now rewrite Hretry.
    + destruct decoded as [body|].
      * unfold bind.
        destruct (record_rate_limit u rate (advance s [u] 0))
          as [[[] | e |] s1] eqn:Hrate;
          apply record_rate_limit_requests in Hrate;
          unfold ret; intros [= <- <-]; exists [u]; now rewrite Hrate.
      * unfold raise. intros [= <- <-]. now exists [u].
Qed.

(** Every call of the fetcher opens its URL at least once. *)
Lemma get_json_from_url_opens (url : string) (s s' : session)
    (r : result fetch_result) :
  get_json_from_url url s = (r, s') ->
  exists later, requests s' = (later ++ normalize_url url :: requests s)%list.
Proof.
  unfold get_json_from_url. cbn [get_json_attempts]. unfold bind at 1.
  rewrite urlopen_advance. set (u := normalize_url url).
  destruct (upcoming s 0 u) as [code msg | text decoded link rate].
  - unfold bind at 1.
    destruct (determine_urlopen_retry code msg (advance s [u] 0))
      as [[[] | e |] s1] eqn:Hretry;
      apply determine_urlopen_retry_requests in Hretry.
    + intros H. apply get_json_attempts_requests in H as [later H].
      exists later. now rewrite H, Hretry.
    + unfold raise. intros [= <- <-]. exists []. now rewrite Hretry.
    + intros [= <- <-]. exists []. now rewrite Hretry.
    + intros [= <- <-]. exists []. now rewrite Hretry.
  - destruct decoded as [body|].
    + unfold bind.
      destruct (record_rate_limit u rate (advance s [u] 0))
        as [[[] | e |] s1] eqn:Hrate;
        apply record_rate_limit_requests in Hrate;
        unfold ret; intros [= <- <-]; exists []; now rewrite Hrate.
    + unfold raise. intros [= <- <-]. now exists [].
Qed.

Lemma get_remaining_cached (api : api_type) (s : session) :
  get_remaining api s = (Ok (cached_remaining api s), s).
Proof. destruct api; reflexivity. Qed.

(** Whatever its outcome, the wait leaves the quota cache and the list
    of requests alone. *)
Lemma wait_until_keeps (api : api_type) (reset : pyval) (s s' : session)
    (outcome : result unit) :
  wait_until reset s = (outcome, s') ->
  cached_remaining api s' = cached_remaining api s /\ requests s' = requests s.
Proof.
  unfold wait_until, wait_until_reading, raise.
  destruct reset; cbv zeta;
    repeat match goal with
           | |- context [if ?c then _ else _] => destruct c
           end;
    intros [= _ <-]; destruct api; split; reflexivity.
Qed.

(** A reset time that converts to a finite float is waited for. *)
Lemma wait_until_finite (reset : pyval) (s : session) :
  finite_number reset = true -> exists s', wait_until reset s = (Ok tt, s').
Proof.
  unfold wait_until, wait_until_reading, finite_number.
  destruct reset; try discriminate; cbv zeta; intros Hfinite.
  - destruct (clock s <? _)%Z; now eexists.
  - apply Z.ltb_lt in Hfinite.
    destruct (float_limit <=? Z.abs z)%Z eqn:Hlarge;
      [apply Z.leb_le in Hlarge; lia|].
    destruct (clock s <? z)%Z; now eexists.
  - apply negb_true_iff in Hfinite. rewrite Hfinite.
    destruct (clock s <? _)%Z; now eexists.
Qed.

(** C8. When the cached count of a pool is zero and the status query
    reports a remaining count of zero for it, [check_rate_limiting]
    stores that zero and waits for the reset time. A reset time that is
    a number convertible to a finite float is waited for and the call
    returns. However the wait ends, the cached count of the pool is
    still zero afterwards, and the next call for the pool therefore
    opens the rate-limit status URL again before anything else. *)
Theorem check_rate_limiting_keeps_zero
    (api : api_type) (s s1 : session) (fetched : fetch_result)
    (status : list (string * pyval)) (resources pool remaining reset limit : pyval) :
  py_eq_zero (cached_remaining api s) = true ->
  get_json_from_url rate_limit_url s = (Ok fetched, s1) ->
  py_dict (json_data fetched) = Ok status ->
  py_getitem (PDict status) "resources" = Ok resources ->
  py_getitem resources (api_name api) = Ok pool ->
  py_getitem pool "remaining" = Ok remaining ->
  py_getitem pool "reset" = Ok reset ->
  py_getitem pool "limit" = Ok limit ->
  py_eq_zero remaining = true ->
  check_rate_limiting api s =
    wait_until reset (snd (set_remaining api remaining s1))
  /\ (finite_number reset = true ->
      exists s2, check_rate_limiting api s = (Ok tt, s2))
  /\ forall outcome s2,
       check_rate_limiting api s = (outcome, s2) ->
       py_eq_zero (cached_remaining api s2) = true
       /\ forall outcome' s3,
            check_rate_limiting api s2 = (outcome', s3) ->
            exists later,
              requests s3 =
                (later ++ normalize_url rate_limit_url :: requests s2)%list.
Proof.
  intros Hzero Hfetch Hdict Hres Hpool Hrem Hreset Hlimit Hrem0.
  set (s1' := snd (set_remaining api remaining s1)).
  assert (Hcached : cached_remaining api s1' = remaining)
    by (destruct api; reflexivity).
  assert (Hrun : check_rate_limiting api s = wait_until reset s1').
  { unfold check_rate_limiting. unfold bind at 1.
    rewrite get_remaining_cached, Hzero.
    unfold bind at 1. rewrite Hfetch.
    unfold bind at 1, lift at 1. rewrite Hdict.
    unfold bind at 1, lift at 1. rewrite Hres.
    unfold bind at 1, lift at 1. rewrite Hpool.
    unfold bind at 1, lift at 1. rewrite Hrem.
    unfold bind at 1.
    change (set_remaining api remaining s1) with (Ok tt, s1').
    unfold bind at 1, lift at 1. rewrite Hreset.
    unfold bind at 1, lift at 1. rewrite Hlimit.
    unfold bind at 1. rewrite get_remaining_cached, Hcached, Hrem0.
    reflexivity. }
  split; [exact Hrun|]. split.
  { intros Hfinite. rewrite Hrun. now apply wait_until_finite. }
  intros outcome s2 Hwait. rewrite Hrun in Hwait.
  apply (wait_until_keeps api) in Hwait as [Hkeep _].
  split; [now rewrite Hkeep, Hcached|].
  intros outcome' s3. unfold check_rate_limiting. unfold bind at 1.
  rewrite get_remaining_cached, Hkeep, Hcached, Hrem0.
  unfold bind at 1.
  destruct (get_json_from_url rate_limit_url s2) as [[again | e |] sf] eqn:Hagain;
    apply get_json_from_url_opens in Hagain as [later Hlater];
    [| intros [= <- <-]; now exists later ..].
  intros H. exists later. rewrite <- Hlater.
  unfold bind at 1, lift at 1 in H.
  destruct (py_dict (json_data again)) as [status2 | e |];
    [|now injection H as _ <- ..].
  unfold bind at 1, lift at 1 in H.
  destruct (py_getitem (PDict status2) "resources") as [resources2 | e |];
    [|now injection H as _ <- ..].
  unfold bind at 1, lift at 1 in H.
  destruct (py_getitem resources2 (api_name api)) as [pool2 | e |];
    [|now injection H as _ <- ..].
  unfold bind at 1, lift at 1 in H.
  destruct (py_getitem pool2 "remaining") as [remaining2 | e |];
    [|now injection H as _ <- ..].
  unfold bind at 1 in H.
  destruct (set_remaining api remaining2 sf) as [stored sg] eqn:Hstore.
  assert (Hsg : requests sg = requests sf).
  { unfold set_remaining in Hstore. now injection Hstore as _ <-. }
  assert (Hstored : stored = Ok tt).
  { unfold set_remaining in Hstore. now injection Hstore as <- _. }
  subst stored. rewrite <- Hsg.
  unfold bind at 1, lift at 1 in H.
  destruct (py_getitem pool2 "reset") as [reset2 | e |];
    [|now injection H as _ <- ..].
  unfold bind at 1, lift at 1 in H.
  destruct (py_getitem pool2 "limit") as [limit2 | e |];
    [|now injection H as _ <- ..].
  unfold bind at 1 in H. rewrite get_remaining_cached in H.
  destruct (py_eq_zero (cached_remaining api sg)).
  - now apply (wait_until_keeps api) in H as [_ ->].
  - unfold ret in H. now injection H as _ <-.
Qed.

(** ** The library locator in verify mode *)

Lemma file_with_extension_describes (item : pyval) (entry : string * string)
    (extensions : list string) :
  describes item entry ->
  file_with_extension item extensions =
    Ok (String.eqb (snd entry) "file" && has_extension (fst entry) extensions).
Proof.
  intros [Htype Hname]. unfold file_with_extension, and_then.
  rewrite Htype. simpl py_eq_str.
  destruct (String.eqb (snd entry) "file"); [|reflexivity].
  rewrite Hname. reflexivity.
Qed.

Lemma examples_folder_describes (item : pyval) (entry : string * string) :
  describes item entry -> examples_folder item = Ok (is_examples_entry entry).
Proof.
  intros [Htype Hname]. unfold examples_folder, and_then, is_examples_entry.
  rewrite Htype. simpl py_eq_str.
  destruct (String.eqb (snd entry) "dir"); [|reflexivity].
  rewrite Hname. reflexivity.
Qed.

Lemma sketch_is_no_folder (entry : string * string) :
  is_sketch_entry entry = true -> is_examples_entry entry = false.
Proof.
  unfold is_sketch_entry, is_examples_entry.
  intros H. apply andb_true_iff in H as [H _].
  apply String.eqb_eq in H. rewrite H. reflexivity.
Qed.

Lemma classify_root_item_describes (flags : root_flags) (item : pyval)
    (entry : string * string) :
  describes item entry ->
  classify_root_item true flags item =
    Ok {| header_file_in_root := header_file_in_root flags || is_header_entry entry;
          sketch_file_in_root := sketch_file_in_root flags || is_sketch_entry entry;
          examples_folder_in_root :=
            examples_folder_in_root flags || is_examples_entry entry |}.
Proof.
  intros Hitem. unfold classify_root_item.
  rewrite !(file_with_extension_describes item entry) by assumption.
  cbn [and_then]. fold (is_header_entry entry). fold (is_sketch_entry entry).
  destruct (is_sketch_entry entry) eqn:Hsketch.
  - rewrite (sketch_is_no_folder entry Hsketch), !orb_true_r, orb_false_r.
    reflexivity.
  - rewrite (examples_folder_describes item entry) by assumption.
    cbn [and_then]. now rewrite orb_false_r.
Qed.

(** The flags after a page are the disjunction, over its entries, of
    the three observations. *)
Lemma classify_root_describes (listing : list pyval)
    (entries : list (string * string)) :
  Forall2 describes listing entries ->
  forall flags,
  classify_root true flags listing =
    Ok {| header_file_in_root :=
            header_file_in_root flags || existsb is_header_entry entries;
          sketch_file_in_root :=
            sketch_file_in_root flags || existsb is_sketch_entry entries;
          examples_folder_in_root :=
            examples_folder_in_root flags || existsb is_examples_entry entries |}.
Proof.
  induction 1 as [|item entry listing entries Hitem _ IH]; intros flags.
  - simpl. rewrite !orb_false_r. now destruct flags.
  - cbn [classify_root]. rewrite (classify_root_item_describes flags item entry Hitem).
    cbn [and_then]. rewrite IH. simpl. now rewrite !orb_assoc.
Qed.

Lemma root_page_fetched (fuel : nat) (repository_object : repository)
    (page : nat) (row : row_list) (s s1 : session) (fetched : fetch_result) :
  get_github_api_response (contents_request repository_object) "" page s =
    (Ok fetched, s1) ->
  root_pages (S fuel) repository_object true page row s =
    (listing <-- py_list (json_data fetched) ;;
     flags <-- classify_root true no_flags listing ;;
     Ok (verify_decision flags, row), s1).
Proof.
  intros Hfetch. cbn [root_pages].
  unfold bind at 1, try_except at 1, bind at 1. rewrite Hfetch.
  cbn [ret]. unfold bind at 1, lift at 1.
  destruct (py_list (json_data fetched)) as [listing | e |]; try reflexivity.
  cbn [and_then]. unfold bind, lift.
  destruct (classify_root true no_flags listing); reflexivity.
Qed.

(** The decision with verification on. When neither descriptor file is
    found at the root and the first page of the root listing is fetched,
    the locator returns the root folder exactly when that page holds a
    header file and either no sketch file or an examples folder, and
    None for every other combination; it stops right after that one
    request, without looking into any subfolder. *)
Lemma first_page_decision
    (fuel : nat) (repository_object : repository) (row row1 row2 : row_list)
    (s s1 s2 s3 : session) (from_properties : option bool)
    (fetched : fetch_result) (listing : list pyval)
    (entries : list (string * string)) :
  parse_library_dot_properties "/" repository_object row s =
    (Ok (from_properties, row1), s1) ->
  returned_true from_properties = false ->
  parse_library_dot_json "/" repository_object row1 s1 = (Ok (false, row2), s2) ->
  get_github_api_response (contents_request repository_object) "" 1 s2 =
    (Ok fetched, s3) ->
  json_data fetched = PList listing ->
  Forall2 describes listing entries ->
  let header := existsb is_header_entry entries in
  let sketch := existsb is_sketch_entry entries in
  let examples := existsb is_examples_entry entries in
  find_library_folder (S fuel) repository_object row true s =
    (Ok (if header && (negb sketch || examples) then Some "/" else None, row2), s3).
Proof.
  intros Hprops Hfalsy Hjson Hfetch Hlisting Hentries header sketch examples.
  unfold find_library_folder.
  unfold bind at 1. rewrite Hprops. cbn [fst snd]. rewrite Hfalsy.
  unfold bind at 1. rewrite Hjson. cbn [fst snd].
  rewrite (root_page_fetched fuel repository_object 1 row2 s2 s3 fetched Hfetch).
  rewrite Hlisting. unfold py_list. cbn [py_iter and_then].
  rewrite (classify_root_describes listing entries Hentries no_flags).
  cbn [and_then]. unfold verify_decision. simpl.
  fold header sketch examples.
  destruct header, sketch, examples; reflexivity.
Qed.

(** C9. In verify mode the loop over the pages of the root listing
    never runs a second time: whatever the fuel, the outcome is that of
    a single iteration, and when the requested page is fetched the
    outcome is computed from the entries of that page alone, starting
    from all three flags false, in the session left by that one
    request, whether or not the response announced further pages. The
    locator as a whole therefore reads at most one page of the root
    listing. *)
Theorem verify_mode_single_page
    (fuel : nat) (repository_object : repository) (page : nat)
    (row : row_list) (s : session) :
  root_pages (S fuel) repository_object true page row s =
    root_pages 1 repository_object true page row s
  /\ (forall fetched s1,
        get_github_api_response (contents_request repository_object) "" page s =
          (Ok fetched, s1) ->
        root_pages (S fuel) repository_object true page row s =
          (listing <-- py_list (json_data fetched) ;;
           flags <-- classify_root true no_flags listing ;;
           Ok (verify_decision flags, row), s1))
  /\ find_library_folder (S fuel) repository_object row true s =
     find_library_folder 1 repository_object row true s.
Proof.
  split; [reflexivity|split].
  - intros fetched s1. apply root_page_fetched.
  - unfold find_library_folder, bind.
    destruct (parse_library_dot_properties "/" repository_object row s)
      as [[from_properties | e |] s1]; reflexivity.
Qed.

(** ** The JSON descriptor parser *)

Lemma store_str_fills (column : fin Column.count) (key : string)
    (json : list (string * pyval)) (repository_object : repository) :
  fills column (store_str column key json repository_object).
Proof.
  intros row s. unfold store_str, try_except, bind, lift.
  cbn [py_getitem]. destruct (dict_get key json) as [value|].
  - exists (vinsert column (PStr (py_str value)) row), s.
    split; [reflexivity|split; [|tauto]].
    intros c Hc. now apply vlookup_insert_ne.
  - exists row, s. cbn. tauto.
Qed.

Lemma store_repository_fills (json : list (string * pyval))
    (repository_object : repository) :
  fills Column.platformio_repository (store_repository json repository_object).
Proof.
  intros row s. unfold store_repository, try_except, bind, lift.
  cbn [py_getitem]. destruct (dict_get "repository" json) as [value|].
  - destruct (py_getitem value "url") as [url | e |] eqn:Hurl.
    + eexists _, s. split; [reflexivity|split; [|tauto]].
      intros c Hc. now apply vlookup_insert_ne.
    + destruct value; cbn in Hurl; try (injection Hurl as <-);
        try (eexists row, _; split; [reflexivity|split; [tauto|]];
             cbn; intros w Hw; now right).
      destruct (dict_get "url" d); [discriminate|]. injection Hurl as <-.
      exists row, s. cbn. tauto.
    + destruct value; cbn in Hurl; try discriminate.
      destruct (dict_get "url" d); discriminate.
  - exists row, s. cbn. tauto.
Qed.

Lemma store_joined_fills (column : fin Column.count) (key : string)
    (json : list (string * pyval)) (repository_object : repository) :
  joinable (dict_get key json) ->
  fills column (store_joined column key json repository_object).
Proof.
  intros Hjoin row s. unfold store_joined, try_except, bind, lift.
  cbn [py_getitem]. destruct (dict_get key json) as [value|].
  - destruct value;
      try (eexists row, _; split; [reflexivity|split; [tauto|]];
           cbn; intros w Hw; now right).
    + eexists _, s. split; [reflexivity|split; [|tauto]].
      intros c Hc. now apply vlookup_insert_ne.
    + destruct (Hjoin l eq_refl) as [strings Hstrings].
      unfold py_join. rewrite Hstrings.
      eexists _, s. split; [reflexivity|split; [|tauto]].
      intros c Hc. now apply vlookup_insert_ne.
  - exists row, s. cbn. tauto.
Qed.

Lemma author_names_named (items : list pyval) (names : list string) :
  Forall2 named items names -> author_names items = Ok (map PStr names).
Proof.
  induction 1 as [|item author items names Hitem _ IH]; [reflexivity|].
  cbn [author_names]. unfold named in Hitem. now rewrite Hitem, IH.
Qed.

Lemma str_items_strings (names : list string) :
  str_items (map PStr names) = Ok names.
Proof.
  induction names as [|n names IH]; [reflexivity|].
  cbn [map str_items]. now rewrite IH.
Qed.

Ltac run_step Hstep :=
  let row' := fresh "row" in
  let s' := fresh "s" in
  let E := fresh "E" in
  let K := fresh "K" in
  let W := fresh "W" in
  match goal with
  | |- context [bind (_ ?json ?repo ?row) _ ?s] =>
      destruct (Hstep row s) as (row' & s' & E & K & W);
      unfold bind at 1; rewrite E; clear E
  end.

(** The parser around its [authors] block: the three fields before it
    leave the authors cell alone, and once the block has returned, the
    seven fields after it leave the cell and the warnings as they are
    and the parser returns True. *)
Lemma parse_library_dot_json_around_authors
    (metadata_folder : string) (repository_object : repository)
    (row : row_list) (s s1 : session) (fetched : fetch_result)
    (json : list (string * pyval)) :
  get_json_from_url (raw_file_url repository_object metadata_folder "library.json") s =
    (Ok fetched, s1) ->
  py_dict (json_data fetched) = Ok json ->
  joinable (dict_get "frameworks" json) ->
  joinable (dict_get "platforms" json) ->
  exists row3 s3,
    row3 !!! Column.platformio_authors = row !!! Column.platformio_authors
    /\ forall rowA sA,
         store_authors json repository_object row3 s3 = (Ok rowA, sA) ->
         exists row' s',
           parse_library_dot_json metadata_folder repository_object row s =
             (Ok (true, row'), s')
           /\ row' !!! Column.platformio_authors = rowA !!! Column.platformio_authors
           /\ (forall w, In w (warnings sA) -> In w (warnings s')).
Proof.
  intros Hfetch Hdict Hframeworks Hplatforms.
  unfold parse_library_dot_json.
  unfold bind at 1, fetch_library_dot_json, try_except, bind at 1.
  rewrite Hfetch. cbn [ret]. unfold bind at 1, lift at 1. rewrite Hdict.
  run_step (store_str_fills Column.platformio_name "name" json repository_object).
  run_step (store_str_fills Column.platformio_description "description" json
              repository_object).
  run_step (store_str_fills Column.platformio_keywords "keywords" json
              repository_object).
  exists row2, s3. split.
  { rewrite K1, K0, K by discriminate. reflexivity. }
  intros rowA sA Hauthors. unfold bind at 1. rewrite Hauthors.
  run_step (store_repository_fills json repository_object).
  run_step (store_str_fills Column.platformio_version "version" json
              repository_object).
  run_step (store_str_fills Column.platformio_license "license" json
              repository_object).
  run_step (store_str_fills Column.platformio_download_url "downloadUrl" json
              repository_object).
  run_step (store_str_fills Column.platformio_homepage "homepage" json
              repository_object).
  run_step (store_joined_fills Column.platformio_frameworks "frameworks" json
              repository_object Hframeworks).
  run_step (store_joined_fills Column.platformio_platforms "platforms" json
              repository_object Hplatforms).
  eexists _, _. split; [reflexivity|]. split.
  - rewrite K8, K7, K6, K5, K4, K3, K2 by discriminate. reflexivity.
  - auto 10.
Qed.

Lemma store_authors_objects (json : list (string * pyval))
    (repository_object : repository) (row : row_list) (s : session)
    (items : list pyval) (names : list string) :
  dict_get "authors" json = Some (PList items) ->
  Forall2 named items names ->
  store_authors json repository_object row s =
    (Ok (vinsert Column.platformio_authors (PStr (join ", " names)) row), s).
Proof.
  intros Hauthors Hnames. unfold store_authors, try_except, bind, lift.
  cbn [py_getitem]. rewrite Hauthors.
  rewrite (author_names_named items names Hnames).
  unfold py_join. rewrite str_items_strings. reflexivity.
Qed.

Lemma store_authors_object (json : list (string * pyval))
    (repository_object : repository) (row : row_list) (s : session)
    (fields : list (string * pyval)) (author : pyval) :
  dict_get "authors" json = Some (PDict fields) ->
  dict_get "name" fields = Some author ->
  store_authors json repository_object row s =
    (Ok (vinsert Column.platformio_authors author row), s).
Proof.
  intros Hauthors Hname. unfold store_authors, try_except, bind, lift.
  cbn [py_getitem]. rewrite Hauthors. cbn [py_getitem]. rewrite Hname.
  reflexivity.
Qed.

Lemma store_authors_text (json : list (string * pyval))
    (repository_object : repository) (row : row_list) (s : session)
    (text : string) :
  dict_get "authors" json = Some (PStr text) ->
  store_authors json repository_object row s =
    (Ok (vinsert Column.platformio_authors (PStr text) row), s).
Proof.
  intros Hauthors. unfold store_authors, try_except, bind, lift.
  cbn [py_getitem]. rewrite Hauthors. reflexivity.
Qed.

Lemma store_authors_scalar (json : list (string * pyval))
    (repository_object : repository) (row : row_list) (s : session)
    (value : pyval) :
  dict_get "authors" json = Some value ->
  py_is_scalar value = true ->
  exists s',
    store_authors json repository_object row s = (Ok row, s')
    /\ In (authors_warning repository_object) (warnings s').
Proof.
  intros Hauthors Hscalar. unfold store_authors, try_except, bind, lift.
  cbn [py_getitem]. rewrite Hauthors.
  destruct value; try discriminate;
    (eexists; split; [reflexivity | now left]).
Qed.

(** C3, as the code has it. When library.json is fetched and decodes
    to an object whose frameworks and platforms fields, if lists, hold
    strings, the parser returns True and the authors cell holds: for a
    list of author objects, their names joined with a comma and a space;
    for a single author object, its name; for a string, that string.
    An authors field of any other JSON type (null, a boolean, a number)
    leaves the cell as it was and logs a warning, the parse going on to
    return True. *)
Theorem parse_library_dot_json_authors
    (metadata_folder : string) (repository_object : repository)
    (row : row_list) (s s1 : session) (fetched : fetch_result)
    (json : list (string * pyval)) :
  get_json_from_url (raw_file_url repository_object metadata_folder "library.json") s =
    (Ok fetched, s1) ->
  py_dict (json_data fetched) = Ok json ->
  joinable (dict_get "frameworks" json) ->
  joinable (dict_get "platforms" json) ->
  (forall items names,
      dict_get "authors" json = Some (PList items) ->
      Forall2 named items names ->
      exists row' s',
        parse_library_dot_json metadata_folder repository_object row s =
          (Ok (true, row'), s')
        /\ row' !!! Column.platformio_authors = PStr (join ", " names))
  /\ (forall fields author,
        dict_get "authors" json = Some (PDict fields) ->
        dict_get "name" fields = Some author ->
        exists row' s',
          parse_library_dot_json metadata_folder repository_object row s =
            (Ok (true, row'), s')
          /\ row' !!! Column.platformio_authors = author)
  /\ (forall text,
        dict_get "authors" json = Some (PStr text) ->
        exists row' s',
          parse_library_dot_json metadata_folder repository_object row s =
            (Ok (true, row'), s')
          /\ row' !!! Column.platformio_authors = PStr text)
  /\ (forall value,
        dict_get "authors" json = Some value ->
        py_is_scalar value = true ->
        exists row' s',
          parse_library_dot_json metadata_folder repository_object row s =
            (Ok (true, row'), s')
          /\ row' !!! Column.platformio_authors = row !!! Column.platformio_authors
          /\ In (authors_warning repository_object) (warnings s')).
Proof.
  intros Hfetch Hdict Hframeworks Hplatforms.
  destruct (parse_library_dot_json_around_authors metadata_folder repository_object
              row s s1 fetched json Hfetch Hdict Hframeworks Hplatforms)
    as (row3 & s3 & Hbefore & Hafter).
  repeat split.
  - intros items names Hauthors Hnames.
    destruct (Hafter _ _ (store_authors_objects json repository_object row3 s3
                            items names Hauthors Hnames))
      as (row' & s' & Hparse & Hcell & _).
    exists row', s'. split; [exact Hparse|].
    rewrite Hcell. apply vlookup_insert.
  - intros fields author Hauthors Hname.
    destruct (Hafter _ _ (store_authors_object json repository_object row3 s3
                            fields author Hauthors Hname))
      as (row' & s' & Hparse & Hcell & _).
    exists row', s'. split; [exact Hparse|].
    rewrite Hcell. apply vlookup_insert.
  - intros text Hauthors.
    destruct (Hafter _ _ (store_authors_text json repository_object row3 s3
                            text Hauthors))
      as (row' & s' & Hparse & Hcell & _).
    exists row', s'. split; [exact Hparse|].
    rewrite Hcell. apply vlookup_insert.
  - intros value Hauthors Hscalar.
    destruct (store_authors_scalar json repository_object row3 s3 value
                Hauthors Hscalar) as (sA & Hstore & Hwarned).
    destruct (Hafter _ _ Hstore) as (row' & s' & Hparse & Hcell & Hlog).
    exists row', s'. split; [exact Hparse|]. split.
    + now rewrite Hcell.
    + now apply Hlog.
Qed.

(** ** Rows *)

Lemma clean_cells_lookup {n : nat} (cells : vec pyval n) :
  forall cleaned, clean_cells cells = Ok cleaned ->
  forall i text, cells !!! i = PStr text -> cleaned !!! i = clean_cell text.
Proof.
  induction cells as [|cell n cells IH]; intros cleaned Hclean i.
  - inv_fin i.
  - cbn [clean_cells] in Hclean. destruct cell; try discriminate.
    destruct (clean_cells cells) as [rest | e |]; try discriminate.
    cbn [and_then] in Hclean. injection Hclean as <-.
    inv_fin i.
    + cbn. now intros text [= ->].
    + intros i text Hcell. cbn. now apply IH.
Qed.

Lemma clean_cells_all_text {n : nat} (cells : vec pyval n) :
  all_text cells -> exists cleaned, clean_cells cells = Ok cleaned.
Proof.
  induction cells as [|cell n cells IH]; intros Hall.
  - now exists [#].
  - destruct (Hall 0%fin) as [text Hcell]. cbn in Hcell. subst cell.
    destruct IH as [rest Hrest].
    + intros i. exact (Hall (FS i)).
    + exists (clean_cell text ::: rest). cbn [clean_cells]. now rewrite Hrest.
Qed.

Lemma all_text_vinsert {n : nat} (cells : vec pyval n) (i : fin n) (text : string) :
  all_text cells -> all_text (vinsert i (PStr text) cells).
Proof.
  intros Hall j. destruct (decide (i = j)) as [<- | Hne].
  - exists text. apply vlookup_insert.
  - rewrite vlookup_insert_ne by assumption. apply Hall.
Qed.

Lemma all_text_vreplicate (n : nat) (text : string) :
  all_text (vreplicate n (PStr text)).
Proof. intros i. exists text. apply vlookup_replicate. Qed.

(** ** Descriptors that are not found leave the row alone *)

Lemma bind_ok {A B} (m : N A) (k : A -> N B) (s s' : session) (b : B) :
  bind m k s = (Ok b, s') ->
  exists a s1, m s = (Ok a, s1) /\ k a s1 = (Ok b, s').
Proof.
  unfold bind. destruct (m s) as [[a | e |] s1]; try discriminate.
  intros H. now exists a, s1.
Qed.

Lemma properties_attempts_falsy (u : string) (row : row_list) (n : nat) :
  forall (s s' : session) (returned : option bool) (row' : row_list),
  properties_attempts n u row s = (Ok (returned, row'), s') ->
  returned_true returned = false -> row' = row.
Proof.
  induction n as [|n IH]; intros s s' returned row'.
  - cbn. now intros [= <- <- <-].
  - cbn [properties_attempts]. intros H.
    apply bind_ok in H as (url_data & s1 & _ & H).
    destruct url_data as [code msg | text decoded link rate].
    + apply bind_ok in H as ([] & s2 & _ & H).
      * intros Hfalsy. eapply IH; eassumption.
      * cbn in H. now injection H as <- <- <-.
    + cbn in H. injection H as <- <- <-. discriminate.
Qed.

Lemma parse_library_dot_properties_falsy (metadata_folder : string)
    (repository_object : repository) (row row' : row_list) (s s' : session)
    (returned : option bool) :
  parse_library_dot_properties metadata_folder repository_object row s =
    (Ok (returned, row'), s') ->
  returned_true returned = false -> row' = row.
Proof. apply properties_attempts_falsy. Qed.

Lemma parse_library_dot_json_false (metadata_folder : string)
    (repository_object : repository) (row row' : row_list) (s s' : session) :
  parse_library_dot_json metadata_folder repository_object row s =
    (Ok (false, row'), s') ->
  row' = row.
Proof.
  unfold parse_library_dot_json. intros H.
  apply bind_ok in H as ([found | fetched] & s1 & _ & H).
  - cbn in H. injection H as _ <- _. reflexivity.
  - repeat (apply bind_ok in H as (? & ? & _ & H)).
    cbn in H. discriminate.
Qed.

(** ** What the JSON parser returns without a decoded file *)

Lemma parse_library_dot_json_undecodable (metadata_folder : string)
    (repository_object : repository) (row : row_list) (s : session)
    (text : string) (link rate : option string) :
  upcoming s 0
    (normalize_url (raw_file_url repository_object metadata_folder "library.json")) =
    HttpOk text None link rate ->
  fst (parse_library_dot_json metadata_folder repository_object row s) =
    Ok (true, row).
Proof.
  intros Hfirst. unfold parse_library_dot_json.
  unfold bind at 1, fetch_library_dot_json, try_except, bind at 1.
  rewrite (get_json_from_url_undecodable _ _ _ _ _ Hfirst). reflexivity.
Qed.

Lemma parse_library_dot_json_http_error (metadata_folder : string)
    (repository_object : repository) (row : row_list) (s : session)
    (code : nat) (msg : string) :
  100 <= code <= 999 -> retryable code = false ->
  upcoming s 0
    (normalize_url (raw_file_url repository_object metadata_folder "library.json")) =
    HttpFailure code msg ->
  fst (parse_library_dot_json metadata_folder repository_object row s) =
    Ok (false, row).
Proof.
  intros Hcode Hretry Hfirst. unfold parse_library_dot_json.
  unfold bind at 1, fetch_library_dot_json, try_except, bind at 1.
  rewrite (get_json_from_url_http_error _ _ _ _ Hcode Hretry Hfirst). reflexivity.
Qed.

Lemma parse_library_dot_json_timeout (metadata_folder : string)
    (repository_object : repository) (row : row_list) (s : session) :
  (forall k, k < S urlopen_maximum_retries ->
     exists code msg,
       upcoming s k
         (normalize_url (raw_file_url repository_object metadata_folder "library.json")) =
         HttpFailure code msg /\ retryable code = true) ->
  fst (parse_library_dot_json metadata_folder repository_object row s) =
    Ok (false, row).
Proof.
  intros Hnet. unfold parse_library_dot_json.
  unfold bind at 1, fetch_library_dot_json, try_except, bind at 1.
  rewrite (get_json_from_url_timeout _ _ Hnet). reflexivity.
Qed.

(** ** An unreadable root listing *)

Lemma root_page_unreadable (fuel : nat) (repository_object : repository)
    (verify : bool) (page : nat) (row : row_list) (s s1 : session) (e : exn) :
  get_github_api_response (contents_request repository_object) "" page s =
    (Raise e, s1) ->
  e = JSONDecodeError \/ e = TimeoutError ->
  root_pages (S fuel) repository_object verify page row s =
    (Ok (None, row), warned root_listing_warning s1).
Proof.
  intros Hfetch He. cbn [root_pages].
  unfold bind at 1, try_except at 1, bind at 1. rewrite Hfetch.
  destruct He as [-> | ->]; reflexivity.
Qed.

(** C7, as the code has it. When neither descriptor is found at the
    root and the request for the first page of the root listing raises
    JSONDecodeError or TimeoutError, the locator returns None whatever
    the mode. With verification on, [populate_row] then returns with the
    catalog unchanged. With verification off it goes on to the
    contributor count: when that returns, a row is appended whose
    library path is the empty string; when that raises, [populate_row]
    raises the same exception and the catalog is unchanged. *)
Theorem unreadable_root_listing
    (fuel : nat) (repository_object : repository) (in_library_manager : bool)
    (table : list table_row) (s s1 s2 s3 : session)
    (from_properties : option bool) (row1 row2 : row_list) (e : exn) :
  already_listed (html_url repository_object) table = false ->
  parse_library_dot_properties "/" repository_object fresh_row s =
    (Ok (from_properties, row1), s1) ->
  returned_true from_properties = false ->
  parse_library_dot_json "/" repository_object row1 s1 = (Ok (false, row2), s2) ->
  get_github_api_response (contents_request repository_object) "" 1 s2 =
    (Raise e, s3) ->
  e = JSONDecodeError \/ e = TimeoutError ->
  (forall verify,
      find_library_folder (S fuel) repository_object fresh_row verify s =
        (Ok (None, fresh_row), warned root_listing_warning s3))
  /\ populate_row (S fuel) repository_object in_library_manager true table s =
     (Ok tt, table, warned root_listing_warning s3)
  /\ (forall contributors s4,
        get_contributor_count repository_object (warned root_listing_warning s3) =
          (Ok contributors, s4) ->
        exists row,
          populate_row (S fuel) repository_object in_library_manager false table s =
            (Ok tt, (table ++ [row])%list, s4)
          /\ row !!! Column.library_path = "")
  /\ (forall raised s4,
        get_contributor_count repository_object (warned root_listing_warning s3) =
          (Raise raised, s4) ->
        populate_row (S fuel) repository_object in_library_manager false table s =
          (Raise raised, table, s4)).
Proof.
  intros Hlisted Hprops Hfalsy Hjson Hfetch He.
  assert (Hrow1 : row1 = fresh_row)
    by (eapply parse_library_dot_properties_falsy; eassumption).
  subst row1.
  assert (Hrow2 : row2 = fresh_row)
    by (eapply parse_library_dot_json_false; eassumption).
  subst row2.
  assert (Hfind : forall verify,
             find_library_folder (S fuel) repository_object fresh_row verify s =
               (Ok (None, fresh_row), warned root_listing_warning s3)).
  { intros verify. unfold find_library_folder.
    unfold bind at 1. rewrite Hprops. cbn [fst snd]. rewrite Hfalsy.
    unfold bind at 1. rewrite Hjson. cbn [fst snd].
    eapply root_page_unreadable; eassumption. }
  split; [exact Hfind|]. split; [|split].
  - unfold populate_row. rewrite Hlisted. unfold build_row.
    unfold bind at 1. fold fresh_row. rewrite Hfind. reflexivity.
  - intros contributors s4 Hcount.
    unfold populate_row. rewrite Hlisted. unfold build_row.
    unfold bind at 1. fold fresh_row. rewrite Hfind. cbn [fst snd].
    unfold bind at 1. rewrite Hcount. unfold bind, lift.
    match goal with
    | |- context [clean_cells ?cells] =>
        assert (Hall : all_text cells);
        [| destruct (clean_cells_all_text cells Hall) as [cleaned Hcleaned];
           assert (Hpath : cells !!! Column.library_path = PStr "")]
    end.
    + destruct (description repository_object);
        repeat apply all_text_vinsert; apply all_text_vreplicate.
    + destruct (description repository_object);
        rewrite !vlookup_insert_ne by discriminate; apply vlookup_insert.
    + rewrite Hcleaned. exists cleaned. split; [reflexivity|].
      apply (clean_cells_lookup _ _ Hcleaned _ _ Hpath).
  - intros raised s4 Hcount.
    unfold populate_row. rewrite Hlisted. unfold build_row.
    unfold bind at 1. fold fresh_row. rewrite Hfind. cbn [fst snd].
    unfold bind at 1. rewrite Hcount. reflexivity.
Qed.

(** ** The catalog *)


Lemma lift_ok {A} (r : result A) (s s' : session) (a : A) :
  lift r s = (Ok a, s') -> r = Ok a.
Proof. unfold lift. now intros [= -> _]. Qed.









End Properties.

(** * Worked examples *)

Section Worked.
Import Examples.
Existing Instance plain_lib.

Lemma get_json_from_url_retry_bound_witness :
  fst (get_json_from_url "https://api.github.com/x"
         (fresh (always (HttpFailure 403 "Forbidden")))) = Raise TimeoutError
  /\ fst (get_json_from_url "https://api.github.com/x"
            (fresh (always (HttpFailure 404 "Not Found")))) =
     Raise (HTTPError 404 "Not Found")
  /\ fst (get_json_from_url "https://api.github.com/x"
            (fresh (always (HttpOk "<html>" None None None)))) =
     Raise JSONDecodeError.
Proof.
  split; [|split].
  - destruct (get_json_from_url_retry_bound "https://api.github.com/x"
                (fresh (always (HttpFailure 403 "Forbidden")))) as (H & _ & _).
    rewrite H; [reflexivity|].
    intros k _. exists 403, "Forbidden". split; reflexivity.
  - destruct (get_json_from_url_retry_bound "https://api.github.com/x"
                (fresh (always (HttpFailure 404 "Not Found")))) as (_ & H & _).
    rewrite (H 404 "Not Found"); [reflexivity | lia | reflexivity | reflexivity].
  - destruct (get_json_from_url_retry_bound "https://api.github.com/x"
                (fresh (always (HttpOk "<html>" None None None)))) as (_ & _ & H).
    rewrite (H "<html>" None None); reflexivity.
Defined.

Lemma parse_library_dot_properties_exhausted_witness :
  fst (parse_library_dot_properties "/" sample_repository fresh_row
         (fresh (always (HttpFailure 503 "Service Unavailable")))) =
  Ok (None, fresh_row).
Proof.
  destruct (parse_library_dot_properties_exhausted "/" sample_repository fresh_row
              (fresh (always (HttpFailure 503 "Service Unavailable")))) as [H _].
  - intros k _. exists 503, "Service Unavailable". split; reflexivity.
  - rewrite H. reflexivity.
Defined.

(** C5 (defect in the code). The page count is the integer 0 for an
    empty body and the integer 1 for a body without a Link header, but a
    count read from the last relation of the Link header is never an
    integer: it is the text cut out of the header, as here the string
    "34" and not the integer 34, since the code stores
    [parameter.split('=')[1]] without converting it. *)
Theorem page_count_of_last_relation_is_text :
  (forall body link, py_truthy body = false ->
                     snd (pagination body link) = PInt 0)
  /\ (forall body, py_truthy body = true ->
                   snd (pagination body None) = PInt 1)
  /\ (forall body text, py_truthy body = true ->
                        one_or_text (snd (pagination body (Some text))))
  /\ fst (get_json_from_url
            "https://api.github.com/repos/owner/lib/contributors?per_page=1"
            (fresh (always (HttpOk "" (Some contributors_page)
                                   (Some link_header) None)))) =
     Ok {| json_data := contributors_page;
           additional_pages := true;
           page_count := PStr "34" |}
  /\ PStr "34" <> PInt 34.
Proof.
  split; [|split; [|split; [|split]]].
  - intros body link H. unfold pagination. now rewrite H.
  - intros body H. unfold pagination. now rewrite H.
  - intros body text H. unfold pagination. rewrite H. cbn [negb snd].
    apply link_header_one_or_text.
  - vm_compute. reflexivity.
  - discriminate.
Qed.

(** The example of C3 as the specification words it: with the authors
    given as the list of strings A and B, the parser does not return
    with the cell holding the joined names; looking up the name of a
    string raises TypeError, which the authors block does not catch. *)
Lemma authors_list_of_strings_not_joined :
  fst (parse_library_dot_json "/" sample_repository fresh_row
         (fresh (always (ok json_with_author_strings)))) = Raise TypeError
  /\ ~ exists row' s',
        parse_library_dot_json "/" sample_repository fresh_row
          (fresh (always (ok json_with_author_strings))) = (Ok (true, row'), s')
        /\ row' !!! Column.platformio_authors = PStr "A, B".
Proof.
  assert (H : fst (parse_library_dot_json "/" sample_repository fresh_row
                     (fresh (always (ok json_with_author_strings)))) =
              Raise TypeError) by (vm_compute; reflexivity).
  split; [exact H|].
  intros (row' & s' & Hparse & _). rewrite Hparse in H. discriminate H.
Qed.

Lemma parse_library_dot_json_authors_witness :
  exists row' s',
    parse_library_dot_json "/" sample_repository fresh_row
      (fresh (always (ok json_with_author_objects))) = (Ok (true, row'), s')
    /\ row' !!! Column.platformio_authors = PStr "A, B".
Proof.
  destruct (parse_library_dot_json_authors "/" sample_repository fresh_row
              (fresh (always (ok json_with_author_objects)))
              (snd (get_json_from_url
                      (raw_file_url sample_repository "/" "library.json")
                      (fresh (always (ok json_with_author_objects)))))
              {| json_data := json_with_author_objects;
                 additional_pages := false; page_count := PInt 1 |}
              [("name", PStr "Lib");
               ("authors", PList [PDict [("name", PStr "A")];
                                  PDict [("name", PStr "B")]])])
    as (Hobjects & _).
  - vm_compute. reflexivity.
  - reflexivity.
  - intros items H. discriminate H.
  - intros items H. discriminate H.
  - apply (Hobjects [PDict [("name", PStr "A")]; PDict [("name", PStr "B")]]
                    ["A"; "B"]).
    + reflexivity.
    + repeat constructor.
Defined.

(** C6 (defect in the code). Over any session, the parser returns
    True when the body of library.json does not decode, and False when
    the request fails with a non-retryable HTTP status or exhausts its
    retries; but a file that is retrieved and decodes can make it raise
    instead of returning True, as with authors given as a list of
    strings: the authors block catches KeyError only. *)
Theorem parse_library_dot_json_found_or_raises :
  (forall (lib : PyLib) metadata_folder repository_object row s text link rate,
      upcoming s 0
        (normalize_url (raw_file_url repository_object metadata_folder "library.json")) =
        HttpOk text None link rate ->
      fst (parse_library_dot_json (lib := lib) metadata_folder repository_object row s) =
        Ok (true, row))
  /\ (forall (lib : PyLib) metadata_folder repository_object row s code msg,
        100 <= code <= 999 -> retryable code = false ->
        upcoming s 0
          (normalize_url (raw_file_url repository_object metadata_folder "library.json")) =
          HttpFailure code msg ->
        fst (parse_library_dot_json (lib := lib) metadata_folder repository_object row s) =
          Ok (false, row))
  /\ (forall (lib : PyLib) metadata_folder repository_object row s,
        (forall k, k < S urlopen_maximum_retries ->
           exists code msg,
             upcoming s k
               (normalize_url
                  (raw_file_url repository_object metadata_folder "library.json")) =
               HttpFailure code msg /\ retryable code = true) ->
        fst (parse_library_dot_json (lib := lib) metadata_folder repository_object row s) =
          Ok (false, row))
  /\ fst (parse_library_dot_json "/" sample_repository fresh_row
            (fresh (always
                      (ok (PDict [("name", PStr "Lib");
                                  ("authors", PList [PStr "Ann"; PStr "Bob"])]))))) =
     Raise TypeError.
Proof.
  split; [|split; [|split]].
  - intros. eapply parse_library_dot_json_undecodable; eassumption.
  - intros. eapply parse_library_dot_json_http_error; eassumption.
  - intros. now apply parse_library_dot_json_timeout.
  - vm_compute. reflexivity.
Qed.

Lemma first_page_decision_example :
  find_library_folder 1 sample_repository fresh_row true library_session =
    (Ok (Some "/", fresh_row), after_listing library_session).
Proof.
  apply (first_page_decision 0 sample_repository fresh_row fresh_row fresh_row
           library_session (after_properties library_session)
           (after_json library_session) (after_listing library_session)
           (Some false) (first_page (PList library_listing))
           library_listing library_entries).
  - vm_compute. reflexivity.
  - reflexivity.
  - vm_compute. reflexivity.
  - vm_compute. reflexivity.
  - reflexivity.
  - repeat (constructor; [split; reflexivity|]). constructor.
Defined.

(** C1 (defect in the code). With verification on and no descriptor at
    the root, the locator applies the rule of the claim (accept exactly
    when a header file is present and either no sketch file is or an
    examples folder is, without any subfolder search) to the entries of
    the first page of the root listing and returns. For a root listing
    of more than one page the decision is therefore not the one the
    rule gives on the listing: with the only header file on the second
    page and no sketch file anywhere, the locator answers None, while
    with verification off the same listing is read to its second page
    and the root is returned. *)
Theorem verify_mode_decides_on_first_page :
  (forall (lib : PyLib) fuel repository_object row row1 row2 s s1 s2 s3
          from_properties fetched listing entries,
      parse_library_dot_properties (lib := lib) "/" repository_object row s =
        (Ok (from_properties, row1), s1) ->
      returned_true from_properties = false ->
      parse_library_dot_json (lib := lib) "/" repository_object row1 s1 =
        (Ok (false, row2), s2) ->
      get_github_api_response (lib := lib) (contents_request repository_object)
        "" 1 s2 = (Ok fetched, s3) ->
      json_data fetched = PList listing ->
      Forall2 describes listing entries ->
      find_library_folder (lib := lib) (S fuel) repository_object row true s =
        (Ok (if existsb is_header_entry entries &&
                (negb (existsb is_sketch_entry entries) ||
                 existsb is_examples_entry entries)
             then Some "/" else None, row2), s3))
  /\ fst (find_library_folder 5 sample_repository fresh_row true two_page_session) =
     Ok (None, fresh_row)
  /\ additional_pages
       (first_page_of (get_github_api_response (contents_request sample_repository)
                         "" 1 (after_json two_page_session))) = true
  /\ fst (get_github_api_response (contents_request sample_repository) "" 2
            (after_listing two_page_session)) =
     Ok (first_page (PList [entry "Lib.h" "file"]))
  /\ existsb is_header_entry (first_page_entries ++ second_page_entries) = true
  /\ existsb is_sketch_entry (first_page_entries ++ second_page_entries) = false
  /\ fst (find_library_folder 5 sample_repository fresh_row false two_page_session) =
     Ok (Some "/", fresh_row).
Proof.
  split.
  - intros. now apply first_page_decision with (entries := entries)
      (from_properties := from_properties) (row1 := row1) (s1 := s1) (s2 := s2)
      (fetched := fetched) (listing := listing).
  - repeat split; vm_compute; reflexivity.
Qed.

Lemma verify_mode_single_page_witness :
  root_pages 5 sample_repository true 1 fresh_row (after_json paged_session) =
    (Ok (Some "/", fresh_row), after_listing paged_session).
Proof.
  destruct (verify_mode_single_page 4 sample_repository 1 fresh_row
              (after_json paged_session)) as (_ & Hpage & _).
  rewrite (Hpage {| json_data := PList library_listing;
                    additional_pages := true;
                    page_count := PStr "34" |}
                 (after_listing paged_session)).
  - reflexivity.
  - vm_compute. reflexivity.
Defined.

Lemma unreadable_root_listing_witness :
  (forall verify,
      find_library_folder 1 sample_repository fresh_row verify unreadable_session =
        (Ok (None, fresh_row),
         warned root_listing_warning (after_listing unreadable_session)))
  /\ populate_row 1 sample_repository false true initialize_table unreadable_session =
     (Ok tt, initialize_table,
      warned root_listing_warning (after_listing unreadable_session))
  /\ exists row,
       populate_row 1 sample_repository false false initialize_table
         unreadable_session =
         (Ok tt, (initialize_table ++ [row])%list,
          snd (get_contributor_count sample_repository
                 (warned root_listing_warning (after_listing unreadable_session))))
       /\ row !!! Column.library_path = "".
Proof.
  destruct (unreadable_root_listing 0 sample_repository false initialize_table
              unreadable_session (after_properties unreadable_session)
              (after_json unreadable_session) (after_listing unreadable_session)
              (Some false) fresh_row fresh_row JSONDecodeError)
    as (Hfind & Hverify & Hrow & _).
  - vm_compute. reflexivity.
  - vm_compute. reflexivity.
  - reflexivity.
  - vm_compute. reflexivity.
  - vm_compute. reflexivity.
  - left. reflexivity.
  - split; [exact Hfind|]. split; [exact Hverify|].
    apply (Hrow "34"). vm_compute. reflexivity.
Defined.

(** The case C7 leaves out as the specification words it: the root
    listing does not decode, verification is off, and the contributors
    endpoint answers 404. The locator returns None, yet no row is
    added: [populate_row] raises the HTTP error and the catalog is left
    as it was. *)
Lemma unreadable_listing_row_not_added :
  fst (find_library_folder 1 sample_repository fresh_row false uncounted_session) =
    Ok (None, fresh_row)
  /\ fst (populate_row 1 sample_repository false false initialize_table
            uncounted_session) =
     (Raise (HTTPError 404 "Not Found"), initialize_table)
  /\ ~ exists row s',
        populate_row 1 sample_repository false false initialize_table
          uncounted_session = (Ok tt, (initialize_table ++ [row])%list, s').
Proof.
  assert (H : fst (populate_row 1 sample_repository false false initialize_table
                     uncounted_session) =
              (Raise (HTTPError 404 "Not Found"), initialize_table))
    by (vm_compute; reflexivity).
  split; [vm_compute; reflexivity|]. split; [exact H|].
  intros (row & s' & Hrun). rewrite Hrun in H. discriminate H.
Qed.


Lemma check_rate_limiting_keeps_zero_witness :
  exists s2,
    check_rate_limiting Core exhausted_session = (Ok tt, s2)
    /\ wait_until (PInt 1000)
         (snd (set_remaining Core (PInt 0)
                 (snd (get_json_from_url rate_limit_url exhausted_session)))) =
       (Ok tt, s2)
    /\ py_eq_zero (cached_remaining Core s2) = true
    /\ forall outcome s3,
         check_rate_limiting Core s2 = (outcome, s3) ->
         exists later,
           requests s3 = (later ++ normalize_url rate_limit_url :: requests s2)%list.
Proof.
  destruct (check_rate_limiting_keeps_zero Core exhausted_session
              (snd (get_json_from_url rate_limit_url exhausted_session))
              (first_page (rate_limit_status 0))
              [("resources",
                PDict [("core", pool_status 0); ("search", pool_status 0)])]
              (PDict [("core", pool_status 0); ("search", pool_status 0)])
              (pool_status 0) (PInt 0) (PInt 1000) (PInt 60))
    as (Hrun & Hreturns & Hzero);
    try (vm_compute; reflexivity).
  destruct (Hreturns eq_refl) as [s2 Hs2]. exists s2.
  split; [exact Hs2|]. split; [now rewrite <- Hrun|]. exact (Hzero _ _ Hs2).
Defined.


End Worked.

(** * Further properties of the crawl engine *)

Section Further.
Context {lib : PyLib}.

(** ** The fetcher: recovery and bounds *)

Lemma repeat_middle {A} (x : A) (m : nat) (l : list A) :
  (repeat x m ++ x :: l = x :: repeat x m ++ l)%list.
Proof.
  induction m as [|m IH]; [reflexivity|]. cbn. now rewrite IH.
Qed.

Lemma determine_urlopen_retry_cases (code : nat) (msg : string) (s : session) :
  determine_urlopen_retry code msg s = (Ok true, advance s [] urlopen_retry_delay)
  \/ determine_urlopen_retry code msg s = (Ok false, s).
Proof.
  unfold determine_urlopen_retry. destruct (existsb _ _); [left | right]; reflexivity.
Qed.

Lemma get_json_attempts_recovers (u : string) (body : pyval) (text : string)
    (link rate : option string) (k : nat) :
  forall (n : nat) (s : session),
  k < n ->
  (forall j, j < k ->
     exists code msg, upcoming s j u = HttpFailure code msg /\ retryable code = true) ->
  upcoming s k u = HttpOk text (Some body) link rate ->
  get_json_attempts n u s =
    (record_rate_limit u rate ;; ret (fetched_page body link))
      (advance s (repeat u (S k)) (urlopen_retry_delay * Z.of_nat k)).
Proof.
  induction k as [|k IH]; intros n s Hn Hfail Hok.
  - destruct n as [|n]; [lia|]. cbn [get_json_attempts]. unfold bind at 1.
    rewrite urlopen_advance, Hok. reflexivity.
  - destruct n as [|n]; [lia|].
    destruct (Hfail 0) as (code & msg & Hfirst & Hretry); [lia|].
    cbn [get_json_attempts]. unfold bind at 1.
    rewrite urlopen_advance, Hfirst. unfold bind at 1.
    rewrite determine_urlopen_retry_true by assumption.
    rewrite (IH n).
    + rewrite !advance_advance. f_equal. f_equal.
      * rewrite <- ?app_assoc. simpl. f_equal. symmetry. apply repeat_cons.
      * unfold urlopen_retry_delay. lia.
    + lia.
    + intros j Hj. rewrite !upcoming_advance. simpl. apply Hfail. lia.
    + rewrite !upcoming_advance. simpl. exact Hok.
Qed.

(** X1. A fetch that meets k <= 5 retryable failures and then a
    response whose body decodes returns that body with its pagination
    data, after exactly k + 1 requests for the URL and k sleeps of the
    retry delay; the quota header of the good response is recorded. *)
Theorem get_json_from_url_recovers (url : string) (s : session) (k : nat)
    (body : pyval) (text : string) (link rate : option string) :
  k <= urlopen_maximum_retries ->
  (forall j, j < k ->
     exists code msg,
       upcoming s j (normalize_url url) = HttpFailure code msg /\
       retryable code = true) ->
  upcoming s k (normalize_url url) = HttpOk text (Some body) link rate ->
  get_json_from_url url s =
    (record_rate_limit (normalize_url url) rate ;; ret (fetched_page body link))
      (advance s (repeat (normalize_url url) (S k)) (urlopen_retry_delay * Z.of_nat k)).
Proof.
  intros Hk Hfail Hok. unfold get_json_from_url.
  apply get_json_attempts_recovers with (text := text); [lia | assumption..].
Qed.

Lemma record_rate_limit_frame (u : string) (header : option string)
    (s s' : session) (r : result unit) :
  record_rate_limit u header s = (r, s') ->
  net s' = net s /\ requests s' = requests s /\ clock s' = clock s
  /\ warnings s' = warnings s.
Proof.
  unfold record_rate_limit, set_remaining, raise, ret.
  destruct (startswith u "https://api.github.com"); [|intros [= <- <-]; tauto].
  destruct header as [text|]; [|intros [= <- <-]; tauto].
  destruct (py_int text); [|intros [= <- <-]; tauto].
  destruct (startswith u "https://api.github.com/search");
    intros [= <- <-]; cbn; tauto.
Qed.

(** What any run of the retry loop leaves behind: [m] requests for the
    URL, [sleeps] retry delays. *)
Lemma get_json_attempts_shape (u : string) (n : nat) :
  forall (s s' : session) (r : result fetch_result),
  get_json_attempts n u s = (r, s') ->
  exists m sleeps,
    m <= n /\ sleeps <= m
    /\ requests s' = (repeat u m ++ requests s)%list
    /\ clock s' = (clock s + urlopen_retry_delay * Z.of_nat sleeps)%Z
    /\ net s' = net s /\ warnings s' = warnings s.
Proof.
  induction n as [|n IH]; intros s s' r.
  - cbn. intros [= <- <-]. exists 0, 0. cbn. repeat split; lia.
  - cbn [get_json_attempts]. unfold bind at 1. rewrite urlopen_advance.
    destruct (upcoming s 0 u) as [code msg | text decoded link rate].
    + unfold bind at 1.
      destruct (determine_urlopen_retry_cases code msg (advance s [u] 0)) as [-> | ->].
      * intros H. apply IH in H as (m & sleeps & Hm & Hsleeps & Hreq & Hclock & Hnet & Hwarn).
        exists (S m), (S sleeps). cbn in *.
        rewrite Hreq, Hclock, Hnet, Hwarn.
        repeat split; try lia; try (unfold urlopen_retry_delay; lia).
        rewrite ?app_nil_r. apply repeat_middle.
      * cbn. intros [= <- <-]. exists 1, 0. cbn. repeat split; lia.
    + destruct decoded as [body|].
      * unfold bind.
        destruct (record_rate_limit u rate (advance s [u] 0)) as [[[] | e |] s1] eqn:Hrate;
          apply record_rate_limit_frame in Hrate as (Hnet & Hreq & Hclock & Hwarn);
          unfold ret; intros [= <- <-]; exists 1, 0;
          rewrite Hnet, Hreq, Hclock, Hwarn; cbn; repeat split; lia.
      * cbn. intros [= <- <-]. exists 1, 0. cbn. repeat split; lia.
Qed.

(** X2. Whatever the network does, one call of the fetcher opens its
    own (normalized) URL between one and six times and nothing else,
    sleeps at most once per request, each time the retry delay, logs no
    warning and leaves the network as it is: a fetch costs at most six
    requests and six minutes. *)
Theorem get_json_from_url_bounded (url : string) (s s' : session)
    (r : result fetch_result) :
  get_json_from_url url s = (r, s') ->
  exists m sleeps,
    1 <= m <= S urlopen_maximum_retries /\ sleeps <= m
    /\ requests s' = (repeat (normalize_url url) m ++ requests s)%list
    /\ clock s' = (clock s + urlopen_retry_delay * Z.of_nat sleeps)%Z
    /\ (clock s <= clock s' <= clock s + 360)%Z
    /\ net s' = net s /\ warnings s' = warnings s.
Proof.
  intros H. pose proof H as Hshape.
  apply get_json_attempts_shape in Hshape
    as (m & sleeps & Hm & Hsleeps & Hreq & Hclock & Hnet & Hwarn).
  apply get_json_from_url_opens in H as [later Hlater].
  exists m, sleeps. repeat split; try assumption; try lia.
  - destruct m; [|lia]. cbn in Hreq. rewrite Hreq in Hlater.
    apply (f_equal (@length string)) in Hlater.
    rewrite length_app in Hlater. cbn in Hlater. lia.
  - rewrite Hclock. unfold urlopen_retry_delay. lia.
  - rewrite Hclock. unfold urlopen_retry_delay, urlopen_maximum_retries in *. lia.
Qed.

Lemma record_rate_limit_elsewhere (u : string) (header : option string)
    (s s' : session) (r : result unit) :
  startswith u "https://api.github.com" = false ->
  record_rate_limit u header s = (r, s') -> s' = s.
Proof.
  intros Hu. unfold record_rate_limit. rewrite Hu. now intros [= _ <-].
Qed.

Lemma get_json_attempts_elsewhere (u : string) (n : nat) :
  startswith u "https://api.github.com" = false ->
  forall (s s' : session) (r : result fetch_result),
  get_json_attempts n u s = (r, s') ->
  remaining_search s' = remaining_search s /\ remaining_core s' = remaining_core s.
Proof.
  intros Hu. induction n as [|n IH]; intros s s' r.
  - cbn. intros [= <- <-]. tauto.
  - cbn [get_json_attempts]. unfold bind at 1. rewrite urlopen_advance.
    destruct (upcoming s 0 u) as [code msg | text decoded link rate].
    + unfold bind at 1.
      destruct (determine_urlopen_retry_cases code msg (advance s [u] 0)) as [-> | ->].
      * intros H. apply IH in H. exact H.
      * cbn. intros [= <- <-]. tauto.
    + destruct decoded as [body|].
      * unfold bind.
        destruct (record_rate_limit u rate (advance s [u] 0)) as [[[] | e |] s1] eqn:Hrate;
          apply (record_rate_limit_elsewhere u rate _ _ _ Hu) in Hrate; subst s1;
          unfold ret; intros [= <- <-]; tauto.
      * cbn. intros [= <- <-]. tauto.
Qed.

(** X3. The quota cache follows the responses: a fetch of a URL outside
    the API never changes either cached count, whatever its outcome; a
    fetch of an API URL answered at once with a decodable body and the
    header X-RateLimit-Remaining: n stores n for the pool of the URL
    (search for URLs under /search, core otherwise) and leaves the other
    pool as it was. *)
Theorem quota_cache_follows_responses (url : string) (s : session) :
  (startswith (normalize_url url) "https://api.github.com" = false ->
   forall r s', get_json_from_url url s = (r, s') ->
     remaining_search s' = remaining_search s /\
     remaining_core s' = remaining_core s)
  /\ (startswith (normalize_url url) "https://api.github.com" = true ->
      forall text body link header n,
        upcoming s 0 (normalize_url url) = HttpOk text (Some body) link (Some header) ->
        py_int header = Some n ->
        exists s',
          get_json_from_url url s = (Ok (fetched_page body link), s')
          /\ cached_remaining (pool_of_url (normalize_url url)) s' = PInt n
          /\ match pool_of_url (normalize_url url) with
             | Search => remaining_core s' = remaining_core s
             | Core => remaining_search s' = remaining_search s
             end).
Proof.
  split.
  - intros Hu r s'. apply get_json_attempts_elsewhere. exact Hu.
  - intros Hu text body link header n Hok Hint.
    unfold get_json_from_url. cbn [get_json_attempts]. unfold bind at 1.
    rewrite urlopen_advance, Hok. unfold bind, record_rate_limit, pool_of_url.
    rewrite Hu, Hint.
    destruct (startswith (normalize_url url) "https://api.github.com/search");
      eexists; (split; [reflexivity|]); cbn; tauto.
Qed.

(** ** The rate limiter: the two quick paths *)

(** X4. With a cached count other than zero [check_rate_limiting]
    returns at once, the session untouched. With a cached count of zero
    it asks the status endpoint and, when the reported count for the pool
    is not zero, stores it and returns without waiting (the clock is
    where the status request left it), so that the next call for the pool
    returns at once. *)
Theorem check_rate_limiting_refreshes
    (api : api_type) (s s1 : session) (fetched : fetch_result)
    (status : list (string * pyval)) (resources pool remaining reset limit : pyval) :
  py_eq_zero (cached_remaining api s) = true ->
  get_json_from_url rate_limit_url s = (Ok fetched, s1) ->
  py_dict (json_data fetched) = Ok status ->
  py_getitem (PDict status) "resources" = Ok resources ->
  py_getitem resources (api_name api) = Ok pool ->
  py_getitem pool "remaining" = Ok remaining ->
  py_getitem pool "reset" = Ok reset ->
  py_getitem pool "limit" = Ok limit ->
  py_eq_zero remaining = false ->
  let s2 := snd (set_remaining api remaining s1) in
  (forall t, py_eq_zero (cached_remaining api t) = false ->
             check_rate_limiting api t = (Ok tt, t))
  /\ check_rate_limiting api s = (Ok tt, s2)
  /\ cached_remaining api s2 = remaining
  /\ clock s2 = clock s1 /\ requests s2 = requests s1
  /\ check_rate_limiting api s2 = (Ok tt, s2).
Proof.
  intros Hzero Hfetch Hdict Hres Hpool Hrem Hreset Hlimit Hrem0 s2.
  assert (Hquick : forall t, py_eq_zero (cached_remaining api t) = false ->
                             check_rate_limiting api t = (Ok tt, t)).
  { intros t Ht. unfold check_rate_limiting. unfold bind at 1.
    rewrite get_remaining_cached, Ht. reflexivity. }
  assert (Hcached : cached_remaining api s2 = remaining)
    by (destruct api; reflexivity).
  split; [exact Hquick|]. split; [|split; [exact Hcached|]].
  - unfold check_rate_limiting. unfold bind at 1.
    rewrite get_remaining_cached, Hzero.
    unfold bind at 1. rewrite Hfetch.
    unfold bind at 1, lift at 1. rewrite Hdict.
    unfold bind at 1, lift at 1. rewrite Hres.
    unfold bind at 1, lift at 1. rewrite Hpool.
    unfold bind at 1, lift at 1. rewrite Hrem.
    unfold bind at 1.
    change (set_remaining api remaining s1) with (Ok tt, s2).
    unfold bind at 1, lift at 1. rewrite Hreset.
    unfold bind at 1, lift at 1. rewrite Hlimit.
    unfold bind at 1. rewrite get_remaining_cached, Hcached, Hrem0.
    reflexivity.
  - split; [destruct api; reflexivity|]. split; [destruct api; reflexivity|].
    apply Hquick. now rewrite Hcached.
Qed.

(** ** The library locator with verification off *)

Lemma classify_root_item_plain (flags : root_flags) (item : pyval)
    (entry : string * string) :
  describes item entry ->
  classify_root_item false flags item =
    Ok {| header_file_in_root := header_file_in_root flags || is_header_entry entry;
          sketch_file_in_root := sketch_file_in_root flags;
          examples_folder_in_root := examples_folder_in_root flags |}.
Proof.
  intros Hitem. unfold classify_root_item.
  rewrite (file_with_extension_describes item entry) by assumption. reflexivity.
Qed.

Lemma classify_root_plain (listing : list pyval) (entries : list (string * string)) :
  Forall2 describes listing entries ->
  forall flags,
  classify_root false flags listing =
    Ok {| header_file_in_root :=
            header_file_in_root flags || existsb is_header_entry entries;
          sketch_file_in_root := sketch_file_in_root flags;
          examples_folder_in_root := examples_folder_in_root flags |}.
Proof.
  induction 1 as [|item entry listing entries Hitem _ IH]; intros flags.
  - simpl. rewrite orb_false_r. now destruct flags.
  - cbn [classify_root]. rewrite (classify_root_item_plain flags item entry Hitem).
    cbn [and_then]. rewrite IH. simpl. now rewrite orb_assoc.
Qed.

(** The locator once no descriptor was found at the root. *)
Lemma find_library_folder_without_descriptor
    (fuel : nat) (repository_object : repository) (row row1 row2 : row_list)
    (verify : bool) (s s1 s2 : session) (from_properties : option bool) :
  parse_library_dot_properties "/" repository_object row s =
    (Ok (from_properties, row1), s1) ->
  returned_true from_properties = false ->
  parse_library_dot_json "/" repository_object row1 s1 = (Ok (false, row2), s2) ->
  find_library_folder fuel repository_object row verify s =
    root_pages fuel repository_object verify 1 row2 s2.
Proof.
  intros Hprops Hfalsy Hjson. unfold find_library_folder.
  unfold bind at 1. rewrite Hprops. cbn [fst snd]. rewrite Hfalsy.
  unfold bind at 1. rewrite Hjson. reflexivity.
Qed.

(** One iteration of the loop over the root pages, verification off. *)
Lemma root_page_plain (fuel : nat) (repository_object : repository)
    (page : nat) (row : row_list) (s s1 : session) (fetched : fetch_result)
    (listing : list pyval) (entries : list (string * string)) :
  get_github_api_response (contents_request repository_object) "" page s =
    (Ok fetched, s1) ->
  json_data fetched = PList listing ->
  Forall2 describes listing entries ->
  root_pages (S fuel) repository_object false page row s =
    if existsb is_header_entry entries then (Ok (Some "/", row), s1)
    else
      (scanned <- scan_subfolders fuel repository_object listing (S page)
                    (additional_pages fetched) row ;;
       match found_folder scanned with
       | Some library_folder => ret (Some library_folder, scanned_row scanned)
       | None =>
           if more_pages scanned
           then root_pages fuel repository_object false
                  (page_number scanned) (scanned_row scanned)
           else ret (None, scanned_row scanned)
       end) s1.
Proof.
  intros Hfetch Hlisting Hentries. cbn [root_pages].
  unfold bind at 1, try_except at 1, bind at 1. rewrite Hfetch.
  cbn [ret]. unfold bind at 1, lift at 1. rewrite Hlisting. cbn [py_list py_iter].
  unfold bind at 1, lift at 1.
  rewrite (classify_root_plain listing entries Hentries no_flags). cbn.
  destruct (existsb is_header_entry entries); reflexivity.
Qed.

(** X5. Whatever the mode and however little fuel the page loops have,
    when either descriptor file is found at the root the locator answers
    the root folder right after the two attempts: the attempt on
    library.json is made even when library.properties was found, and no
    contents listing is requested. *)
Theorem root_descriptor_found
    (fuel : nat) (repository_object : repository) (row row1 row2 : row_list)
    (verify : bool) (s s1 s2 : session) (from_properties : option bool)
    (from_json : bool) :
  parse_library_dot_properties "/" repository_object row s =
    (Ok (from_properties, row1), s1) ->
  parse_library_dot_json "/" repository_object row1 s1 = (Ok (from_json, row2), s2) ->
  returned_true from_properties || from_json = true ->
  find_library_folder fuel repository_object row verify s = (Ok (Some "/", row2), s2).
Proof.
  intros Hprops Hjson Hfound. unfold find_library_folder.
  unfold bind at 1. rewrite Hprops. cbn [fst snd].
  unfold bind at 1. rewrite Hjson. cbn [fst snd].
  destruct (returned_true from_properties), from_json; try discriminate; reflexivity.
Qed.

(** X6. With verification off, a header file on the first page of the
    root listing is enough: the locator answers the root folder whatever
    else the page holds (sketch files included) and requests nothing
    after that page. *)
Theorem plain_mode_header_in_root
    (fuel : nat) (repository_object : repository) (row row1 row2 : row_list)
    (s s1 s2 s3 : session) (from_properties : option bool)
    (fetched : fetch_result) (listing : list pyval)
    (entries : list (string * string)) :
  parse_library_dot_properties "/" repository_object row s =
    (Ok (from_properties, row1), s1) ->
  returned_true from_properties = false ->
  parse_library_dot_json "/" repository_object row1 s1 = (Ok (false, row2), s2) ->
  get_github_api_response (contents_request repository_object) "" 1 s2 =
    (Ok fetched, s3) ->
  json_data fetched = PList listing ->
  Forall2 describes listing entries ->
  existsb is_header_entry entries = true ->
  find_library_folder (S fuel) repository_object row false s =
    (Ok (Some "/", row2), s3).
Proof.
  intros Hprops Hfalsy Hjson Hfetch Hlisting Hentries Hheader.
  rewrite (find_library_folder_without_descriptor _ _ _ _ _ _ _ _ _ _
             Hprops Hfalsy Hjson).
  rewrite (root_page_plain _ _ _ _ _ _ _ _ _ Hfetch Hlisting Hentries).
  now rewrite Hheader.
Qed.

(** ** The scan of the subfolders *)

Lemma first_is_not_dot_named (folder : string) :
  String.eqb folder "" = false ->
  first_is_not_dot (PStr folder) = Ok (negb (startswith folder ".")).
Proof.
  destruct folder as [|c rest]; [discriminate|]. intros _.
  unfold first_is_not_dot, startswith. cbn [String.prefix].
  destruct (ascii_dec "." c) as [<- | Hne].
  - now rewrite prefix_empty.
  - f_equal. f_equal. apply Ascii.eqb_neq. congruence.
Qed.

(** Entries that are no visible folders are passed over without a
    request. *)
Lemma scan_subfolders_passes (fuel : nat) (repository_object : repository)
    (skipped : list pyval) (entries : list (string * string)) :
  Forall2 describes skipped entries ->
  forallb has_name entries = true ->
  existsb is_visible_folder entries = false ->
  forall (rest : list pyval) (page : nat) (more : bool) (row : row_list) (s : session),
  scan_subfolders fuel repository_object (skipped ++ rest) page more row s =
    scan_subfolders fuel repository_object rest page more row s.
Proof.
  induction 1 as [|item entry skipped entries [Htype Hname] _ IH];
    intros Hnamed Hhidden rest page more row s; [reflexivity|].
  cbn [forallb] in Hnamed. apply andb_true_iff in Hnamed as [Hnamed1 Hnamed].
  cbn [existsb] in Hhidden. apply orb_false_iff in Hhidden as [Hhidden1 Hhidden].
  cbn [app scan_subfolders]. unfold bind at 1, lift at 1. rewrite Htype.
  cbn [py_eq_str]. unfold is_visible_folder in Hhidden1.
  destruct (String.eqb (snd entry) "dir").
  - unfold bind at 1, lift at 1. rewrite Hname.
    unfold bind at 1, lift at 1.
    unfold has_name in Hnamed1. apply negb_true_iff in Hnamed1.
    rewrite (first_is_not_dot_named _ Hnamed1).
    cbn in Hhidden1. rewrite Hhidden1. now apply IH.
  - now apply IH.
Qed.

(** At a visible folder the scan turns to the pages of that folder. *)
Lemma scan_subfolders_enters (fuel : nat) (repository_object : repository)
    (item : pyval) (folder : string) (rest : list pyval)
    (page : nat) (more : bool) (row : row_list) (s : session) :
  describes item (folder, "dir") ->
  String.eqb folder "" = false ->
  startswith folder "." = false ->
  scan_subfolders fuel repository_object (item :: rest) page more row s =
    (scanned <- subfolder_pages fuel repository_object folder 1 row ;;
     match found_folder scanned with
     | Some _ => ret scanned
     | None =>
         scan_subfolders fuel repository_object rest
           (page_number scanned) (more_pages scanned) (scanned_row scanned)
     end) s.
Proof.
  intros [Htype Hname] Hnamed Hvisible. cbn [fst snd] in *.
  cbn [scan_subfolders]. unfold bind at 1, lift at 1. rewrite Htype.
  cbn [py_eq_str String.eqb Ascii.eqb Bool.eqb].
  unfold bind at 1, lift at 1. rewrite Hname.
  unfold bind at 1, lift at 1. rewrite (first_is_not_dot_named _ Hnamed), Hvisible.
  cbn [negb]. unfold bind at 1, lift at 1. reflexivity.
Qed.

(** A page of a subfolder without descriptor files: the folder is the
    result as soon as the page holds a header file; no request is made and
    the row is left alone. *)
Lemma scan_subdirectory_headers (repository_object : repository) (folder : string)
    (listing : list pyval) (entries : list (string * string)) :
  Forall2 describes listing entries ->
  existsb is_descriptor_entry entries = false ->
  forall (library_folder : option string) (row : row_list) (s : session),
  scan_subdirectory repository_object folder (library_folder, row) listing s =
    (Ok (if existsb is_header_entry entries then Some folder else library_folder, row),
     s).
Proof.
  induction 1 as [|item entry listing entries Hitem _ IH];
    intros Hplain library_folder row s; [reflexivity|].
  cbn [existsb] in Hplain. apply orb_false_iff in Hplain as [Hplain1 Hplain].
  cbn [scan_subdirectory]. unfold bind at 1, scan_subdirectory_item.
  unfold bind at 1, lift at 1.
  rewrite (file_with_extension_describes item entry) by assumption.
  fold (is_header_entry entry). cbn [existsb].
  destruct (is_header_entry entry).
  - cbn [ret snd]. rewrite IH by assumption. cbn [orb].
    now destruct (existsb is_header_entry entries).
  - destruct Hitem as [Htype Hname].
    unfold is_descriptor_entry in Hplain1.
    unfold file_named, and_then. rewrite Htype. cbn [py_eq_str].
    destruct (String.eqb (snd entry) "file").
    + rewrite Hname. cbn [py_eq_str].
      cbn in Hplain1. apply orb_false_iff in Hplain1 as [Hp Hj]. rewrite Hp, Hj.
      unfold bind, lift, ret. cbn [orb]. now apply IH.
    + unfold bind, lift, ret. cbn [orb]. now apply IH.
Qed.

Lemma subfolder_page_found (fuel : nat) (repository_object : repository)
    (folder : string) (page : nat) (row : row_list) (s s1 : session)
    (fetched : fetch_result) (listing : list pyval)
    (entries : list (string * string)) :
  get_github_api_response (contents_request repository_object +:+ "/" +:+ folder)
    "" page s = (Ok fetched, s1) ->
  json_data fetched = PList listing ->
  Forall2 describes listing entries ->
  existsb is_descriptor_entry entries = false ->
  existsb is_header_entry entries = true ->
  subfolder_pages (S fuel) repository_object folder page row s =
    (Ok {| found_folder := Some folder; page_number := S page;
           more_pages := additional_pages fetched; scanned_row := row |}, s1).
Proof.
  intros Hfetch Hlisting Hentries Hplain Hheader. cbn [subfolder_pages].
  unfold bind at 1, try_except at 1, bind at 1. rewrite Hfetch.
  cbn [ret]. unfold bind at 1, lift at 1. rewrite Hlisting. cbn [py_list py_iter].
  unfold bind at 1.
  rewrite (scan_subdirectory_headers _ _ _ _ Hentries Hplain), Hheader.
  reflexivity.
Qed.

Lemma subfolder_page_failed (fuel : nat) (repository_object : repository)
    (folder : string) (page : nat) (row : row_list) (s s1 : session) (e : exn) :
  get_github_api_response (contents_request repository_object +:+ "/" +:+ folder)
    "" page s = (Raise e, s1) ->
  is_transport_error e = true ->
  subfolder_pages (S fuel) repository_object folder page row s =
    (Ok {| found_folder := None; page_number := page;
           more_pages := true; scanned_row := row |},
     warned (subfolder_warning folder) s1).
Proof.
  intros Hfetch He. cbn [subfolder_pages].
  unfold bind at 1, try_except at 1, bind at 1. rewrite Hfetch.
  destruct e; try discriminate; reflexivity.
Qed.

(** X7. With verification off, a page of the root listing that holds
    no header file and no folder to visit (every directory on it begins
    with a dot) costs no further request by itself: the locator goes on
    to the next page of the root listing when the response announced one,
    and answers None when it did not. *)
Theorem plain_mode_nothing_to_scan
    (fuel : nat) (repository_object : repository) (row row1 row2 : row_list)
    (s s1 s2 s3 : session) (from_properties : option bool)
    (fetched : fetch_result) (listing : list pyval)
    (entries : list (string * string)) :
  parse_library_dot_properties "/" repository_object row s =
    (Ok (from_properties, row1), s1) ->
  returned_true from_properties = false ->
  parse_library_dot_json "/" repository_object row1 s1 = (Ok (false, row2), s2) ->
  get_github_api_response (contents_request repository_object) "" 1 s2 =
    (Ok fetched, s3) ->
  json_data fetched = PList listing ->
  Forall2 describes listing entries ->
  forallb has_name entries = true ->
  existsb is_header_entry entries = false ->
  existsb is_visible_folder entries = false ->
  find_library_folder (S fuel) repository_object row false s =
    if additional_pages fetched
    then root_pages fuel repository_object false 2 row2 s3
    else (Ok (None, row2), s3).
Proof.
  intros Hprops Hfalsy Hjson Hfetch Hlisting Hentries Hnamed Hheader Hhidden.
  rewrite (find_library_folder_without_descriptor _ _ _ _ _ _ _ _ _ _
             Hprops Hfalsy Hjson).
  rewrite (root_page_plain _ _ _ _ _ _ _ _ _ Hfetch Hlisting Hentries), Hheader.
  unfold bind at 1.
  rewrite <- (app_nil_r listing).
  rewrite (scan_subfolders_passes _ _ _ _ Hentries Hnamed Hhidden).
  cbn. destruct (additional_pages fetched); reflexivity.
Qed.

(** X8. With verification off and no header file in the root, the
    folders of the root listing are tried in listing order, dot folders
    and files passed over: the first folder visited whose first page
    holds a header file (and no descriptor file) is the answer, found
    with the one request for that page; what follows it in the root
    listing is not looked at. *)
Theorem plain_mode_first_subfolder
    (fuel : nat) (repository_object : repository) (row row1 row2 : row_list)
    (s s1 s2 s3 s4 : session) (from_properties : option bool)
    (fetched inner : fetch_result)
    (before after : list pyval) (item : pyval) (folder : string)
    (entries_before entries_after : list (string * string))
    (inner_listing : list pyval) (inner_entries : list (string * string)) :
  parse_library_dot_properties "/" repository_object row s =
    (Ok (from_properties, row1), s1) ->
  returned_true from_properties = false ->
  parse_library_dot_json "/" repository_object row1 s1 = (Ok (false, row2), s2) ->
  get_github_api_response (contents_request repository_object) "" 1 s2 =
    (Ok fetched, s3) ->
  json_data fetched = PList (before ++ item :: after) ->
  Forall2 describes before entries_before ->
  describes item (folder, "dir") ->
  Forall2 describes after entries_after ->
  existsb is_header_entry (entries_before ++ (folder, "dir") :: entries_after) = false ->
  forallb has_name entries_before = true ->
  existsb is_visible_folder entries_before = false ->
  String.eqb folder "" = false ->
  startswith folder "." = false ->
  get_github_api_response (contents_request repository_object +:+ "/" +:+ folder)
    "" 1 s3 = (Ok inner, s4) ->
  json_data inner = PList inner_listing ->
  Forall2 describes inner_listing inner_entries ->
  existsb is_descriptor_entry inner_entries = false ->
  existsb is_header_entry inner_entries = true ->
  find_library_folder (S (S fuel)) repository_object row false s =
    (Ok (Some folder, row2), s4).
Proof.
  intros Hprops Hfalsy Hjson Hfetch Hlisting Hbefore Hitem Hafter Hheader
    Hnamed Hhidden Hfolder Hvisible Hinner Hinner_listing Hinner_entries
    Hplain Hinner_header.
  rewrite (find_library_folder_without_descriptor _ _ _ _ _ _ _ _ _ _
             Hprops Hfalsy Hjson).
  assert (Hentries : Forall2 describes (before ++ item :: after)
                       (entries_before ++ (folder, "dir") :: entries_after)).
  { apply Forall2_app; [assumption|]. now constructor. }
  rewrite (root_page_plain _ _ _ _ _ _ _ _ _ Hfetch Hlisting Hentries), Hheader.
  unfold bind at 1.
  rewrite (scan_subfolders_passes _ _ _ _ Hbefore Hnamed Hhidden).
  rewrite (scan_subfolders_enters _ _ _ _ _ _ _ _ _ Hitem Hfolder Hvisible).
  unfold bind at 1.
  rewrite (subfolder_page_found _ _ _ _ _ _ _ _ _ _ Hinner Hinner_listing
             Hinner_entries Hplain Hinner_header).
  reflexivity.
Qed.

(** X9. With verification off, when the request for the listing of a
    visited folder fails (HTTP error, undecodable body or retries
    exhausted), a warning is logged and the scan moves on; the failed
    request leaves the shared paging variables at page 1 with more pages
    expected, so if no later folder of that root page is visited, the
    loop over the root pages runs again and requests page 1 of the root
    listing anew, even when the root listing had no further page. *)
Theorem failed_subfolder_restarts_root_scan
    (fuel : nat) (repository_object : repository) (page : nat) (row : row_list)
    (s s1 s2 : session) (fetched : fetch_result) (e : exn)
    (before after : list pyval) (item : pyval) (folder : string)
    (entries_before entries_after : list (string * string)) :
  get_github_api_response (contents_request repository_object) "" page s =
    (Ok fetched, s1) ->
  json_data fetched = PList (before ++ item :: after) ->
  Forall2 describes before entries_before ->
  describes item (folder, "dir") ->
  Forall2 describes after entries_after ->
  existsb is_header_entry (entries_before ++ (folder, "dir") :: entries_after) = false ->
  forallb has_name (entries_before ++ entries_after) = true ->
  existsb is_visible_folder (entries_before ++ entries_after) = false ->
  String.eqb folder "" = false ->
  startswith folder "." = false ->
  get_github_api_response (contents_request repository_object +:+ "/" +:+ folder)
    "" 1 s1 = (Raise e, s2) ->
  is_transport_error e = true ->
  root_pages (S (S fuel)) repository_object false page row s =
    root_pages (S fuel) repository_object false 1 row
      (warned (subfolder_warning folder) s2).
Proof.
  intros Hfetch Hlisting Hbefore Hitem Hafter Hheader Hnamed Hhidden
    Hfolder Hvisible Hinner He.
  rewrite forallb_app in Hnamed. apply andb_true_iff in Hnamed as [Hnamed1 Hnamed2].
  rewrite existsb_app in Hhidden. apply orb_false_iff in Hhidden as [Hhidden1 Hhidden2].
  assert (Hentries : Forall2 describes (before ++ item :: after)
                       (entries_before ++ (folder, "dir") :: entries_after)).
  { apply Forall2_app; [assumption|]. now constructor. }
  rewrite (root_page_plain _ _ _ _ _ _ _ _ _ Hfetch Hlisting Hentries), Hheader.
  unfold bind at 1.
  rewrite (scan_subfolders_passes _ _ _ _ Hbefore Hnamed1 Hhidden1).
  rewrite (scan_subfolders_enters _ _ _ _ _ _ _ _ _ Hitem Hfolder Hvisible).
  unfold bind at 1.
  rewrite (subfolder_page_failed _ _ _ _ _ _ _ _ Hinner He).
  cbn [found_folder page_number more_pages scanned_row].
  rewrite <- (app_nil_r after).
  rewrite (scan_subfolders_passes _ _ _ _ Hafter Hnamed2 Hhidden2).
  reflexivity.
Qed.

(** X10. When the request for the root listing raises an HTTP error
    (the API answers 404 for an empty repository) the locator answers
    None in both modes and logs nothing; an exception other than
    HTTPError, JSONDecodeError and TimeoutError raised by that request
    (a malformed quota status, say) is not caught: the locator raises
    it. *)
Theorem root_listing_http_error
    (fuel : nat) (repository_object : repository) (row row1 row2 : row_list)
    (verify : bool) (s s1 s2 s3 : session) (from_properties : option bool) (e : exn) :
  parse_library_dot_properties "/" repository_object row s =
    (Ok (from_properties, row1), s1) ->
  returned_true from_properties = false ->
  parse_library_dot_json "/" repository_object row1 s1 = (Ok (false, row2), s2) ->
  get_github_api_response (contents_request repository_object) "" 1 s2 =
    (Raise e, s3) ->
  find_library_folder (S fuel) repository_object row verify s =
    match e with
    | HTTPError _ _ => (Ok (None, row2), s3)
    | JSONDecodeError | TimeoutError =>
        (Ok (None, row2), warned root_listing_warning s3)
    | _ => (Raise e, s3)
    end.
Proof.
  intros Hprops Hfalsy Hjson Hfetch.
  rewrite (find_library_folder_without_descriptor _ _ _ _ _ _ _ _ _ _
             Hprops Hfalsy Hjson).
  cbn [root_pages]. unfold bind at 1, try_except at 1, bind at 1. rewrite Hfetch.
  destruct e; reflexivity.
Qed.

(** ** The folder the locator answers *)

Lemma scan_subdirectory_item_folder (repository_object : repository)
    (folder : string) (state state' : option string * row_list) (item : pyval)
    (s s' : session) :
  scan_subdirectory_item repository_object folder state item s = (Ok state', s') ->
  fst state' = fst state \/ fst state' = Some folder.
Proof.
  unfold scan_subdirectory_item. intros H.
  apply bind_ok in H as ([] & s1 & _ & H).
  { cbn in H. injection H as <- _. now right. }
  apply bind_ok in H as ([] & s2 & _ & H).
  { apply bind_ok in H as (parsed & s3 & _ & H). cbn in H. injection H as <- _.
    now right. }
  apply bind_ok in H as ([] & s3 & _ & H).
  { apply bind_ok in H as (parsed & s4 & _ & H). cbn in H. injection H as <- _.
    now right. }
  cbn in H. injection H as <- _. now left.
Qed.

Lemma scan_subdirectory_folder (repository_object : repository) (folder : string)
    (listing : list pyval) :
  forall (state state' : option string * row_list) (s s' : session),
  scan_subdirectory repository_object folder state listing s = (Ok state', s') ->
  fst state' = fst state \/ fst state' = Some folder.
Proof.
  induction listing as [|item listing IH]; intros state state' s s' H.
  - cbn in H. injection H as <- _. now left.
  - cbn [scan_subdirectory] in H.
    apply bind_ok in H as (state1 & s1 & Hitem & H).
    apply scan_subdirectory_item_folder in Hitem.
    apply IH in H. destruct H as [H | H]; [|now right].
    rewrite H. exact Hitem.
Qed.

Lemma try_except_ok {A} (body : N A) (handler : exn -> option (N A))
    (s s' : session) (a : A) :
  try_except body handler s = (Ok a, s') ->
  body s = (Ok a, s')
  \/ exists e s1 h, body s = (Raise e, s1) /\ handler e = Some h /\ h s1 = (Ok a, s').
Proof.
  unfold try_except. destruct (body s) as [[b | e |] s1]; intros H.
  - now left.
  - destruct (handler e) as [h|] eqn:Hh; [|discriminate].
    right. now exists e, s1, h.
  - discriminate.
Qed.

Lemma subfolder_pages_folder (repository_object : repository) (folder : string)
    (fuel : nat) :
  forall (page : nat) (row : row_list) (s s' : session) (scanned : scan_state),
  subfolder_pages fuel repository_object folder page row s = (Ok scanned, s') ->
  found_folder scanned = None \/ found_folder scanned = Some folder.
Proof.
  induction fuel as [|fuel IH]; intros page row s s' scanned H; [discriminate|].
  cbn [subfolder_pages] in H.
  apply bind_ok in H as ([r|] & s1 & _ & H).
  - apply bind_ok in H as (listing & s2 & _ & H).
    apply bind_ok in H as (state & s3 & Hscan & H).
    apply scan_subdirectory_folder in Hscan. cbn [fst] in Hscan.
    destruct (fst state) as [library_folder|] eqn:Hstate.
    + cbn in H. injection H as <- _. cbn. destruct Hscan as [? | ?]; [discriminate|].
      now right.
    + destruct (additional_pages r).
      * eapply IH; eassumption.
      * cbn in H. injection H as <- _. now left.
  - cbn in H. injection H as <- _. now left.
Qed.

Lemma visible_name (item_name : pyval) (folder : string) :
  first_is_not_dot item_name = Ok true ->
  str_operand item_name = Ok folder ->
  String.eqb folder "" = false /\ startswith folder "." = false.
Proof.
  destruct item_name; try discriminate. cbn. intros Hfirst [= ->].
  destruct folder as [|c rest]; [discriminate|]. split; [reflexivity|].
  injection Hfirst as Hc. apply negb_true_iff in Hc.
  unfold startswith. cbn [String.prefix].
  destruct (ascii_dec "." c) as [<- | _]; [|reflexivity].
  discriminate Hc.
Qed.

Lemma scan_subfolders_folder (fuel : nat) (repository_object : repository)
    (listing : list pyval) :
  forall (page : nat) (more : bool) (row : row_list) (s s' : session)
         (scanned : scan_state) (library_folder : string),
  scan_subfolders fuel repository_object listing page more row s = (Ok scanned, s') ->
  found_folder scanned = Some library_folder ->
  String.eqb library_folder "" = false /\ startswith library_folder "." = false.
Proof.
  induction listing as [|item listing IH];
    intros page more row s s' scanned library_folder H Hfound.
  - cbn in H. injection H as <- _. discriminate.
  - cbn [scan_subfolders] in H.
    apply bind_ok in H as (item_type & s1 & _ & H).
    destruct (py_eq_str item_type "dir"); [|eapply IH; eassumption].
    apply bind_ok in H as (item_name & s2 & _ & H).
    apply bind_ok in H as ([] & s3 & Hvisible & H); [|eapply IH; eassumption].
    apply bind_ok in H as (folder & s4 & Hfolder & H).
    apply lift_ok in Hvisible. apply lift_ok in Hfolder.
    apply bind_ok in H as (inner & s5 & Hinner & H).
    apply subfolder_pages_folder in Hinner.
    destruct (found_folder inner) as [found|] eqn:Hinner_found.
    + cbn in H. injection H as <- _. rewrite Hinner_found in Hfound.
      destruct Hinner as [? | Heq]; [discriminate|].
      injection Hfound as <-. injection Heq as ->.
      eapply visible_name; eassumption.
    + eapply IH; eassumption.
Qed.

Lemma root_pages_folder (repository_object : repository) (verify : bool)
    (fuel : nat) :
  forall (page : nat) (row row' : row_list) (s s' : session) (library_folder : string),
  root_pages fuel repository_object verify page row s =
    (Ok (Some library_folder, row'), s') ->
  library_folder = "/"
  \/ (verify = false /\ String.eqb library_folder "" = false
      /\ startswith library_folder "." = false).
Proof.
  induction fuel as [|fuel IH]; intros page row row' s s' library_folder H;
    [discriminate|].
  cbn [root_pages] in H.
  apply bind_ok in H as ([r|] & s1 & _ & H); [|discriminate].
  apply bind_ok in H as (listing & s2 & _ & H).
  apply bind_ok in H as (flags & s3 & _ & H).
  destruct verify.
  - cbn in H. injection H as Hdecision _ _. left.
    unfold verify_decision in Hdecision.
    destruct (_ || _); [discriminate|]. now injection Hdecision as <-.
  - destruct (header_file_in_root flags).
    + cbn in H. injection H as <- _ _. now left.
    + apply bind_ok in H as (scanned & s4 & Hscan & H).
      destruct (found_folder scanned) as [found|] eqn:Hfound.
      * cbn in H. injection H as <- _ _. right. split; [reflexivity|].
        eapply scan_subfolders_folder; eassumption.
      * destruct (more_pages scanned); [|discriminate].
        eapply IH; eassumption.
Qed.

(** X11. Whatever the network answers, a folder the locator returns is
    the root folder or, with verification off only, the name of a folder
    it visited: a non-empty name that does not begin with a dot. In
    verify mode the answer is the root folder or None. *)
Theorem find_library_folder_answer
    (fuel : nat) (repository_object : repository) (row row' : row_list)
    (verify : bool) (s s' : session) (library_folder : string) :
  find_library_folder fuel repository_object row verify s =
    (Ok (Some library_folder, row'), s') ->
  library_folder = "/"
  \/ (verify = false /\ String.eqb library_folder "" = false
      /\ startswith library_folder "." = false).
Proof.
  unfold find_library_folder. intros H.
  apply bind_ok in H as (from_properties & s1 & _ & H).
  apply bind_ok in H as (from_json & s2 & _ & H).
  destruct (fst from_json).
  - cbn in H. injection H as <- _ _. now left.
  - destruct (returned_true (fst from_properties)).
    + cbn in H. injection H as <- _ _. now left.
    + eapply root_pages_folder; eassumption.
Qed.

(** ** The manifest-style parser: which line sets which cell *)

Lemma properties_line_field (row : row_list) (line : string)
    (key : string) (column : fin Column.count) :
  In (key, column) properties_fields ->
  properties_line row line !!! column =
    match line_field line with
    | Some (field_name, field_value) =>
        if String.eqb field_name key then PStr field_value else row !!! column
    | None => row !!! column
    end.
Proof.
  intros Hin. unfold properties_line, line_field.
  destruct (split_first "=" line) as [[before field_value]|]; [|reflexivity].
  remember (strip before) as field_name eqn:Hname. clear Hname.
  unfold properties_fields in Hin. cbn [In] in Hin.
  destruct (String.eqb_spec field_name key) as [-> | Hne].
  - repeat (destruct Hin as [[= <- <-] | Hin];
            [cbn [String.eqb Ascii.eqb Bool.eqb]; apply vlookup_insert|]).
    destruct Hin.
  - repeat (destruct Hin as [[= <- <-] | Hin];
            [rewrite (proj2 (String.eqb_neq _ _) Hne);
             repeat match goal with
                    | |- context [String.eqb field_name ?k] =>
                        destruct (String.eqb field_name k)
                    end;
             try reflexivity; apply vlookup_insert_ne; discriminate|]).
    destruct Hin.
Qed.

Lemma properties_line_frame (row : row_list) (line : string)
    (column : fin Column.count) :
  (forall key, ~ In (key, column) properties_fields) ->
  properties_line row line !!! column = row !!! column.
Proof.
  intros Hout. unfold properties_line.
  destruct (split_first "=" line) as [[before field_value]|]; [|reflexivity].
  repeat match goal with
         | |- context [String.eqb ?n ?k] => destruct (String.eqb n k)
         end;
    try reflexivity;
    apply vlookup_insert_ne; intros <-;
    match goal with
    | |- False => eapply Hout; unfold properties_fields; cbn [In]; eauto 12
    end.
Qed.

Lemma properties_lines_field (key : string) (column : fin Column.count)
    (base : pyval) (lines : list string) :
  In (key, column) properties_fields ->
  forall (row : row_list) (found : option string),
  row !!! column = match found with Some v => PStr v | None => base end ->
  fold_left properties_line lines row !!! column =
    match last_value key found lines with Some v => PStr v | None => base end.
Proof.
  intros Hin. induction lines as [|line lines IH]; intros row found Hrow.
  - exact Hrow.
  - cbn [fold_left]. unfold last_value. cbn [fold_left].
    apply IH. rewrite (properties_line_field row line key column Hin).
    destruct (line_field line) as [[field_name field_value]|]; [|exact Hrow].
    destruct (String.eqb field_name key); [reflexivity | exact Hrow].
Qed.

Lemma properties_lines_frame (column : fin Column.count) (lines : list string) :
  (forall key, ~ In (key, column) properties_fields) ->
  forall row : row_list, fold_left properties_line lines row !!! column = row !!! column.
Proof.
  intros Hout. induction lines as [|line lines IH]; intros row; [reflexivity|].
  cbn [fold_left]. rewrite IH. now apply properties_line_frame.
Qed.

(** X12. When the first request for library.properties succeeds, the
    parser returns True after that one request and, for each of the nine
    fields it knows, the cell of the field holds the text after the first
    = of the last line whose stripped name is the field (as it stands,
    unstripped, later = signs included), or what it held before when no
    line names the field; lines without = and lines naming other fields
    change nothing, and no other column is written. *)
Theorem parse_library_dot_properties_fields
    (metadata_folder : string) (repository_object : repository)
    (row : row_list) (s : session)
    (text : string) (decoded : option pyval) (link rate : option string) :
  let u := normalize_url
             (raw_file_url repository_object metadata_folder "library.properties") in
  upcoming s 0 u = HttpOk text decoded link rate ->
  exists row',
    parse_library_dot_properties metadata_folder repository_object row s =
      (Ok (Some true, row'), advance s [u] 0)
    /\ (forall key column,
          In (key, column) properties_fields ->
          row' !!! column =
            match last_value key None (splitlines text) with
            | Some field_value => PStr field_value
            | None => row !!! column
            end)
    /\ (forall column,
          (forall key, ~ In (key, column) properties_fields) ->
          row' !!! column = row !!! column).
Proof.
  intros u Hok. exists (fold_left properties_line (splitlines text) row).
  split; [|split].
  - unfold parse_library_dot_properties. fold u.
    cbn [properties_attempts]. unfold bind.
    rewrite urlopen_advance, Hok. reflexivity.
  - intros key column Hin. now apply properties_lines_field.
  - intros column Hout. now apply properties_lines_frame.
Qed.

(** ** The columns the descriptor parsers write *)

Lemma properties_attempts_frame (u : string) (column : fin Column.count) (n : nat) :
  (forall key, ~ In (key, column) properties_fields) ->
  forall (row row' : row_list) (s s' : session) (returned : option bool),
  properties_attempts n u row s = (Ok (returned, row'), s') ->
  row' !!! column = row !!! column.
Proof.
  intros Hout. induction n as [|n IH]; intros row row' s s' returned H.
  - cbn in H. now injection H as _ <- _.
  - cbn [properties_attempts] in H.
    apply bind_ok in H as (url_data & s1 & _ & H).
    destruct url_data as [code msg | text decoded link rate].
    + apply bind_ok in H as ([] & s2 & _ & H).
      * eapply IH; eassumption.
      * cbn in H. now injection H as _ <- _.
    + cbn in H. injection H as _ <- _. now apply properties_lines_frame.
Qed.

Lemma store_str_frame (column : fin Column.count) (key : string)
    (json : list (string * pyval)) (repository_object : repository)
    (row row' : row_list) (s s' : session) :
  store_str column key json repository_object row s = (Ok row', s') ->
  forall c, c <> column -> row' !!! c = row !!! c.
Proof.
  destruct (store_str_fills column key json repository_object row s)
    as (r & t & E & K & _).
  rewrite E. intros [= <- _]. exact K.
Qed.

Lemma store_repository_frame (json : list (string * pyval))
    (repository_object : repository) (row row' : row_list) (s s' : session) :
  store_repository json repository_object row s = (Ok row', s') ->
  forall c, c <> Column.platformio_repository -> row' !!! c = row !!! c.
Proof.
  destruct (store_repository_fills json repository_object row s)
    as (r & t & E & K & _).
  rewrite E. intros [= <- _]. exact K.
Qed.

Lemma ok_value {A} (a b : A) (s s' : session) : (Ok a, s) = (Ok b, s') -> a = b.
Proof. congruence. Qed.

Lemma store_joined_frame (column : fin Column.count) (key : string)
    (json : list (string * pyval)) (repository_object : repository)
    (row row' : row_list) (s s' : session) :
  store_joined column key json repository_object row s = (Ok row', s') ->
  forall c, c <> column -> row' !!! c = row !!! c.
Proof.
  unfold store_joined. intros H c Hc.
  apply try_except_ok in H as [H | (e & s1 & h & _ & Hh & H)].
  - apply bind_ok in H as (value & s1 & _ & H).
    destruct value;
      try (apply bind_ok in H as (? & ? & _ & H));
      unfold ret in H; apply ok_value in H; rewrite <- H; try reflexivity;
      now apply vlookup_insert_ne.
  - destruct e; try discriminate. injection Hh as <-.
    unfold ret in H. apply ok_value in H. now rewrite <- H.
Qed.

Lemma store_authors_frame (json : list (string * pyval))
    (repository_object : repository) (row row' : row_list) (s s' : session) :
  store_authors json repository_object row s = (Ok row', s') ->
  forall c, c <> Column.platformio_authors -> row' !!! c = row !!! c.
Proof.
  unfold store_authors. intros H c Hc.
  apply try_except_ok in H as [H | (e & s1 & h & _ & Hh & H)].
  - apply bind_ok in H as (authors & s1 & _ & H).
    destruct authors;
      try (apply bind_ok in H as (? & ? & _ & H));
      try (apply bind_ok in H as (? & ? & _ & H));
      unfold ret in H; apply ok_value in H; rewrite <- H; try reflexivity;
      now apply vlookup_insert_ne.
  - destruct e; try discriminate. injection Hh as <-.
    unfold ret in H. apply ok_value in H. now rewrite <- H.
Qed.

Lemma parse_library_dot_json_frame (metadata_folder : string)
    (repository_object : repository) (row row' : row_list) (s s' : session)
    (found : bool) (column : fin Column.count) :
  parse_library_dot_json metadata_folder repository_object row s =
    (Ok (found, row'), s') ->
  ~ In column platformio_columns ->
  row' !!! column = row !!! column.
Proof.
  unfold parse_library_dot_json. intros H Hout.
  assert (Hne : forall c, In c platformio_columns -> column <> c)
    by (intros c Hc ->; contradiction).
  unfold platformio_columns in Hne. cbn [In] in Hne.
  apply bind_ok in H as ([early | fetched] & s1 & _ & H).
  - cbn in H. now injection H as _ <- _.
  - apply bind_ok in H as (json & s2 & _ & H).
    apply bind_ok in H as (r1 & t1 & H1 & H). apply store_str_frame with (c := column) in H1; [|apply Hne; tauto].
    apply bind_ok in H as (r2 & t2 & H2 & H). apply store_str_frame with (c := column) in H2; [|apply Hne; tauto].
    apply bind_ok in H as (r3 & t3 & H3 & H). apply store_str_frame with (c := column) in H3; [|apply Hne; tauto].
    apply bind_ok in H as (r4 & t4 & H4 & H). apply store_authors_frame with (c := column) in H4; [|apply Hne; tauto].
    apply bind_ok in H as (r5 & t5 & H5 & H). apply store_repository_frame with (c := column) in H5; [|apply Hne; tauto].
    apply bind_ok in H as (r6 & t6 & H6 & H). apply store_str_frame with (c := column) in H6; [|apply Hne; tauto].
    apply bind_ok in H as (r7 & t7 & H7 & H). apply store_str_frame with (c := column) in H7; [|apply Hne; tauto].
    apply bind_ok in H as (r8 & t8 & H8 & H). apply store_str_frame with (c := column) in H8; [|apply Hne; tauto].
    apply bind_ok in H as (r9 & t9 & H9 & H). apply store_str_frame with (c := column) in H9; [|apply Hne; tauto].
    apply bind_ok in H as (r10 & t10 & H10 & H). apply store_joined_frame with (c := column) in H10; [|apply Hne; tauto].
    apply bind_ok in H as (r11 & t11 & H11 & H). apply store_joined_frame with (c := column) in H11; [|apply Hne; tauto].
    cbn in H. injection H as _ <- _. congruence.
Qed.

(** X13. Each descriptor parser writes only its own columns: whenever
    it returns, the manifest-style parser has left every column but the
    nine Library Manager columns as it was, and the JSON parser every
    column but the eleven PlatformIO columns, whatever the network sent
    and whatever the shape of the decoded file. *)
Theorem descriptor_parsers_keep_to_their_columns
    (metadata_folder : string) (repository_object : repository)
    (row row' : row_list) (s s' : session) :
  (forall returned,
      parse_library_dot_properties metadata_folder repository_object row s =
        (Ok (returned, row'), s') ->
      forall column, (forall key, ~ In (key, column) properties_fields) ->
                     row' !!! column = row !!! column)
  /\ (forall found,
        parse_library_dot_json metadata_folder repository_object row s =
          (Ok (found, row'), s') ->
        forall column, ~ In column platformio_columns ->
                       row' !!! column = row !!! column).
Proof.
  split.
  - intros returned H column Hout.
    eapply properties_attempts_frame; eassumption.
  - intros found H column Hout.
    eapply parse_library_dot_json_frame; eassumption.
Qed.

(** ** The locator fills descriptor cells only *)

Lemma parsers_keep_repository_column (c : fin Column.count) :
  repository_column c ->
  (forall metadata_folder repository_object row row' s s' returned,
      parse_library_dot_properties metadata_folder repository_object row s =
        (Ok (returned, row'), s') -> row' !!! c = row !!! c)
  /\ (forall metadata_folder repository_object row row' s s' found,
        parse_library_dot_json metadata_folder repository_object row s =
          (Ok (found, row'), s') -> row' !!! c = row !!! c).
Proof.
  intros [Hfields Hcolumns]. split.
  - intros. eapply properties_attempts_frame; eassumption.
  - intros. eapply parse_library_dot_json_frame; eassumption.
Qed.

Lemma scan_subdirectory_item_frame (repository_object : repository)
    (folder : string) (state state' : option string * row_list) (item : pyval)
    (s s' : session) (c : fin Column.count) :
  repository_column c ->
  scan_subdirectory_item repository_object folder state item s = (Ok state', s') ->
  snd state' !!! c = snd state !!! c.
Proof.
  intros Hc. destruct (parsers_keep_repository_column c Hc) as [Hprops Hjson].
  unfold scan_subdirectory_item. intros H.
  apply bind_ok in H as ([] & s1 & _ & H).
  { unfold ret in H. apply ok_value in H. now rewrite <- H. }
  apply bind_ok in H as ([] & s2 & _ & H).
  { apply bind_ok in H as ([returned parsed] & s3 & Hparse & H).
    unfold ret in H. apply ok_value in H. rewrite <- H. cbn [snd].
    eapply Hprops; eassumption. }
  apply bind_ok in H as ([] & s3 & _ & H).
  { apply bind_ok in H as ([found parsed] & s4 & Hparse & H).
    unfold ret in H. apply ok_value in H. rewrite <- H. cbn [snd].
    eapply Hjson; eassumption. }
  unfold ret in H. apply ok_value in H. now rewrite <- H.
Qed.

Lemma scan_subdirectory_frame (repository_object : repository) (folder : string)
    (c : fin Column.count) (listing : list pyval) :
  repository_column c ->
  forall (state state' : option string * row_list) (s s' : session),
  scan_subdirectory repository_object folder state listing s = (Ok state', s') ->
  snd state' !!! c = snd state !!! c.
Proof.
  intros Hc. induction listing as [|item listing IH]; intros state state' s s' H.
  - unfold scan_subdirectory, ret in H. apply ok_value in H. now rewrite <- H.
  - cbn [scan_subdirectory] in H.
    apply bind_ok in H as (state1 & s1 & Hitem & H).
    apply (scan_subdirectory_item_frame _ _ _ _ _ _ _ c Hc) in Hitem.
    apply IH in H. congruence.
Qed.

Lemma subfolder_pages_frame (repository_object : repository) (folder : string)
    (c : fin Column.count) (fuel : nat) :
  repository_column c ->
  forall (page : nat) (row : row_list) (s s' : session) (scanned : scan_state),
  subfolder_pages fuel repository_object folder page row s = (Ok scanned, s') ->
  scanned_row scanned !!! c = row !!! c.
Proof.
  intros Hc. induction fuel as [|fuel IH]; intros page row s s' scanned H;
    [discriminate|].
  cbn [subfolder_pages] in H.
  apply bind_ok in H as ([r|] & s1 & _ & H).
  - apply bind_ok in H as (listing & s2 & _ & H).
    apply bind_ok in H as (state & s3 & Hscan & H).
    apply (scan_subdirectory_frame _ _ c _ Hc) in Hscan. cbn [snd] in Hscan.
    destruct (fst state) as [library_folder|].
    + unfold ret in H. apply ok_value in H. now rewrite <- H.
    + destruct (additional_pages r).
      * apply IH in H. congruence.
      * unfold ret in H. apply ok_value in H. now rewrite <- H.
  - unfold ret in H. apply ok_value in H. now rewrite <- H.
Qed.

Lemma scan_subfolders_frame (fuel : nat) (repository_object : repository)
    (c : fin Column.count) (listing : list pyval) :
  repository_column c ->
  forall (page : nat) (more : bool) (row : row_list) (s s' : session)
         (scanned : scan_state),
  scan_subfolders fuel repository_object listing page more row s = (Ok scanned, s') ->
  scanned_row scanned !!! c = row !!! c.
Proof.
  intros Hc. induction listing as [|item listing IH];
    intros page more row s s' scanned H.
  - unfold scan_subfolders, ret in H. apply ok_value in H. now rewrite <- H.
  - cbn [scan_subfolders] in H.
    apply bind_ok in H as (item_type & s1 & _ & H).
    destruct (py_eq_str item_type "dir"); [|eapply IH; eassumption].
    apply bind_ok in H as (item_name & s2 & _ & H).
    apply bind_ok in H as ([] & s3 & _ & H); [|eapply IH; eassumption].
    apply bind_ok in H as (folder & s4 & _ & H).
    apply bind_ok in H as (inner & s5 & Hinner & H).
    apply (subfolder_pages_frame _ _ c _ Hc) in Hinner.
    destruct (found_folder inner).
    + unfold ret in H. apply ok_value in H. now rewrite <- H.
    + apply IH in H. congruence.
Qed.

Lemma root_pages_frame (repository_object : repository) (verify : bool)
    (c : fin Column.count) (fuel : nat) :
  repository_column c ->
  forall (page : nat) (row row' : row_list) (s s' : session)
         (library_folder : option string),
  root_pages fuel repository_object verify page row s =
    (Ok (library_folder, row'), s') ->
  row' !!! c = row !!! c.
Proof.
  intros Hc. induction fuel as [|fuel IH];
    intros page row row' s s' library_folder H; [discriminate|].
  cbn [root_pages] in H.
  apply bind_ok in H as ([r|] & s1 & _ & H).
  - apply bind_ok in H as (listing & s2 & _ & H).
    apply bind_ok in H as (flags & s3 & _ & H).
    destruct verify.
    + unfold ret in H. apply ok_value in H. now injection H as _ <-.
    + destruct (header_file_in_root flags).
      * unfold ret in H. apply ok_value in H. now injection H as _ <-.
      * apply bind_ok in H as (scanned & s4 & Hscan & H).
        apply (scan_subfolders_frame _ _ c _ Hc) in Hscan.
        destruct (found_folder scanned).
        -- unfold ret in H. apply ok_value in H. injection H as _ <-. exact Hscan.
        -- destruct (more_pages scanned).
           ++ apply IH in H. congruence.
           ++ unfold ret in H. apply ok_value in H. injection H as _ <-. exact Hscan.
  - unfold ret in H. apply ok_value in H. now injection H as _ <-.
Qed.

Lemma find_library_folder_frame
    (fuel : nat) (repository_object : repository) (row row' : row_list)
    (verify : bool) (s s' : session) (library_folder : option string)
    (c : fin Column.count) :
  find_library_folder fuel repository_object row verify s =
    (Ok (library_folder, row'), s') ->
  repository_column c ->
  row' !!! c = row !!! c.
Proof.
  unfold find_library_folder. intros H Hc.
  destruct (parsers_keep_repository_column c Hc) as [Hprops Hjson].
  apply bind_ok in H as ([returned row1] & s1 & Hparse1 & H).
  apply bind_ok in H as ([found row2] & s2 & Hparse2 & H).
  apply Hprops in Hparse1. apply Hjson in Hparse2. cbn [fst snd] in *.
  destruct found.
  - unfold ret in H. apply ok_value in H. injection H as _ <-. congruence.
  - destruct (returned_true returned).
    + unfold ret in H. apply ok_value in H. injection H as _ <-. congruence.
    + apply (root_pages_frame _ _ c _ Hc) in H. congruence.
Qed.

(** X14. However the search goes, the locator and the parsers it calls
    fill descriptor cells only: when [find_library_folder] returns, each
    of the sixteen repository columns of the row holds what it held
    before. *)
Theorem find_library_folder_keeps_repository_columns
    (fuel : nat) (repository_object : repository) (row row' : row_list)
    (verify : bool) (s s' : session) (library_folder : option string)
    (c : fin Column.count) :
  find_library_folder fuel repository_object row verify s =
    (Ok (library_folder, row'), s') ->
  repository_column c ->
  row' !!! c = row !!! c.
Proof. apply find_library_folder_frame. Qed.

(** ** The cells of an appended row *)

Lemma snoc_not_self {A} (l : list A) (x : A) : (l ++ [x])%list <> l.
Proof.
  intros H. apply (f_equal (@length A)) in H. rewrite length_app in H.
  simpl in H. lia.
Qed.

Lemma repository_column_checked (c : fin Column.count) :
  In c [Column.repository_url; Column.repository_owner; Column.repository_name;
        Column.repository_default_branch; Column.library_path; Column.archived;
        Column.is_fork; Column.last_push_date; Column.fork_count;
        Column.star_count; Column.contributor_count; Column.repository_license;
        Column.repository_language; Column.repository_description;
        Column.github_topics; Column.in_library_manager_index] ->
  repository_column c.
Proof.
  intros Hin. split.
  - intros key Hkey. unfold properties_fields in Hkey. simpl in Hin, Hkey.
    repeat (destruct Hin as [<- | Hin];
            [repeat (destruct Hkey as [Hkey | Hkey]; [discriminate Hkey|]);
             exact Hkey|]).
    exact Hin.
  - intros Hcol. unfold platformio_columns in Hcol. simpl in Hin, Hcol.
    repeat (destruct Hin as [<- | Hin];
            [repeat (destruct Hcol as [Hcol | Hcol]; [discriminate Hcol|]);
             exact Hcol|]).
    exact Hin.
Qed.

Lemma clean_cell_of_bool (b : bool) : clean_cell (str_of_bool b) = str_of_bool b.
Proof. destruct b; vm_compute; reflexivity. Qed.

Lemma build_row_cells (fuel : nat) (repository_object : repository)
    (in_library_manager verify : bool) (s s' : session) (row : table_row) :
  build_row fuel repository_object in_library_manager verify s = (Ok (Some row), s') ->
  exists located s1 contributors,
    find_library_folder fuel repository_object
      (vreplicate Column.count (PStr "")) verify s = (Ok located, s1)
    /\ get_contributor_count repository_object s1 = (Ok contributors, s')
    /\ (fst located = None -> verify = false)
    /\ row !!! Column.library_path =
         clean_cell (match fst located with Some folder => folder | None => "" end)
    /\ row !!! Column.contributor_count = clean_cell contributors
    /\ row !!! Column.repository_url = clean_cell (html_url repository_object)
    /\ row !!! Column.repository_owner = clean_cell (owner_login repository_object)
    /\ row !!! Column.repository_name = clean_cell (name repository_object)
    /\ row !!! Column.repository_default_branch =
         clean_cell (default_branch repository_object)
    /\ row !!! Column.archived = str_of_bool (archived repository_object)
    /\ row !!! Column.is_fork = str_of_bool (fork repository_object)
    /\ row !!! Column.last_push_date =
         clean_cell (str_of_nullable (pushed_at repository_object))
    /\ row !!! Column.fork_count = clean_cell (str_of_Z (forks_count repository_object))
    /\ row !!! Column.star_count =
         clean_cell (str_of_Z (stargazers_count repository_object))
    /\ row !!! Column.repository_license =
         clean_cell (get_repository_license repository_object)
    /\ row !!! Column.repository_language =
         clean_cell (str_of_nullable (language repository_object))
    /\ row !!! Column.repository_description =
         match description repository_object with
         | Some text => clean_cell text
         | None => ""
         end
    /\ row !!! Column.github_topics = clean_cell (join ", " (topics repository_object))
    /\ row !!! Column.in_library_manager_index = str_of_bool in_library_manager.
Proof.
  unfold build_row. intros H.
  apply bind_ok in H as (located & s1 & Hfind & H).
  exists located, s1.
  assert (Hdescription :
            snd located !!! Column.repository_description = PStr "").
  { destruct located as [library_folder row1]. cbn [snd].
    rewrite (find_library_folder_frame _ _ _ _ _ _ _ _ _ Hfind).
    - apply vlookup_replicate.
    - apply repository_column_checked. simpl. tauto. }
  assert (Hbuilt : exists contributors cleaned,
    get_contributor_count repository_object s1 = (Ok contributors, s')
    /\ (fst located = None -> verify = false)
    /\ row = cleaned
    /\ clean_cells
         (let library_folder :=
            match fst located with Some folder => folder | None => "" end in
          let row := snd located in
          let row := vinsert Column.library_path (PStr library_folder) row in
          let row := vinsert Column.repository_url
                       (PStr (html_url repository_object)) row in
          let row := vinsert Column.repository_owner
                       (PStr (owner_login repository_object)) row in
          let row := vinsert Column.repository_name
                       (PStr (name repository_object)) row in
          let row := vinsert Column.repository_default_branch
                       (PStr (default_branch repository_object)) row in
          let row := vinsert Column.archived
                       (PStr (str_of_bool (archived repository_object))) row in
          let row := vinsert Column.is_fork
                       (PStr (str_of_bool (fork repository_object))) row in
          let row := vinsert Column.last_push_date
                       (PStr (str_of_nullable (pushed_at repository_object))) row in
          let row := vinsert Column.fork_count
                       (PStr (str_of_Z (forks_count repository_object))) row in
          let row := vinsert Column.star_count
                       (PStr (str_of_Z (stargazers_count repository_object))) row in
          let row := vinsert Column.contributor_count (PStr contributors) row in
          let row := vinsert Column.repository_license
                       (PStr (get_repository_license repository_object)) row in
          let row := vinsert Column.repository_language
                       (PStr (str_of_nullable (language repository_object))) row in
          let row :=
            match description repository_object with
            | Some text => vinsert Column.repository_description (PStr text) row
            | None => row
            end in
          let row := vinsert Column.github_topics
                       (PStr (join ", " (topics repository_object))) row in
          vinsert Column.in_library_manager_index
            (PStr (str_of_bool in_library_manager)) row) = Ok cleaned).
  { destruct (fst located) as [folder|], verify; try discriminate H;
      apply bind_ok in H as (contributors & s2 & Hcount & H);
      apply bind_ok in H as (cleaned & s3 & Hclean & H);
      apply lift_ok in Hclean as Hcells;
      unfold lift in Hclean; rewrite Hcells in Hclean;
      injection Hclean as <-;
      unfold ret in H; injection H as <- <-;
      exists contributors, cleaned;
      (split; [exact Hcount|]); (split; [try discriminate; reflexivity|]);
      (split; [reflexivity|]); exact Hcells. }
  destruct Hbuilt as (contributors & cleaned & Hcount & Hverify & -> & Hclean).
  exists contributors.
  split; [exact Hfind|]. split; [exact Hcount|]. split; [exact Hverify|].
  cbv zeta in Hclean.
  pose proof (clean_cells_lookup _ _ Hclean) as Hcell.
  repeat split;
    try (first [rewrite <- clean_cell_of_bool | idtac]; apply Hcell;
         destruct (description repository_object);
         rewrite ?vlookup_insert_ne by discriminate; apply vlookup_insert).
  destruct (description repository_object) as [text|].
  - apply Hcell. rewrite ?vlookup_insert_ne by discriminate. apply vlookup_insert.
  - change EmptyString with (clean_cell ""). apply Hcell.
    rewrite ?vlookup_insert_ne by discriminate. exact Hdescription.
Qed.

(** X15. The row [populate_row] appends holds the repository's data,
    each cell cleaned: URL, owner, name and default branch; the flags
    archived, fork and in-library-manager as True or False; the push date
    and the language as given or None when null; the fork and star counts
    in decimal; the licence as [get_repository_license] reads it; the
    topics joined with a comma and a space; the description, or the empty
    cell when it is null; the folder the locator returned, or the empty
    cell when it returned none (verification then being off); and the
    contributor count. The call itself returned normally. *)
Theorem populate_row_cells (fuel : nat) (repository_object : repository)
    (in_library_manager verify : bool) (table : list table_row)
    (s s' : session) (outcome : result unit) (row : table_row) :
  populate_row fuel repository_object in_library_manager verify table s =
    (outcome, (table ++ [row])%list, s') ->
  outcome = Ok tt
  /\ exists located s1 contributors,
    find_library_folder fuel repository_object
      (vreplicate Column.count (PStr "")) verify s = (Ok located, s1)
    /\ get_contributor_count repository_object s1 = (Ok contributors, s')
    /\ (fst located = None -> verify = false)
    /\ row !!! Column.library_path =
         clean_cell (match fst located with Some folder => folder | None => "" end)
    /\ row !!! Column.contributor_count = clean_cell contributors
    /\ row !!! Column.repository_url = clean_cell (html_url repository_object)
    /\ row !!! Column.repository_owner = clean_cell (owner_login repository_object)
    /\ row !!! Column.repository_name = clean_cell (name repository_object)
    /\ row !!! Column.repository_default_branch =
         clean_cell (default_branch repository_object)
    /\ row !!! Column.archived = str_of_bool (archived repository_object)
    /\ row !!! Column.is_fork = str_of_bool (fork repository_object)
    /\ row !!! Column.last_push_date =
         clean_cell (str_of_nullable (pushed_at repository_object))
    /\ row !!! Column.fork_count = clean_cell (str_of_Z (forks_count repository_object))
    /\ row !!! Column.star_count =
         clean_cell (str_of_Z (stargazers_count repository_object))
    /\ row !!! Column.repository_license =
         clean_cell (get_repository_license repository_object)
    /\ row !!! Column.repository_language =
         clean_cell (str_of_nullable (language repository_object))
    /\ row !!! Column.repository_description =
         match description repository_object with
         | Some text => clean_cell text
         | None => ""
         end
    /\ row !!! Column.github_topics = clean_cell (join ", " (topics repository_object))
    /\ row !!! Column.in_library_manager_index = str_of_bool in_library_manager.
Proof.
  unfold populate_row. intros H.
  destruct (already_listed (html_url repository_object) table).
  { injection H as _ H _. symmetry in H. now apply snoc_not_self in H. }
  destruct (build_row fuel repository_object in_library_manager verify s)
    as [[[built|] | e |] s1] eqn:Hbuild;
    injection H as <- H <-;
    try (symmetry in H; now apply snoc_not_self in H).
  apply app_inv_head in H. injection H as <-.
  split; [reflexivity|]. now apply build_row_cells.
Qed.

(** ** Cleaned cells *)


Lemma glue_cons (x : string) (l : list string) : glue (x :: l) = x +:+ glue l.
Proof. reflexivity. Qed.

Lemma glue_app (a b : list string) : glue (a ++ b) = glue a +:+ glue b.
Proof.
  induction a as [|x a IH]; [reflexivity|].
  rewrite <- app_comm_cons, !glue_cons, IH. now rewrite append_associative.
Qed.

Lemma characters_cons (c d : ascii) (text : string) :
  characters (String c (String d text)) =
    if is_continuation d then
      match characters (String d text) with
      | character :: rest => String c character :: rest
      | [] => [String c EmptyString]
      end
    else String c EmptyString :: characters (String d text).
Proof. reflexivity. Qed.

(** The characters of a text make up the text. *)
Lemma glue_characters (text : string) : glue (characters text) = text.
Proof.
  induction text as [|c text IH]; [reflexivity|].
  destruct text as [|d text]; [reflexivity|].
  rewrite characters_cons.
  destruct (is_continuation d).
  - destruct (characters (String d text)) as [|character rest].
    + discriminate IH.
    + rewrite glue_cons in *. rewrite append_cons. now rewrite IH.
  - rewrite glue_cons, IH. reflexivity.
Qed.

Lemma characters_head (d : ascii) (text : string) :
  exists continuation rest,
    characters (String d text) = String d continuation :: rest.
Proof.
  destruct text as [|e text]; [now eexists _, _|].
  rewrite characters_cons.
  destruct (is_continuation e); [|now eexists _, _].
  destruct (characters (String e text)); now eexists _, _.
Qed.



(** Characters do not join across a byte that starts one. *)
Lemma characters_app (a b : string) :
  b = EmptyString \/ starts_character b = true ->
  characters (a +:+ b) = (characters a ++ characters b)%list.
Proof.
  intros Hb. induction a as [|c a IH].
  - reflexivity.
  - rewrite append_cons. destruct a as [|d a].
    + change (EmptyString +:+ b) with b in *.
      destruct b as [|e b]; [reflexivity|].
      destruct Hb as [Hb | Hb]; [discriminate|].
      cbn [starts_character] in Hb. apply negb_true_iff in Hb.
      rewrite characters_cons, Hb. reflexivity.
    + rewrite append_cons in *. rewrite !characters_cons.
      destruct (is_continuation d).
      * rewrite IH. destruct (characters_head d a) as (k & rest & Hhead).
        rewrite Hhead. reflexivity.
      * rewrite IH. reflexivity.
Qed.






















(** ** The contributor count *)

Lemma check_rate_limiting_cached (api : api_type) (s : session) :
  py_eq_zero (cached_remaining api s) = false ->
  check_rate_limiting api s = (Ok tt, s).
Proof.
  intros H. unfold check_rate_limiting. unfold bind at 1.
  rewrite get_remaining_cached, H. reflexivity.
Qed.

Lemma get_contributor_count_cached (repository_object : repository) (s : session) :
  py_eq_zero (remaining_core s) = false ->
  get_contributor_count repository_object s =
    match get_json_attempts (S urlopen_maximum_retries)
            (contributors_url repository_object) s with
    | (Ok fetched, s1) => (Ok (py_str (page_count fetched)), s1)
    | (Raise JSONDecodeError, s1) | (Raise TimeoutError, s1) =>
        (Ok EmptyString, warned contributor_warning s1)
    | (Raise e, s1) => (Raise e, s1)
    | (OutOfFuel, s1) => (OutOfFuel, s1)
    end.
Proof.
  intros H. unfold get_contributor_count. unfold bind at 1.
  rewrite (check_rate_limiting_cached Core) by exact H.
  unfold try_except, bind, get_json_from_url, contributors_url.
  destruct (get_json_attempts _ _ s) as [[fetched | [] |] s1]; reflexivity.
Qed.

(** X17. The contributor count of a repository, the core quota not
    being used up: for a decodable answer the cell is the page count as
    text, 0 for an empty list and 1 for a non-empty list without a Link
    header; for an answer that does not decode, and after six retryable
    failures, the cell is empty and a warning is logged; any other HTTP
    error is not caught and leaves [get_contributor_count] as an
    exception. *)
Theorem get_contributor_count_outcomes (repository_object : repository) (s : session) :
  py_eq_zero (remaining_core s) = false ->
  (forall text body link rate s1,
      upcoming s 0 (contributors_url repository_object) =
        HttpOk text (Some body) link rate ->
      record_rate_limit (contributors_url repository_object) rate
        (advance s [contributors_url repository_object] 0) = (Ok tt, s1) ->
      get_contributor_count repository_object s =
        (Ok (py_str (snd (pagination body link))), s1)
      /\ (py_truthy body = false -> py_str (snd (pagination body link)) = "0")
      /\ (py_truthy body = true -> link = None ->
          py_str (snd (pagination body link)) = "1"))
  /\ (forall text link rate,
        upcoming s 0 (contributors_url repository_object) =
          HttpOk text None link rate ->
        get_contributor_count repository_object s =
          (Ok EmptyString,
           warned contributor_warning
             (advance s [contributors_url repository_object] 0)))
  /\ ((forall k, k < S urlopen_maximum_retries ->
         exists code msg,
           upcoming s k (contributors_url repository_object) = HttpFailure code msg
           /\ retryable code = true) ->
      get_contributor_count repository_object s =
        (Ok EmptyString,
         warned contributor_warning
           (advance s (repeat (contributors_url repository_object)
                         (S urlopen_maximum_retries))
                    (6 * urlopen_retry_delay))))
  /\ (forall code msg,
        100 <= code <= 999 -> retryable code = false ->
        upcoming s 0 (contributors_url repository_object) = HttpFailure code msg ->
        get_contributor_count repository_object s =
          (Raise (HTTPError code msg),
           advance s [contributors_url repository_object] 0)).
Proof.
  intros Hquota. rewrite (get_contributor_count_cached _ _ Hquota).
  split; [|split; [|split]].
  - intros text body link rate s1 Hok Hrate.
    rewrite (get_json_attempts_recovers _ body text link rate 0) by (tauto || lia).
    unfold bind at 1.
    change (advance s (repeat (contributors_url repository_object) 1)
              (urlopen_retry_delay * Z.of_nat 0))
      with (advance s [contributors_url repository_object] 0).
    rewrite Hrate. split; [reflexivity|].
    unfold pagination. split.
    + intros ->. reflexivity.
    + intros -> ->. reflexivity.
  - intros text link rate Hbad.
    cbn [get_json_attempts]. unfold bind.
    rewrite urlopen_advance, Hbad. reflexivity.
  - intros Hfail. rewrite get_json_attempts_exhausted by exact Hfail. reflexivity.
  - intros code msg Hcode Hretry Hfirst.
    cbn [get_json_attempts]. unfold bind at 1.
    rewrite urlopen_advance, Hfirst. unfold bind.
    rewrite determine_urlopen_retry_false by assumption. reflexivity.
Qed.

(** ** The plain fields of library.json *)

Lemma store_str_value (column : fin Column.count) (key : string)
    (json : list (string * pyval)) (repository_object : repository)
    (row : row_list) (s : session) :
  store_str column key json repository_object row s =
    (Ok match dict_get key json with
        | Some value => vinsert column (PStr (py_str value)) row
        | None => row
        end, s).
Proof.
  unfold store_str, try_except, bind, lift. cbn [py_getitem].
  destruct (dict_get key json); reflexivity.
Qed.

Lemma store_str_ok (column : fin Column.count) (key : string)
    (json : list (string * pyval)) (repository_object : repository)
    (row row' : row_list) (s s' : session) :
  store_str column key json repository_object row s = (Ok row', s') ->
  row' = match dict_get key json with
         | Some value => vinsert column (PStr (py_str value)) row
         | None => row
         end.
Proof. rewrite store_str_value. intros H. apply ok_value in H. now symmetry. Qed.

(** X20. When library.json is fetched and decodes to an object, and the
    parser returns, it returns True, and each of the seven plain fields
    (name, description, keywords, version, license, downloadUrl,
    homepage) that the object has is stored as [str] of its value, while
    the cell of a field the object lacks is left as it was. Reading such
    a field never logs a warning: the session comes back untouched, so
    the handlers for TypeError around these fields are never entered. *)
Theorem parse_library_dot_json_fields
    (metadata_folder : string) (repository_object : repository)
    (row row' : row_list) (s s1 s' : session) (fetched : fetch_result)
    (json : list (string * pyval)) (found : bool) :
  get_json_from_url (raw_file_url repository_object metadata_folder "library.json") s =
    (Ok fetched, s1) ->
  py_dict (json_data fetched) = Ok json ->
  parse_library_dot_json metadata_folder repository_object row s =
    (Ok (found, row'), s') ->
  found = true
  /\ (forall key column,
        In (key, column) platformio_fields ->
        row' !!! column =
          match dict_get key json with
          | Some value => PStr (py_str value)
          | None => row !!! column
          end)
  /\ (forall key column cells t,
        snd (store_str column key json repository_object cells t) = t).
Proof.
  intros Hfetch Hdict H. unfold parse_library_dot_json in H.
  unfold bind at 1, fetch_library_dot_json, try_except, bind at 1 in H.
  rewrite Hfetch in H. cbn [ret] in H. unfold bind at 1, lift at 1 in H.
  rewrite Hdict in H.
  apply bind_ok in H as (r1 & t1 & H1 & H).
  pose proof (store_str_frame _ _ _ _ _ _ _ _ H1) as F1. apply store_str_ok in H1.
  apply bind_ok in H as (r2 & t2 & H2 & H).
  pose proof (store_str_frame _ _ _ _ _ _ _ _ H2) as F2. apply store_str_ok in H2.
  apply bind_ok in H as (r3 & t3 & H3 & H).
  pose proof (store_str_frame _ _ _ _ _ _ _ _ H3) as F3. apply store_str_ok in H3.
  apply bind_ok in H as (r4 & t4 & H4 & H).
  pose proof (store_authors_frame _ _ _ _ _ _ H4) as F4. clear H4.
  apply bind_ok in H as (r5 & t5 & H5 & H).
  pose proof (store_repository_frame _ _ _ _ _ _ H5) as F5. clear H5.
  apply bind_ok in H as (r6 & t6 & H6 & H).
  pose proof (store_str_frame _ _ _ _ _ _ _ _ H6) as F6. apply store_str_ok in H6.
  apply bind_ok in H as (r7 & t7 & H7 & H).
  pose proof (store_str_frame _ _ _ _ _ _ _ _ H7) as F7. apply store_str_ok in H7.
  apply bind_ok in H as (r8 & t8 & H8 & H).
  pose proof (store_str_frame _ _ _ _ _ _ _ _ H8) as F8. apply store_str_ok in H8.
  apply bind_ok in H as (r9 & t9 & H9 & H).
  pose proof (store_str_frame _ _ _ _ _ _ _ _ H9) as F9. apply store_str_ok in H9.
  apply bind_ok in H as (r10 & t10 & H10 & H).
  pose proof (store_joined_frame _ _ _ _ _ _ _ _ H10) as F10. clear H10.
  apply bind_ok in H as (r11 & t11 & H11 & H).
  pose proof (store_joined_frame _ _ _ _ _ _ _ _ H11) as F11. clear H11.
  unfold ret in H. apply ok_value in H. injection H as <- <-.
  split; [reflexivity|]. split.
  - intros key column Hin. unfold platformio_fields in Hin. cbn [In] in Hin.
    decompose [or] Hin; clear Hin;
      match goal with
      | E : (_, _) = (key, column) |- _ => injection E as <- <-
      | E : False |- _ => destruct E
      end;
      rewrite ?F11, ?F10, ?F9, ?F8, ?F7, ?F6, ?F5, ?F4, ?F3, ?F2 by discriminate;
      first [rewrite H9 | rewrite H8 | rewrite H7 | rewrite H6
            | rewrite H3 | rewrite H2 | rewrite H1];
      match goal with
      | |- context [dict_get ?field json] =>
          destruct (dict_get field json) as [value|]; [apply vlookup_insert|]
      end;
      rewrite ?F8, ?F7, ?F6, ?F5, ?F4, ?F3, ?F2, ?F1 by discriminate;
      reflexivity.
  - intros key column cells t. now rewrite store_str_value.
Qed.

End Further.

(** * The Library Manager index *)

Section IndexProperties.
Context {lib : PyLib}.
Variable populate : pyval -> bool -> bool -> world -> result unit * world.

Lemma py_index_within (parts : list string) (i : nat) :
  i < length parts -> exists part, nth_error parts i = Some part.
Proof.
  intros Hi. destruct (nth_error parts i) as [part|] eqn:Hpart.
  - now exists part.
  - apply nth_error_None in Hpart. lia.
Qed.

Lemma index_entries_requests (entries : list pyval) (urls : list string) :
  Forall2 lists entries urls ->
  Forall (fun url => splittable url = true) urls ->
  forall (last : string) (w : world),
  index_entries populate entries last w =
    populate_all populate (List.filter hosted_on_github (collapse last urls)) w.
Proof.
  induction 1 as [|library_data url entries urls Hentry _ IH];
    intros Hurls last w; [reflexivity|].
  apply Forall_cons in Hurls as [Hurl Hurls].
  cbn [index_entries collapse]. rewrite Hentry.
  destruct (String.eqb url last); [now apply IH|].
  cbn [List.filter].
  unfold splittable in Hurl. apply andb_true_iff in Hurl as [Hthree Hfive].
  apply Nat.leb_le in Hthree.
  destruct (py_index_within (split_on "/" url) 2) as [host Hhost]; [lia|].
  unfold py_index, hosted_on_github in *. rewrite Hhost in *.
  destruct (String.eqb host "github.com"); [|now apply IH].
  cbn [negb orb] in Hfive. apply Nat.leb_le in Hfive.
  cbn [populate_all].
  destruct (repository_request url) as [request | e |]; try reflexivity.
  destruct (populate_from_index populate request w) as [[[] | e |] w'];
    try reflexivity.
  now apply IH.
Qed.

(** X18. Over an index whose entries name their repository by URL, the
    loop of [process_library_manager_index] asks the API for, and hands
    to [populate_row], exactly the GitHub-hosted URLs among those that
    differ from the entry just before them (an entry repeating its
    predecessor is skipped without a request; a URL on another host
    still counts as predecessor), one after the other, and stops at the
    first call that raises. *)
Theorem process_library_manager_index_requests
    (json_data : pyval) (entries : list pyval) (urls : list string) (w : world) :
  py_getitem json_data "libraries" = Ok (PList entries) ->
  Forall2 lists entries urls ->
  Forall (fun url => splittable url = true) urls ->
  process_library_manager_index populate json_data w =
    populate_all populate (List.filter hosted_on_github (collapse "" urls)) w.
Proof.
  intros Hlibraries Hentries Hurls. unfold process_library_manager_index.
  rewrite Hlibraries. cbn [py_list py_iter].
  now apply index_entries_requests.
Qed.

End IndexProperties.

(** ** The request made for a URL of the index *)

Lemma split_by_nonempty (sep : ascii -> bool) (text : string) :
  exists piece pieces, split_by sep text = piece :: pieces.
Proof.
  induction text as [|c text (piece & pieces & IH)]; [now eexists _, _|].
  cbn [split_by]. destruct (sep c); [now eexists _, _|].
  rewrite IH. now eexists _, _.
Qed.

Lemma split_by_piece (sep : ascii -> bool) (piece rest : string) (c : ascii) :
  forallb (fun a => negb (sep a)) (list_ascii_of_string piece) = true ->
  sep c = true ->
  split_by sep (piece +:+ String c rest) = piece :: split_by sep rest.
Proof.
  intros Hpiece Hc. induction piece as [|a piece IH].
  - change (EmptyString +:+ String c rest) with (String c rest).
    cbn [split_by]. now rewrite Hc.
  - rewrite append_cons. cbn [split_by].
    cbn [list_ascii_of_string forallb] in Hpiece.
    apply andb_true_iff in Hpiece as [Ha Hpiece]. apply negb_true_iff in Ha.
    rewrite Ha, IH by exact Hpiece. reflexivity.
Qed.

(** X19. For a URL https://github.com/OWNER/SEGMENT of the index (owner
    and segment without a slash) the request is repos/OWNER/ followed by
    the segment without its last four characters, whatever they are: a
    segment made of NAME and four more characters, as NAME.git, gives
    repos/OWNER/NAME, and a segment of at most four characters gives
    the empty name. Characters are counted, not bytes. *)
Theorem repository_request_of_url (owner segment : string) :
  slash_free owner = true ->
  slash_free segment = true ->
  hosted_on_github ("https://github.com/" +:+ owner +:+ "/" +:+ segment) = true
  /\ repository_request ("https://github.com/" +:+ owner +:+ "/" +:+ segment) =
       Ok ("repos/" +:+ owner +:+ "/" +:+ without_last_four segment)
  /\ (forall repo_name suffix,
        segment = repo_name +:+ suffix ->
        starts_character suffix = true -> length (characters suffix) = 4 ->
        without_last_four segment = repo_name)
  /\ (length (characters segment) <= 4 -> without_last_four segment = EmptyString).
Proof.
  intros Howner Hsegment.
  destruct (split_by_nonempty (Ascii.eqb "/") segment) as (last & more & Hlast).
  assert (Hsplit :
            split_on "/" ("https://github.com/" +:+ owner +:+ "/" +:+ segment) =
            "https:" :: EmptyString :: "github.com" :: owner :: last :: more).
  { unfold split_on.
    change ("https://github.com/" +:+ owner +:+ "/" +:+ segment)
      with ("https:" +:+ String "/"
              (EmptyString +:+ String "/"
                 ("github.com" +:+ String "/" (owner +:+ String "/" segment)))).
    rewrite !split_by_piece, Hlast by (reflexivity || assumption).
    reflexivity. }
  assert (Hwhole : split_by (Ascii.eqb "/") segment = [segment]).
  { clear Hlast Hsplit. induction segment as [|c segment IH]; [reflexivity|].
    cbn [split_by]. cbn [slash_free list_ascii_of_string forallb] in Hsegment.
    unfold slash_free in IH.
    apply andb_true_iff in Hsegment as [Hc Hsegment]. apply negb_true_iff in Hc.
    rewrite Hc, IH by exact Hsegment. reflexivity. }
  rewrite Hwhole in Hlast. injection Hlast as <- <-.
  split; [|split; [|split]].
  - unfold hosted_on_github. rewrite Hsplit. reflexivity.
  - unfold repository_request. rewrite Hsplit. reflexivity.
  - intros repo_name suffix -> Hstart Hsuffix. unfold without_last_four.
    rewrite characters_app by now right.
    rewrite length_app, Hsuffix.
    replace (length (characters repo_name) + 4 - 4)
      with (length (characters repo_name)) by lia.
    rewrite List.firstn_app, List.firstn_all, Nat.sub_diag. cbn [firstn].
    rewrite app_nil_r. apply glue_characters.
  - intros Hshort. unfold without_last_four.
    replace (length (characters segment) - 4) with 0 by lia. reflexivity.
Qed.

(** * Further worked examples *)

Section FurtherWorked.
Import Examples.
Existing Instance plain_lib.

(** Two failures with 503, then the page: two sleeps of a minute. *)
Lemma get_json_from_url_recovers_witness :
  fst (get_json_from_url "https://api.github.com/x"
         (fresh (flaky 2 (ok contributors_page)))) =
    Ok (first_page contributors_page)
  /\ clock (snd (get_json_from_url "https://api.github.com/x"
                   (fresh (flaky 2 (ok contributors_page))))) = 120%Z.
Proof.
  rewrite (get_json_from_url_recovers "https://api.github.com/x"
             (fresh (flaky 2 (ok contributors_page))) 2
             contributors_page "" None None).
  - split; reflexivity.
  - unfold urlopen_maximum_retries. lia.
  - intros j Hj. exists 503, "Service Unavailable".
    destruct j as [|[|j]]; [split; reflexivity | split; reflexivity | lia].
  - reflexivity.
Defined.

Lemma get_json_from_url_bounded_witness :
  exists m sleeps,
    1 <= m <= S urlopen_maximum_retries /\ sleeps <= m
    /\ requests (snd (get_json_from_url "https://api.github.com/x"
                        (fresh (flaky 2 (ok contributors_page))))) =
       (repeat (normalize_url "https://api.github.com/x") m ++ [])%list
    /\ clock (snd (get_json_from_url "https://api.github.com/x"
                     (fresh (flaky 2 (ok contributors_page))))) =
       (0 + urlopen_retry_delay * Z.of_nat sleeps)%Z.
Proof.
  destruct (get_json_from_url_bounded "https://api.github.com/x"
              (fresh (flaky 2 (ok contributors_page)))
              (snd (get_json_from_url "https://api.github.com/x"
                      (fresh (flaky 2 (ok contributors_page)))))
              (Ok (first_page contributors_page)))
    as (m & sleeps & Hm & Hsleeps & Hrequests & Hclock & _).
  - vm_compute. reflexivity.
  - exists m, sleeps. repeat split; try tauto; assumption.
Defined.

Lemma quota_cache_follows_responses_witness :
  exists s',
    get_json_from_url "https://api.github.com/x"
      (fresh (always (HttpOk "" (Some contributors_page) None (Some "42")))) =
      (Ok (first_page contributors_page), s')
    /\ remaining_core s' = PInt 42
    /\ remaining_search s' = PInt 0.
Proof.
  destruct (quota_cache_follows_responses "https://api.github.com/x"
              (fresh (always (HttpOk "" (Some contributors_page) None (Some "42")))))
    as [_ H].
  destruct (H eq_refl "" contributors_page None "42" 42%Z eq_refl eq_refl)
    as (s' & Hfetch & Hcore & Hsearch).
  exists s'. split; [exact Hfetch|]. split; [exact Hcore | exact Hsearch].
Defined.

Lemma check_rate_limiting_refreshes_witness :
  check_rate_limiting Core library_session =
    (Ok tt,
     snd (set_remaining Core (PInt 50)
            (snd (get_json_from_url rate_limit_url library_session))))
  /\ check_rate_limiting Core
       (snd (set_remaining Core (PInt 50)
               (snd (get_json_from_url rate_limit_url library_session)))) =
     (Ok tt,
      snd (set_remaining Core (PInt 50)
             (snd (get_json_from_url rate_limit_url library_session)))).
Proof.
  destruct (check_rate_limiting_refreshes Core library_session
              (snd (get_json_from_url rate_limit_url library_session))
              (first_page (rate_limit_status 50))
              [("resources",
                PDict [("core", pool_status 50); ("search", pool_status 50)])]
              (PDict [("core", pool_status 50); ("search", pool_status 50)])
              (pool_status 50) (PInt 50) (PInt 1000) (PInt 60))
    as (_ & Hfirst & _ & _ & _ & Hsecond);
    try (vm_compute; reflexivity).
  split; [exact Hfirst | exact Hsecond].
Defined.

Lemma root_descriptor_found_witness :
  find_library_folder 0 sample_repository fresh_row true manifest_session =
    (Ok (Some "/", manifest_row),
     snd (parse_library_dot_json "/" sample_repository manifest_row
            (after_properties manifest_session))).
Proof.
  apply (root_descriptor_found 0 sample_repository fresh_row
           manifest_row manifest_row
           true manifest_session (after_properties manifest_session)
           (snd (parse_library_dot_json "/" sample_repository manifest_row
                   (after_properties manifest_session)))
           (Some true) false).
  - vm_compute. reflexivity.
  - vm_compute. reflexivity.
  - reflexivity.
Defined.

Lemma plain_mode_header_in_root_witness :
  find_library_folder 1 sample_repository fresh_row false library_session =
    (Ok (Some "/", fresh_row), after_listing library_session).
Proof.
  apply (plain_mode_header_in_root 0 sample_repository fresh_row fresh_row fresh_row
           library_session (after_properties library_session)
           (after_json library_session) (after_listing library_session)
           (Some false) (first_page (PList library_listing))
           library_listing library_entries).
  - vm_compute. reflexivity.
  - reflexivity.
  - vm_compute. reflexivity.
  - vm_compute. reflexivity.
  - reflexivity.
  - repeat (constructor; [split; reflexivity|]). constructor.
  - reflexivity.
Defined.

Lemma plain_mode_nothing_to_scan_witness :
  find_library_folder 1 sample_repository fresh_row false bare_session =
    (Ok (None, fresh_row), after_listing bare_session).
Proof.
  apply (plain_mode_nothing_to_scan 0 sample_repository fresh_row fresh_row fresh_row
           bare_session (after_properties bare_session)
           (after_json bare_session) (after_listing bare_session)
           (Some false) (first_page (PList [entry "README.md" "file"]))
           [entry "README.md" "file"] [("README.md", "file")]).
  - vm_compute. reflexivity.
  - reflexivity.
  - vm_compute. reflexivity.
  - vm_compute. reflexivity.
  - reflexivity.
  - repeat (constructor; [split; reflexivity|]). constructor.
  - reflexivity.
  - reflexivity.
  - reflexivity.
Defined.

Lemma plain_mode_first_subfolder_witness :
  find_library_folder 2 sample_repository fresh_row false nested_session =
    (Ok (Some "src", fresh_row),
     snd (get_github_api_response
            (contents_request sample_repository +:+ "/" +:+ "src") "" 1
            (after_listing nested_session))).
Proof.
  apply (plain_mode_first_subfolder 0 sample_repository fresh_row fresh_row fresh_row
           nested_session (after_properties nested_session)
           (after_json nested_session) (after_listing nested_session)
           (snd (get_github_api_response
                   (contents_request sample_repository +:+ "/" +:+ "src") "" 1
                   (after_listing nested_session)))
           (Some false) (first_page (PList nested_listing))
           (first_page (PList [entry "Lib.h" "file"]))
           [entry "README.md" "file"] [] (entry "src" "dir") "src"
           [("README.md", "file")] []
           [entry "Lib.h" "file"] [("Lib.h", "file")]).
  - vm_compute. reflexivity.
  - reflexivity.
  - vm_compute. reflexivity.
  - vm_compute. reflexivity.
  - reflexivity.
  - repeat (constructor; [split; reflexivity|]). constructor.
  - split; reflexivity.
  - constructor.
  - reflexivity.
  - reflexivity.
  - reflexivity.
  - reflexivity.
  - reflexivity.
  - vm_compute. reflexivity.
  - reflexivity.
  - repeat (constructor; [split; reflexivity|]). constructor.
  - reflexivity.
  - reflexivity.
Defined.

(** The listing of src keeps failing: the scan of the root starts again
    at its first page, one unit of fuel spent. *)
Lemma failed_subfolder_restarts_root_scan_witness :
  root_pages 2 sample_repository false 1 fresh_row (after_json broken_folder_session) =
    root_pages 1 sample_repository false 1 fresh_row
      (warned (subfolder_warning "src")
         (snd (get_github_api_response
                 (contents_request sample_repository +:+ "/" +:+ "src") "" 1
                 (after_listing broken_folder_session)))).
Proof.
  apply (failed_subfolder_restarts_root_scan 0 sample_repository 1 fresh_row
           (after_json broken_folder_session) (after_listing broken_folder_session)
           (snd (get_github_api_response
                   (contents_request sample_repository +:+ "/" +:+ "src") "" 1
                   (after_listing broken_folder_session)))
           (first_page (PList nested_listing)) (HTTPError 404 "Not Found")
           [entry "README.md" "file"] [] (entry "src" "dir") "src"
           [("README.md", "file")] []).
  - vm_compute. reflexivity.
  - reflexivity.
  - repeat (constructor; [split; reflexivity|]). constructor.
  - split; reflexivity.
  - constructor.
  - reflexivity.
  - reflexivity.
  - reflexivity.
  - reflexivity.
  - reflexivity.
  - vm_compute. reflexivity.
  - reflexivity.
Defined.

(** An empty repository: the contents endpoint answers 404. *)
Lemma root_listing_http_error_witness :
  find_library_folder 1 sample_repository fresh_row false missing_session =
    (Ok (None, fresh_row), after_listing missing_session).
Proof.
  apply (root_listing_http_error 0 sample_repository fresh_row fresh_row fresh_row
           false missing_session (after_properties missing_session)
           (after_json missing_session) (after_listing missing_session)
           (Some false) (HTTPError 404 "Not Found")).
  - vm_compute. reflexivity.
  - reflexivity.
  - vm_compute. reflexivity.
  - vm_compute. reflexivity.
Defined.

Lemma find_library_folder_answer_witness :
  "src" = "/"
  \/ (false = false /\ String.eqb "src" "" = false /\ startswith "src" "." = false).
Proof.
  apply (find_library_folder_answer 2 sample_repository fresh_row fresh_row false
           nested_session
           (snd (find_library_folder 2 sample_repository fresh_row false nested_session))
           "src").
  vm_compute. reflexivity.
Defined.

Lemma parse_library_dot_properties_fields_witness :
  exists row',
    fst (parse_library_dot_properties "/" sample_repository fresh_row manifest_session) =
      Ok (Some true, row')
    /\ row' !!! Column.library_manager_name = PStr "Lib2"
    /\ row' !!! Column.library_manager_url = PStr ""
    /\ row' !!! Column.repository_url = PStr "".
Proof.
  destruct (parse_library_dot_properties_fields "/" sample_repository fresh_row
              manifest_session properties_text None None None)
    as (row' & Hrun & Hfields & Hothers).
  - vm_compute. reflexivity.
  - exists row'. split; [now rewrite Hrun|]. split; [|split].
    + rewrite (Hfields "name" Column.library_manager_name); [reflexivity|].
      simpl. tauto.
    + rewrite (Hfields "url" Column.library_manager_url); [reflexivity|].
      simpl. tauto.
    + rewrite Hothers; [reflexivity|].
      intros key Hin. simpl in Hin. intuition discriminate.
Defined.

Lemma descriptor_parsers_keep_to_their_columns_witness :
  manifest_row !!! Column.platformio_name = fresh_row !!! Column.platformio_name
  /\ json_row !!! Column.library_manager_name =
     fresh_row !!! Column.library_manager_name.
Proof.
  split.
  - destruct (descriptor_parsers_keep_to_their_columns "/" sample_repository
                fresh_row manifest_row manifest_session
                (after_properties manifest_session)) as [H _].
    apply (H (Some true)).
    + vm_compute. reflexivity.
    + intros key Hin. simpl in Hin. intuition discriminate.
  - destruct (descriptor_parsers_keep_to_their_columns "/" sample_repository
                fresh_row json_row (fresh (always (ok json_with_author_objects)))
                (snd (parse_library_dot_json "/" sample_repository fresh_row
                        (fresh (always (ok json_with_author_objects))))))
      as [_ H].
    apply (H true).
    + vm_compute. reflexivity.
    + intros Hin. simpl in Hin. intuition discriminate.
Defined.

Lemma find_library_folder_keeps_repository_columns_witness :
  manifest_row !!! Column.library_path = fresh_row !!! Column.library_path.
Proof.
  apply (find_library_folder_keeps_repository_columns 0 sample_repository
           fresh_row manifest_row true manifest_session
           (snd (find_library_folder 0 sample_repository fresh_row true
                   manifest_session))
           (Some "/") Column.library_path).
  - vm_compute. reflexivity.
  - split.
    + intros key Hin. simpl in Hin. intuition discriminate.
    + intros Hin. simpl in Hin. intuition discriminate.
Defined.

Lemma populate_row_cells_witness :
  sample_row !!! Column.repository_license = "MIT"
  /\ sample_row !!! Column.repository_description = ""
  /\ sample_row !!! Column.github_topics = "arduino, arduino-library"
  /\ sample_row !!! Column.library_path = "/"
  /\ described_row !!! Column.repository_description = "Lib"
  /\ described_row !!! Column.last_push_date = "None".
Proof.
  destruct (populate_row_cells 1 sample_repository false false initialize_table
              library_session
              (snd (populate_row 1 sample_repository false false initialize_table
                      library_session))
              (Ok tt) sample_row)
    as (_ & located & s1 & contributors & Hfind & _ & _ & Hpath & _ & _ & _ & _
        & _ & _ & _ & _ & _ & _ & Hlicense & _ & Hdescription & Htopics & _).
  { vm_compute. reflexivity. }
  destruct (populate_row_cells 1 described_repository false false initialize_table
              library_session
              (snd (populate_row 1 described_repository false false
                      initialize_table library_session))
              (Ok tt) described_row)
    as (_ & _ & _ & _ & _ & _ & _ & _ & _ & _ & _ & _
        & _ & _ & _ & Hpushed & _ & _ & _ & _ & Hdescribed & _).
  { vm_compute. reflexivity. }
  split; [|split; [|split; [|split; [|split]]]].
  - rewrite Hlicense. vm_compute. reflexivity.
  - rewrite Hdescription. reflexivity.
  - rewrite Htopics. vm_compute. reflexivity.
  - reflexivity.
  - rewrite Hdescribed. vm_compute. reflexivity.
  - rewrite Hpushed. vm_compute. reflexivity.
Defined.


Lemma get_contributor_count_outcomes_witness :
  fst (get_contributor_count sample_repository (counted (always (ok (PList []))))) =
    Ok "0"
  /\ fst (get_contributor_count sample_repository
            (counted (always (HttpOk "<html>" None None None)))) = Ok ""
  /\ fst (get_contributor_count sample_repository
            (counted (always (HttpFailure 404 "Not Found")))) =
     Raise (HTTPError 404 "Not Found").
Proof.
  split; [|split].
  - destruct (get_contributor_count_outcomes sample_repository
                (counted (always (ok (PList [])))) eq_refl) as (H & _).
    destruct (H "" (PList []) None None
                (advance (counted (always (ok (PList []))))
                   [contributors_url sample_repository] 0) eq_refl eq_refl)
      as (Hrun & Hzero & _).
    rewrite Hrun. cbn [fst]. now rewrite Hzero.
  - destruct (get_contributor_count_outcomes sample_repository
                (counted (always (HttpOk "<html>" None None None))) eq_refl)
      as (_ & H & _).
    now rewrite (H "<html>" None None eq_refl).
  - destruct (get_contributor_count_outcomes sample_repository
                (counted (always (HttpFailure 404 "Not Found"))) eq_refl)
      as (_ & _ & _ & H).
    rewrite (H 404 "Not Found"); [reflexivity | lia | reflexivity | reflexivity].
Defined.

Lemma parse_library_dot_json_fields_witness :
  json_row !!! Column.platformio_name = PStr "Lib"
  /\ json_row !!! Column.platformio_version = PStr "".
Proof.
  destruct (parse_library_dot_json_fields "/" sample_repository fresh_row json_row
              (fresh (always (ok json_with_author_objects)))
              (snd (get_json_from_url
                      (raw_file_url sample_repository "/" "library.json")
                      (fresh (always (ok json_with_author_objects)))))
              (snd (parse_library_dot_json "/" sample_repository fresh_row
                      (fresh (always (ok json_with_author_objects)))))
              (first_page json_with_author_objects)
              [("name", PStr "Lib");
               ("authors", PList [PDict [("name", PStr "A")];
                                  PDict [("name", PStr "B")]])]
              true)
    as (_ & Hfields & _).
  - vm_compute. reflexivity.
  - reflexivity.
  - vm_compute. reflexivity.
  - split.
    + rewrite (Hfields "name" Column.platformio_name); [reflexivity|].
      simpl. tauto.
    + rewrite (Hfields "version" Column.platformio_version); [reflexivity|].
      simpl. tauto.
Defined.

(** Of the four entries of the index, the second repeats the first and
    the third is on another host: two requests, both for the first
    repository. *)
Lemma process_library_manager_index_requests_witness :
  process_library_manager_index logging_populate library_index
    (initialize_table, library_session) =
  populate_all logging_populate
    ["https://github.com/owner/lib.git"; "https://github.com/owner/lib.git"]
    (initialize_table, library_session).
Proof.
  rewrite (process_library_manager_index_requests logging_populate library_index
             [index_entry "https://github.com/owner/lib.git";
              index_entry "https://github.com/owner/lib.git";
              index_entry "https://gitlab.com/other/thing.git";
              index_entry "https://github.com/owner/lib.git"]
             index_urls).
  - reflexivity.
  - reflexivity.
  - repeat (constructor; [reflexivity|]). constructor.
  - repeat (constructor; [reflexivity|]). constructor.
Defined.

Lemma repository_request_of_url_witness :
  repository_request ("https://github.com/" +:+ "owner" +:+ "/" +:+ "lib.git") =
    Ok ("repos/" +:+ "owner" +:+ "/" +:+ "lib")
  /\ repository_request ("https://github.com/" +:+ "owner" +:+ "/" +:+ accented) =
     Ok ("repos/" +:+ "owner" +:+ "/" +:+ "").
Proof.
  split.
  - destruct (repository_request_of_url "owner" "lib.git" eq_refl eq_refl)
      as (_ & H & Hname & _).
    rewrite H, (Hname "lib" ".git" eq_refl eq_refl eq_refl). reflexivity.
  - destruct (repository_request_of_url "owner" accented) as (_ & H & _ & Hshort).
    + reflexivity.
    + vm_compute. reflexivity.
    + rewrite H, Hshort; [reflexivity | vm_compute; lia].
Defined.

End FurtherWorked.
